(** * Dataset management and basic analysis: a shallow embedding of variable.py

    The program reads numeric tokens and category labels from flat files,
    validates the tokens as floating-point numbers, aggregates them (sum,
    mean, minimum, maximum, a threshold label, the unique categories) and
    renders a report.  Python values are embedded as follows:

    - [float] is IEEE binary64, the kernel's primitive floats;
    - [int] is [Z], and a number is a [pynum] (an int or a float) with
      Python's coercions written out;
    - [str] is [string] (ASCII text), [list] is [list], [set] is [gset],
      [dict] is [gmap], and a dict object lives in a heap of dict objects,
      since the statistics mapping is shared between the data set and its
      readers;
    - a call that may raise returns an [outcome]; code that touches files,
      the console or the heap runs in the state-and-exception monad [M]. *)

From Stdlib Require Import ZArith List String Ascii Floats Lia Bool.
From stdpp Require Import gmap strings list fin_maps pretty sorting.

Set Warnings "-inexact-float,-clear-no-such-hyp".

Open Scope Z_scope.

(** ** Exceptions *)

(** The exception classes the program raises or can meet. Every one of them
    derives from [Exception]; [FileNotFoundError] and [PermissionError]
    derive from [OSError], [UnicodeDecodeError] from [ValueError]. *)
Inductive exn_class :=
  | Exception
  | OSError
  | FileNotFoundError
  | PermissionError
  | ValueError
  | UnicodeDecodeError
  | TypeError
  | ZeroDivisionError
  | OverflowError
  | csv_Error.

Global Instance exn_class_eq_dec : EqDecision exn_class.
Proof. solve_decision. Defined.

(** An exception object: its class and [str(e)]. *)
Record exn := mk_exn { exn_cls : exn_class; exn_msg : string }.

Global Instance exn_eq_dec : EqDecision exn.
Proof. solve_decision. Defined.

(** [subclass c d]: class [c] is [d] or derives from it. *)
Definition subclass (c d : exn_class) : bool :=
  match d with
  | Exception => true
  | OSError =>
      match c with OSError | FileNotFoundError | PermissionError => true | _ => false end
  | ValueError =>
      match c with ValueError | UnicodeDecodeError => true | _ => false end
  | _ => bool_decide (c = d)
  end.

Definition isinstance (e : exn) (d : exn_class) : bool := subclass (exn_cls e) d.

(** The result of a call: a returned value or a raised exception. *)
Inductive outcome (A : Type) :=
  | Return (a : A)
  | Raise (e : exn).
Arguments Return {A} a.
Arguments Raise {A} e.

(** ** Numbers *)

(** [float(n)] for an int: the nearest binary64, ties to even. Python
    raises [OverflowError] where this rounds to an infinity, from 2^1024 on;
    the ints the program converts are 0 and lengths of lists, far below. *)
Definition float_of_Z (n : Z) : float :=
  SF2Prim (binary_normalize prec emax n 0 false).

(** The correctly rounded quotient of two integers, [m / n] with [n <> 0]. *)
Definition Z_truediv (m n : Z) : float :=
  match m with
  | Z0 => SF2Prim (S754_zero (n <? 0))
  | _ =>
      let '(q, e, l) := SFdiv_core_binary prec emax (Z.abs m) 0 (Z.abs n) 0 in
      SF2Prim (binary_round_aux prec emax (xorb (m <? 0) (n <? 0)) q e l)
  end.

Inductive pynum :=
  | PyInt (n : Z)
  | PyFloat (x : float).

(** The float a number is added or divided as. *)
Definition to_float (v : pynum) : float :=
  match v with
  | PyInt n => float_of_Z n
  | PyFloat x => x
  end.

(** [a + b] *)
Definition py_add (a b : pynum) : pynum :=
  match a, b with
  | PyInt m, PyInt n => PyInt (m + n)
  | _, _ => PyFloat (to_float a + to_float b)%float
  end.

(** [a / b], true division: [ZeroDivisionError] on a zero divisor (an int
    divisor converts to the float zero only when it is 0). *)
Definition py_truediv (a b : pynum) : outcome pynum :=
  match a, b with
  | PyInt m, PyInt n =>
      if n =? 0 then Raise (mk_exn ZeroDivisionError "division by zero")
      else Return (PyFloat (Z_truediv m n))
  | PyFloat x, PyInt n =>
      if n =? 0 then Raise (mk_exn ZeroDivisionError "float division by zero")
      else Return (PyFloat (x / float_of_Z n))
  | _, PyFloat y =>
      if (y =? 0)%float then Raise (mk_exn ZeroDivisionError "float division by zero")
      else Return (PyFloat (to_float a / y))
  end.

(** Python compares an int with a float by value, without rounding the int:
    [float_compare_Z x n] is the comparison of [x] with [n], [None] for NaN. *)
Definition float_compare_Z (x : float) (n : Z) : option comparison :=
  match Prim2SF x with
  | S754_nan => None
  | S754_infinity s => Some (if s then Lt else Gt)
  | S754_zero _ => Some (0 ?= n)
  | S754_finite s m e =>
      let v := if s then Z.neg m else Z.pos m in
      Some (if 0 <=? e then (v * 2 ^ e ?= n) else (v ?= n * 2 ^ (- e)))
  end.

(** The comparison of two floats, [None] when one is a NaN. *)
Definition float_compare (x y : float) : option comparison :=
  match (x ?= y)%float with
  | FEq => Some Eq
  | FLt => Some Lt
  | FGt => Some Gt
  | FNotComparable => None
  end.

Definition py_compare (a b : pynum) : option comparison :=
  match a, b with
  | PyInt m, PyInt n => Some (m ?= n)
  | PyFloat x, PyFloat y => float_compare x y
  | PyFloat x, PyInt n => float_compare_Z x n
  | PyInt m, PyFloat y => CompOpp <$> float_compare_Z y m
  end.

(** [a >= b] *)
Definition py_ge (a b : pynum) : bool :=
  match py_compare a b with
  | Some (Gt | Eq) => true
  | _ => false
  end.

(** ** Aggregator *)

Definition calculate_total (data : list float) : pynum :=
  fold_left (fun total value => py_add total (PyFloat value)) data (PyInt 0).

Definition calculate_average (data : list float) : outcome pynum :=
  match data with
  | [] => Return (PyInt 0)
  | _ =>
      let total := calculate_total data in
      py_truediv total (PyInt (Z.of_nat (length data)))
  end.

(** Python's [None] is the [None] of [option]. *)
Definition calculate_minimum (data : list float) : option float :=
  match data with
  | [] => None
  | first :: rest =>
      Some (fold_left
              (fun minimum value => if (value <? minimum)%float then value else minimum)
              rest first)
  end.

Definition calculate_maximum (data : list float) : option float :=
  match data with
  | [] => None
  | first :: rest =>
      Some (fold_left
              (fun maximum value => if (maximum <? value)%float then value else maximum)
              rest first)
  end.

(** ** Classifier *)

(** The default of the parameter [threshold]. *)
Definition default_threshold : pynum := PyInt 75.

Definition evaluate_performance (average threshold : pynum) : string :=
  if py_ge average threshold then "High Performance" else "Needs Improvement".

(** ** Sets *)

(** [set(categories)] and its [len]. *)
Definition get_unique_categories (categories : list string) : gset string * nat :=
  let unique_categories : gset string := list_to_set categories in
  (unique_categories, size unique_categories).

(** ** Strings *)

(** [c.isspace()] for a character of ASCII text: the tab, the line feed, the
    vertical tab, the form feed, the carriage return, the four separators
    and the space. Python counts some characters beyond ASCII as white
    space too (such as U+0085 and U+00A0); ASCII text has none of them, and
    what is stated of [strip] on the content of a file is stated of ASCII
    text. *)
Definition isspace (c : ascii) : bool :=
  match c with
  | "009" | "010" | "011" | "012" | "013" | "028" | "029" | "030" | "031" | " " => true
  | _ => false
  end%char.

Fixpoint lstrip (s : string) : string :=
  match s with
  | String c s' => if isspace c then lstrip s' else s
  | EmptyString => EmptyString
  end.

Definition rstrip (s : string) : string := String.rev (lstrip (String.rev s)).

(** [s.strip()] *)
Definition strip (s : string) : string := rstrip (lstrip s).

(** [s.endswith(suffix)] *)
Definition endswith (s suffix : string) : bool :=
  String.prefix (String.rev suffix) (String.rev s).

(** [c * n] for a one-character string. *)
Definition repeat_char (c : ascii) (n : nat) : string :=
  string_of_list_ascii (repeat c n).

(** [str(n)] for an int. *)
Definition str_of_int (n : Z) : string := pretty n.

(** Iterating over a text file yields its lines, each with its line end, and
    every line end ([\n], [\r\n] or [\r]) read as [\n]. [cur] is the line
    read so far, last character first. *)
Fixpoint file_lines_go (cur : string) (s : string) : list string :=
  match s with
  | EmptyString =>
      match cur with
      | EmptyString => []
      | _ => [String.rev cur]
      end
  | String "010"%char s' => String.rev (String "010"%char cur) :: file_lines_go "" s'
  | String "013"%char s' =>
      String.rev (String "010"%char cur) ::
      match s' with
      | String "010"%char s'' => file_lines_go "" s''
      | _ => file_lines_go "" s'
      end
  | String c s' => file_lines_go (String c cur) s'
  end.

Definition file_lines (content : string) : list string := file_lines_go "" content.

(** ** The float parser: [float(s)] for a string *)

(** The value of a decimal digit, by its code. *)
Definition digit_val (c : ascii) : option Z :=
  let code := Z.of_nat (nat_of_ascii c) in
  if (48 <=? code) && (code <=? 57) then Some (code - 48) else None.

Definition is_digit (c : ascii) : bool := bool_decide (is_Some (digit_val c)).

(** The C locale's [isspace], which [float] strips around its argument. *)
Definition c_isspace (c : ascii) : bool := Ascii.is_space c.

Fixpoint c_lstrip (s : string) : string :=
  match s with
  | String c s' => if c_isspace c then c_lstrip s' else s
  | EmptyString => EmptyString
  end.

(** Underscores may only separate digits; they are dropped before the number
    is read. [prev] is the previous character. *)
Fixpoint drop_underscores (prev : option ascii) (s : string) : option string :=
  match s with
  | EmptyString => if bool_decide (prev = Some "_"%char) then None else Some EmptyString
  | String c s' =>
      if bool_decide (c = "_"%char) then
        if from_option is_digit false prev then drop_underscores (Some c) s' else None
      else if bool_decide (prev = Some "_"%char) && negb (is_digit c) then None
      else String c <$> drop_underscores (Some c) s'
  end.

(** Reads a run of digits: the value [acc] extended by them, their number
    added to [cnt], and the rest of the string. *)
Fixpoint take_digits (s : string) (acc cnt : Z) : Z * Z * string :=
  match s with
  | String c s' =>
      match digit_val c with
      | Some d => take_digits s' (10 * acc + d) (cnt + 1)
      | None => (acc, cnt, s)
      end
  | EmptyString => (acc, cnt, s)
  end.

Definition take_sign (s : string) : bool * string :=
  match s with
  | String "-"%char s' => (true, s')
  | String "+"%char s' => (false, s')
  | _ => (false, s)
  end.

(** A decimal number [digits [. digits] [e [sign] digits]] with at least one
    digit before the exponent, read as [(n, e)], of value [n * 10 ^ e]. *)
Definition parse_decimal (s : string) : option (Z * Z) :=
  let '(ip, ni, s1) := take_digits s 0 0 in
  let '(n, nf, s2) :=
    match s1 with
    | String "."%char r => take_digits r ip 0
    | _ => (ip, 0, s1)
    end in
  if ni + nf =? 0 then None
  else
    match s2 with
    | EmptyString => Some (n, - nf)
    | String c r =>
        if bool_decide (c = "e"%char) || bool_decide (c = "E"%char) then
          let '(neg, r1) := take_sign r in
          let '(ev, ne, r2) := take_digits r1 0 0 in
          if (ne =? 0) || negb (bool_decide (r2 = EmptyString)) then None
          else Some (n, (if neg then - ev else ev) - nf)
        else None
    end.

(** The binary64 nearest to [(-1)^neg * n * 10 ^ e], ties to even, for [0 <= n]. *)
Definition decimal_to_float (neg : bool) (n e : Z) : float :=
  if n =? 0 then SF2Prim (S754_zero neg)
  else if 0 <=? e then
    SF2Prim (binary_normalize prec emax ((if neg then - n else n) * 10 ^ e) 0 false)
  else
    let '(q, e', l) := SFdiv_core_binary prec emax n 0 (10 ^ (- e)) 0 in
    SF2Prim (binary_round_aux prec emax neg q e' l).

Definition lower (c : ascii) : ascii :=
  let n := nat_of_ascii c in
  if (65 <=? n)%nat && (n <=? 90)%nat then ascii_of_nat (n + 32) else c.

Fixpoint lowercase (s : string) : string :=
  match s with
  | String c s' => String (lower c) (lowercase s')
  | EmptyString => EmptyString
  end.

(** [float(s)]: [None] stands for the [ValueError] it raises on a string that
    is not a number. *)
Definition py_float (s : string) : option float :=
  s ← drop_underscores None (String.rev (c_lstrip (String.rev (c_lstrip s))));
  let '(neg, body) := take_sign s in
  match parse_decimal body with
  | Some (n, e) => Some (decimal_to_float neg n e)
  | None =>
      let w := lowercase body in
      if bool_decide (w = "inf") || bool_decide (w = "infinity") then
        Some (if neg then neg_infinity else infinity)
      else if bool_decide (w = "nan") then Some nan
      else None
  end.

(** ** The CSV reader: [csv.reader(lines)] with the default dialect

    Delimiter comma, quote character the double quote, doubled inside a quoted field,
    no escape character, initial spaces kept, not strict. The reader is the
    state machine of the [csv] module, one character at a time. *)

Inductive csv_state :=
  | START_RECORD
  | START_FIELD
  | IN_FIELD
  | IN_QUOTED_FIELD
  | QUOTE_IN_QUOTED_FIELD
  | EAT_CRNL.

Global Instance csv_state_eq_dec : EqDecision csv_state.
Proof. solve_decision. Defined.

(** The reader's record under construction: [field] holds the characters of
    the current field, last first, [fields] the fields saved so far, last first. *)
Record csv_parser := mk_csv_parser {
  state : csv_state;
  field : string;
  field_len : Z;
  fields : list string;
}.

Definition field_limit : Z := 131072.

Definition parse_reset : csv_parser :=
  {| state := START_RECORD; field := ""; field_len := 0; fields := [] |}.

Definition parse_save_field (p : csv_parser) : csv_parser :=
  {| state := state p; field := ""; field_len := 0;
     fields := String.rev (field p) :: fields p |}.

Definition parse_add_char (p : csv_parser) (c : ascii) : outcome csv_parser :=
  if field_limit <=? field_len p then
    Raise (mk_exn csv_Error ("field larger than field limit (" +:+ str_of_int field_limit +:+ ")"))
  else
    Return {| state := state p; field := String c (field p);
              field_len := field_len p + 1; fields := fields p |}.

Definition set_state (p : csv_parser) (s : csv_state) : csv_parser :=
  {| state := s; field := field p; field_len := field_len p; fields := fields p |}.

Definition is_newline (c : option ascii) : bool :=
  bool_decide (c = Some "010"%char) || bool_decide (c = Some "013"%char).

(** One step of the reader; [None] is the end of the line. *)
Definition parse_process_char (p : csv_parser) (c : option ascii) : outcome csv_parser :=
  let start_field (p : csv_parser) :=
    match c with
    | None => Return (set_state (parse_save_field p) START_RECORD)
    | Some ch =>
        if is_newline c then Return (set_state (parse_save_field p) EAT_CRNL)
        else if bool_decide (ch = "034"%char) then Return (set_state p IN_QUOTED_FIELD)
        else if bool_decide (ch = ","%char) then Return (parse_save_field p)
        else
          match parse_add_char p ch with
          | Return p' => Return (set_state p' IN_FIELD)
          | Raise e => Raise e
          end
    end in
  match state p with
  | START_RECORD =>
      match c with
      | None => Return p
      | Some _ =>
          if is_newline c then Return (set_state p EAT_CRNL)
          else start_field (set_state p START_FIELD)
      end
  | START_FIELD => start_field p
  | IN_FIELD =>
      match c with
      | None => Return (set_state (parse_save_field p) START_RECORD)
      | Some ch =>
          if is_newline c then Return (set_state (parse_save_field p) EAT_CRNL)
          else if bool_decide (ch = ","%char) then
            Return (set_state (parse_save_field p) START_FIELD)
          else parse_add_char p ch
      end
  | IN_QUOTED_FIELD =>
      match c with
      | None => Return p
      | Some ch =>
          if bool_decide (ch = "034"%char) then Return (set_state p QUOTE_IN_QUOTED_FIELD)
          else parse_add_char p ch
      end
  | QUOTE_IN_QUOTED_FIELD =>
      match c with
      | None => Return (set_state (parse_save_field p) START_RECORD)
      | Some ch =>
          if bool_decide (ch = "034"%char) then
            match parse_add_char p ch with
            | Return p' => Return (set_state p' IN_QUOTED_FIELD)
            | Raise e => Raise e
            end
          else if bool_decide (ch = ","%char) then
            Return (set_state (parse_save_field p) START_FIELD)
          else if is_newline c then Return (set_state (parse_save_field p) EAT_CRNL)
          else
            match parse_add_char p ch with
            | Return p' => Return (set_state p' IN_FIELD)
            | Raise e => Raise e
            end
      end
  | EAT_CRNL =>
      match c with
      | None => Return (set_state p START_RECORD)
      | Some _ =>
          if is_newline c then Return p
          else Raise (mk_exn csv_Error
                 "new-line character seen in unquoted field - do you need to open the file with newline=''?")
      end
  end.

(** Feeds the characters of one line, then the end of the line. *)
Fixpoint parse_line (p : csv_parser) (line : string) : outcome csv_parser :=
  match line with
  | EmptyString => parse_process_char p None
  | String c line' =>
      match parse_process_char p (Some c) with
      | Return p' => parse_line p' line'
      | Raise e => Raise e
      end
  end.

(** The rows of the reader over the remaining [lines]; [p] is the record
    under construction, which goes on over several lines inside quotes. *)
Fixpoint csv_rows (p : csv_parser) (lines : list string) : outcome (list (list string)) :=
  match lines with
  | [] =>
      if bool_decide (field_len p ≠ 0) || bool_decide (state p = IN_QUOTED_FIELD) then
        Return [rev (fields (parse_save_field p))]
      else Return []
  | line :: lines' =>
      match parse_line p line with
      | Raise e => Raise e
      | Return p' =>
          if bool_decide (state p' = START_RECORD) then
            match csv_rows parse_reset lines' with
            | Return rows => Return (rev (fields p') :: rows)
            | Raise e => Raise e
            end
          else csv_rows p' lines'
      end
  end.

(** [list(csv.reader(lines))] *)
Definition py_csv_reader (lines : list string) : outcome (list (list string)) :=
  csv_rows parse_reset lines.

(** The newline, as a string. *)
Definition nl : string := String "010"%char "".

(** ** Values, the heap and the world *)

(** The values a statistics dict holds: [None], a number or a string. *)
Inductive pyval :=
  | VNone
  | VNum (n : pynum)
  | VStr (s : string).

Definition of_opt_float (o : option float) : pyval :=
  match o with
  | Some x => VNum (PyFloat x)
  | None => VNone
  end.

(** ** Formatting: [format(value, spec)] for the fields the program renders *)

(** The format specifications of the program's f-strings: none ([{x}]),
    [{x:,}] and [{x:.2f}]. *)
Inductive format_spec :=
  | fmt_plain
  | fmt_comma
  | fmt_2f.

(** [n / d] rounded to the nearest integer, ties to even, for [0 <= n], [0 < d]. *)
Definition round_half_even (n d : Z) : Z :=
  let q := n / d in
  let r := n mod d in
  match 2 * r ?= d with
  | Lt => q
  | Gt => q + 1
  | Eq => if Z.even q then q else q + 1
  end.

(** A finite non-zero float [m * 2 ^ e] as a fraction. *)
Definition exact_fraction (m : positive) (e : Z) : Z * Z :=
  if 0 <=? e then (Z.pos m * 2 ^ e, 1) else (Z.pos m, 2 ^ (- e)).

(** [n / d * 10 ^ k] rounded to the nearest integer, ties to even. *)
Definition scale_round (n d k : Z) : Z :=
  if 0 <=? k then round_half_even (n * 10 ^ k) d else round_half_even n (d * 10 ^ (- k)).

(** [n / d < 10 ^ k] *)
Definition below_pow10 (n d k : Z) : bool :=
  if 0 <=? k then n <? d * 10 ^ k else n * 10 ^ (- k) <? d.

(** The least [k] from [k0] on with [n / d < 10 ^ k], looked for in [fuel]
    steps. *)
Fixpoint find_decpt (fuel : nat) (n d k0 : Z) : Z :=
  match fuel with
  | O => k0
  | S fuel' => if below_pow10 n d k0 then k0 else find_decpt fuel' n d (k0 + 1)
  end.

(** The position of the decimal point of [n / d]: the [k] with
    [10 ^ (k - 1) <= n / d < 10 ^ k], found from an estimate by the binary
    logarithms that is at most four below it. *)
Definition decpt_of (n d : Z) : Z :=
  let lg := Z.log2 n - Z.log2 d in
  find_decpt 8 n d ((lg - 1) * 30103 / 100000 - 1).

Definition zeros (k : Z) : string := repeat_char "0" (Z.to_nat k).

Fixpoint strip_zeros_left (s : string) : string :=
  match s with
  | String "0"%char s' => strip_zeros_left s'
  | _ => s
  end.

Definition strip_trailing_zeros (s : string) : string :=
  String.rev (strip_zeros_left (String.rev s)).

(** [n / d * 10 ^ k] rounded down to an integer. *)
Definition scale_floor (n d k : Z) : Z :=
  if 0 <=? k then n * 10 ^ k / d else n / (d * 10 ^ (- k)).

(** The [p] digits [r], with the decimal point at [k], when they read back as
    [x]. *)
Definition digits_if_exact (p k r : Z) (x : float) : option (string * Z) :=
  let '(r, k) := if r =? 10 ^ p then (10 ^ (p - 1), k + 1) else (r, k) in
  if (decimal_to_float false r (k - p) =? x)%float
  then Some (strip_trailing_zeros (pretty r), k)
  else None.

(** The shortest digit string that reads back as [x = n / d], with its
    decimal point: for each number [p] of significant digits of [ps] in
    turn, the nearest decimal of [p] digits, or else its neighbour on the
    other side of [x]; 17 digits always read back. *)
Fixpoint shortest_digits (ps : list Z) (n d : Z) (x : float) : string * Z :=
  let k := decpt_of n d in
  match ps with
  | [] => (pretty (scale_round n d (17 - k)), k)
  | p :: ps' =>
      let near := scale_round n d (p - k) in
      let low := scale_floor n d (p - k) in
      let other := if near =? low then low + 1 else low in
      match digits_if_exact p k near x with
      | Some r => r
      | None =>
          match digits_if_exact p k other x with
          | Some r => r
          | None => shortest_digits ps' n d x
          end
      end
  end.

Definition take_str (k : Z) (s : string) : string := String.substring 0 (Z.to_nat k) s.
Definition drop_str (k : Z) (s : string) : string :=
  String.substring (Z.to_nat k) (String.length s - Z.to_nat k) s.

(** Thousands separators in a string of digits, given last digit first;
    [k] digits of the current group are out. *)
Fixpoint group_rev (s : string) (k : nat) : string :=
  match s with
  | EmptyString => EmptyString
  | String c s' =>
      match k with
      | 3%nat => String ","%char (String c (group_rev s' 1))
      | _ => String c (group_rev s' (S k))
      end
  end.

Definition group_thousands (digits : string) : string :=
  String.rev (group_rev (String.rev digits) 0).

Definition sign_str (neg : bool) : string := if neg then "-" else "".

(** [repr(x)] of an int, and with thousands separators. *)
Definition int_str (grouped : bool) (n : Z) : string :=
  let digits := pretty (Z.abs n) in
  sign_str (n <? 0) +:+ (if grouped then group_thousands digits else digits).

(** [repr(x)] of a float: the shortest digits that read back as [x], in
    scientific notation when the decimal point falls more than 16 places
    right or more than 3 places left of the first digit. *)
Definition float_str (grouped : bool) (x : float) : string :=
  match Prim2SF x with
  | S754_nan => "nan"
  | S754_infinity s => sign_str s +:+ "inf"
  | S754_zero s => sign_str s +:+ "0.0"
  | S754_finite s m e =>
      let '(n, d) := exact_fraction m e in
      let '(ds, k) :=
        shortest_digits [1; 2; 3; 4; 5; 6; 7; 8; 9; 10; 11; 12; 13; 14; 15; 16] n d (abs x) in
      let len := Z.of_nat (String.length ds) in
      let int_part (s : string) := if grouped then group_thousands s else s in
      sign_str s +:+
      (if (k <=? -4) || (16 <? k) then
         take_str 1 ds +:+ (if 1 <? len then "." +:+ drop_str 1 ds else "") +:+ "e"
         +:+ (if k - 1 <? 0 then "-" else "+")
         +:+ (if Z.abs (k - 1) <? 10 then "0" else "") +:+ pretty (Z.abs (k - 1))
       else if k <=? 0 then "0." +:+ zeros (- k) +:+ ds
       else if len <=? k then int_part (ds +:+ zeros (k - len)) +:+ ".0"
       else int_part (take_str k ds) +:+ "." +:+ drop_str k ds)
  end.

(** [format(x, '.2f')] of a float. *)
Definition float_2f (x : float) : string :=
  match Prim2SF x with
  | S754_nan => "nan"
  | S754_infinity s => sign_str s +:+ "inf"
  | S754_zero s => sign_str s +:+ "0.00"
  | S754_finite s m e =>
      let '(n, d) := exact_fraction m e in
      let r := scale_round n d 2 in
      let cents := pretty (r mod 100) in
      sign_str s +:+ pretty (r / 100) +:+ "."
      +:+ (if r mod 100 <? 10 then "0" else "") +:+ cents
  end.

(** An int converts to a float unless it rounds out of range. *)
Definition int_to_float (n : Z) : outcome float :=
  let x := float_of_Z n in
  if is_infinity x then Raise (mk_exn OverflowError "int too large to convert to float")
  else Return x.

Definition py_format (value : pyval) (spec : format_spec) : outcome string :=
  match value, spec with
  | VNone, fmt_plain => Return "None"
  | VNone, _ =>
      Raise (mk_exn TypeError "unsupported format string passed to NoneType.__format__")
  | VStr s, fmt_plain => Return s
  | VStr s, fmt_comma => Raise (mk_exn ValueError "Cannot specify ',' with 's'.")
  | VStr s, fmt_2f =>
      Raise (mk_exn ValueError "Unknown format code 'f' for object of type 'str'")
  | VNum (PyInt n), fmt_plain => Return (int_str false n)
  | VNum (PyInt n), fmt_comma => Return (int_str true n)
  | VNum (PyInt n), fmt_2f =>
      match int_to_float n with
      | Return x => Return (float_2f x)
      | Raise e => Raise e
      end
  | VNum (PyFloat x), fmt_plain => Return (float_str false x)
  | VNum (PyFloat x), fmt_comma => Return (float_str true x)
  | VNum (PyFloat x), fmt_2f => Return (float_2f x)
  end.

(** The builtins the program calls and that lie outside it: [float] on a
    string ([None] for its [ValueError]), [csv.reader] read to the end over
    the lines of a file, and [format(value, spec)] behind every replacement
    field of an f-string. *)
Class Builtins := {
  float_of_str : string → option float;
  csv_reader : list string → outcome (list (list string));
  format : pyval → format_spec → outcome string;
}.

(** References to objects of the heap. *)
Definition loc := positive.

(** A [DataSet] object; [statistics] refers to a dict object of the heap. *)
Record DataSet := mk_DataSet {
  numerical_file : option string;
  categorical_file : option string;
  numerical_data : list float;
  categorical_data : list string;
  statistics : loc;
  unique_categories : gset string;
}.

(** The world: the dict and [DataSet] objects, the files by path with their
    content, the paths that cannot be opened for writing, the faults the
    coming input and output operations meet ([Some e]: the operation raises
    [e]; past the end of the list every operation succeeds), and the lines
    printed. *)
Record World := mk_World {
  dicts : gmap loc (gmap string pyval);
  datasets : gmap loc DataSet;
  files : gmap string string;
  unwritable : gset string;
  faults : list (option exn);
  stdout : list string;
}.

Definition set_dicts (f : gmap loc (gmap string pyval) → gmap loc (gmap string pyval))
    (w : World) : World :=
  mk_World (f (dicts w)) (datasets w) (files w) (unwritable w) (faults w) (stdout w).
Definition set_datasets (f : gmap loc DataSet → gmap loc DataSet) (w : World) : World :=
  mk_World (dicts w) (f (datasets w)) (files w) (unwritable w) (faults w) (stdout w).
Definition set_files (f : gmap string string → gmap string string) (w : World) : World :=
  mk_World (dicts w) (datasets w) (f (files w)) (unwritable w) (faults w) (stdout w).
Definition set_faults (f : list (option exn) → list (option exn)) (w : World) : World :=
  mk_World (dicts w) (datasets w) (files w) (unwritable w) (f (faults w)) (stdout w).
Definition set_stdout (f : list string → list string) (w : World) : World :=
  mk_World (dicts w) (datasets w) (files w) (unwritable w) (faults w) (f (stdout w)).

(** ** The monad of effectful code: state with exceptions *)

Definition M (A : Type) : Type := World → outcome A * World.

Global Instance M_ret : MRet M := λ A a w, (Return a, w).
Global Instance M_bind : MBind M := λ A B k m w,
  match m w with
  | (Return a, w') => k a w'
  | (Raise e, w') => (Raise e, w')
  end.

Definition raise {A} (e : exn) : M A := λ w, (Raise e, w).
Definition lift {A} (o : outcome A) : M A := λ w, (o, w).
Definition get_world : M World := λ w, (Return w, w).
Definition modify (f : World → World) : M unit := λ w, (Return (), f w).

(** [try: body except Exception as e: handler e]; a handler for a narrower
    class raises again what it does not catch. *)
Definition try_except {A} (body : M A) (handler : exn → M A) : M A := λ w,
  match body w with
  | (Return a, w') => (Return a, w')
  | (Raise e, w') => handler e w'
  end.

(** [print(s)] *)
Definition print (s : string) : M unit := modify (set_stdout (λ out, out ++ [s])).

(** An input or output operation meets the next scheduled fault. *)
Definition io_step : M unit := λ w,
  match faults w with
  | [] => (Return (), w)
  | None :: rest => (Return (), set_faults (λ _, rest) w)
  | Some e :: rest => (Raise e, set_faults (λ _, rest) w)
  end.

(** [open(filename, 'r')] and reading the file to its end. *)
Definition read_text (filename : string) : M string :=
  io_step;;
  w ← get_world;
  match files w !! filename with
  | Some content => mret content
  | None =>
      raise (mk_exn FileNotFoundError
               ("[Errno 2] No such file or directory: '" +:+ filename +:+ "'"))
  end.

(** [open(filename, 'w')]: the file is created or emptied. *)
Definition open_w (filename : string) : M unit :=
  io_step;;
  w ← get_world;
  if bool_decide (filename ∈ unwritable w) then
    raise (mk_exn PermissionError ("[Errno 13] Permission denied: '" +:+ filename +:+ "'"))
  else modify (set_files (insert filename "")).

(** [file.write(s)] on the file opened at [filename]. *)
Definition write (filename : string) (s : string) : M unit :=
  io_step;;
  modify (set_files (λ fs, <[filename := default "" (fs !! filename) +:+ s]> fs)).

(** [file.close()]: the file is flushed and closed. *)
Definition close (filename : string) : M unit := io_step.

(** [with open(filename, 'w') as file: body]: the file is closed when the
    block is left, also by an exception; an exception of [close] replaces it. *)
Definition with_open_w {A} (filename : string) (body : M A) : M A :=
  open_w filename;;
  ((λ w,
      match body w with
      | (Return a, w') => (close filename;; mret a) w'
      | (Raise e, w') => (close filename;; raise e) w'
      end) : M A).

(** Dict objects. *)
Definition dict_new (d : gmap string pyval) : M loc := λ w,
  let l := fresh (dom (dicts w)) in
  (Return l, set_dicts (insert l d) w).

Definition dict_read (l : loc) : M (gmap string pyval) := λ w,
  (Return (default ∅ (dicts w !! l)), w).

(** [d[key] = value] *)
Definition dict_setitem (l : loc) (key : string) (value : pyval) : M unit :=
  modify (set_dicts (λ h, <[l := <[key := value]> (default ∅ (h !! l))]> h)).

(** [d.get(key, dflt)] *)
Definition dict_get (l : loc) (key : string) (dflt : pyval) : M pyval :=
  d ← dict_read l; mret (default dflt (d !! key)).

(** [key in d] *)
Definition dict_contains (l : loc) (key : string) : M bool :=
  d ← dict_read l; mret (bool_decide (is_Some (d !! key))).

(** ** The program *)

Section program.
Context {py : Builtins}.

(** *** 1. Variables and file handling *)

(** The loops of [read_numerical_data] over the rows of a CSV file. *)
Definition csv_tokens (rows : list (list string)) : list string :=
  fold_left
    (λ data row,
       match row with
       | [] => data
       | _ =>
           fold_left
             (λ data value,
                if bool_decide (strip value ≠ "") then data ++ [strip value] else data)
             row data
       end)
    rows [].

(** The loop over the lines of a plain text file. *)
Definition line_tokens (lines : list string) : list string :=
  fold_left
    (λ data line,
       let value := strip line in
       if bool_decide (value ≠ "") then data ++ [value] else data)
    lines [].

Definition read_numerical_data (filename : string) : M (list string) :=
  try_except
    (content ← read_text filename;
     if endswith filename ".csv" then
       rows ← lift (csv_reader (file_lines content));
       mret (csv_tokens rows)
     else mret (line_tokens (file_lines content)))
    (λ e,
       if isinstance e FileNotFoundError then
         raise (mk_exn FileNotFoundError ("Error: File '" +:+ filename +:+ "' not found"))
       else raise (mk_exn Exception ("Error reading file: " +:+ exn_msg e))).

Definition read_categorical_data (filename : string) : M (list string) :=
  try_except
    (content ← read_text filename;
     mret (line_tokens (file_lines content)))
    (λ e,
       if isinstance e FileNotFoundError then
         raise (mk_exn FileNotFoundError ("Error: File '" +:+ filename +:+ "' not found"))
       else raise e).

(** *** 2. Error handling *)

(** The loop of [validate_numerical_data]; [i] is the position of the head
    of [data], counted from 1. *)
Fixpoint validate_loop (i : Z) (data : list string) (validated_data : list float)
    : outcome (list float) :=
  match data with
  | [] => Return validated_data
  | value :: data' =>
      match float_of_str value with
      | Some num => validate_loop (i + 1) data' (validated_data ++ [num])
      | None =>
          Raise (mk_exn ValueError
                   ("Error: Invalid non-numeric value '" +:+ value +:+ "' at position "
                    +:+ str_of_int i))
      end
  end.

Definition validate_numerical_data (data : list string) : outcome (list float) :=
  match data with
  | [] => Raise (mk_exn ValueError "Error: File is empty")
  | _ => validate_loop 1 data []
  end.

(** *** 7. The [DataSet] class *)

(** Reading [self]: a reference made by [DataSet_init] always finds its object. *)
Definition get_self (self : loc) : M DataSet := λ w,
  match datasets w !! self with
  | Some ds => (Return ds, w)
  | None => (Raise (mk_exn Exception "no such object"), w)
  end.

Definition set_self (self : loc) (f : DataSet → DataSet) : M unit :=
  modify (set_datasets (λ h, match h !! self with Some ds => <[self := f ds]> h | None => h end)).

(** [DataSet(numerical_file, categorical_file)] *)
Definition DataSet_init (numerical_file categorical_file : option string) : M loc :=
  stats ← dict_new ∅;
  w ← get_world;
  let self := fresh (dom (datasets w)) in
  modify (set_datasets
            (insert self (mk_DataSet numerical_file categorical_file [] [] stats ∅)));;
  mret self.

(** A file name is true when it is neither [None] nor empty. *)
Definition truthy_name (name : option string) : option string :=
  match name with
  | Some "" => None
  | _ => name
  end.

Definition load_data (self : loc) : M unit :=
  try_except
    (ds ← get_self self;
     match truthy_name (numerical_file ds) with
     | Some file =>
         raw_data ← read_numerical_data file;
         data ← lift (validate_numerical_data raw_data);
         set_self self (λ ds, mk_DataSet (numerical_file ds) (categorical_file ds) data
                                (categorical_data ds) (statistics ds) (unique_categories ds));;
         print (" Loaded " +:+ str_of_int (Z.of_nat (length data)) +:+ " numerical records")
     | None => mret ()
     end;;
     ds ← get_self self;
     match truthy_name (categorical_file ds) with
     | Some file =>
         categories ← read_categorical_data file;
         set_self self (λ ds, mk_DataSet (numerical_file ds) (categorical_file ds)
                                (numerical_data ds) categories (statistics ds)
                                (unique_categories ds));;
         print ("Loaded " +:+ str_of_int (Z.of_nat (length categories)) +:+ " categorical records")
     | None => mret ()
     end)
    (λ e, print (" Error loading data: " +:+ exn_msg e);; raise e).

Definition calculate_statistics (self : loc) (threshold : pynum) : M unit :=
  ds ← get_self self;
  match numerical_data ds with
  | [] => mret ()
  | _ =>
      let data := numerical_data ds in
      let total := calculate_total data in
      average ← lift (calculate_average data);
      let minimum := calculate_minimum data in
      let maximum := calculate_maximum data in
      let count := Z.of_nat (length data) in
      average' ← lift (calculate_average data);
      let performance := evaluate_performance average' threshold in
      stats ← dict_new
        (<["performance" := VStr performance]>
           (<["count" := VNum (PyInt count)]>
              (<["maximum" := of_opt_float maximum]>
                 (<["minimum" := of_opt_float minimum]>
                    (<["average" := VNum average]>
                       (<["total" := VNum total]> ∅))))));
      set_self self (λ ds, mk_DataSet (numerical_file ds) (categorical_file ds)
                             (numerical_data ds) (categorical_data ds) stats
                             (unique_categories ds))
  end;;
  ds ← get_self self;
  match categorical_data ds with
  | [] => mret ()
  | _ =>
      let '(unique, unique_count) := get_unique_categories (categorical_data ds) in
      set_self self (λ ds, mk_DataSet (numerical_file ds) (categorical_file ds)
                             (numerical_data ds) (categorical_data ds) (statistics ds)
                             unique);;
      dict_setitem (statistics ds) "unique_categories" (VNum (PyInt (Z.of_nat unique_count)))
  end.

(** *** 8. Saving results *)

(** [sorted(s)] for a set of strings. *)
Definition sorted (s : gset string) : list string := merge_sort String.le (elements s).

(** [f"{statistics.get(key, dflt):spec}"] *)
Definition field_of (stats : loc) (key : string) (dflt : pyval) (spec : format_spec) : M string :=
  value ← dict_get stats key dflt;
  lift (format value spec).

(** The default of the parameter [filename]. *)
Definition default_report : string := "analysis_report.txt".

(** The [try] block of [save_report]. *)
Definition save_report_body (stats : loc) (unique : gset string) (filename : string) : M bool :=
  with_open_w filename
    (write filename ("DATASET ANALYSIS REPORT" +:+ nl);;
     write filename (repeat_char "=" 50 +:+ nl +:+ nl);;
     has_count ← dict_contains stats "count";
     (if has_count : bool then
        write filename ("NUMERICAL DATA STATISTICS:" +:+ nl);;
        write filename (repeat_char "-" 30 +:+ nl);;
        s ← field_of stats "count" (VNum (PyInt 0)) fmt_comma;
        write filename ("Total Data Points: " +:+ s +:+ nl);;
        s ← field_of stats "total" (VNum (PyInt 0)) fmt_2f;
        write filename ("Sum: " +:+ s +:+ nl);;
        s ← field_of stats "average" (VNum (PyInt 0)) fmt_2f;
        write filename ("Average: " +:+ s +:+ nl);;
        s ← field_of stats "minimum" (VNum (PyInt 0)) fmt_2f;
        write filename ("Minimum: " +:+ s +:+ nl);;
        s ← field_of stats "maximum" (VNum (PyInt 0)) fmt_2f;
        write filename ("Maximum: " +:+ s +:+ nl);;
        s ← field_of stats "performance" (VStr "N/A") fmt_plain;
        write filename ("Performance: " +:+ s +:+ nl +:+ nl)
      else mret ());;
     has_unique ← dict_contains stats "unique_categories";
     (if has_unique : bool then
        write filename ("CATEGORICAL DATA ANALYSIS:" +:+ nl);;
        write filename (repeat_char "-" 30 +:+ nl);;
        s ← field_of stats "unique_categories" (VNum (PyInt 0)) fmt_plain;
        write filename ("Unique Categories: " +:+ s +:+ nl);;
        if bool_decide (unique ≠ ∅) then
          write filename ("List of Unique Categories:" +:+ nl);;
          mapM (λ category, write filename ("  - " +:+ category +:+ nl)) (sorted unique);;
          mret ()
        else mret ()
      else mret ());;
     write filename (nl +:+ repeat_char "=" 50 +:+ nl);;
     write filename ("Report generated by Dataset Management System" +:+ nl));;
  print ("Report saved to '" +:+ filename +:+ "'");;
  mret true.

Definition save_report (stats : loc) (unique : gset string) (filename : string) : M bool :=
  try_except
    (save_report_body stats unique filename)
    (λ e, print (" Error saving report: " +:+ exn_msg e);; mret false).

(** [", ".join(l)] *)
Fixpoint join_comma (l : list string) : string :=
  match l with
  | [] => ""
  | [s] => s
  | s :: l' => s +:+ ", " +:+ join_comma l'
  end.

Definition display_results (self : loc) : M unit :=
  print (nl +:+ repeat_char "=" 50);;
  print "DATASET ANALYSIS REPORT";;
  print (repeat_char "=" 50);;
  ds ← get_self self;
  match numerical_data ds with
  | [] => mret ()
  | _ =>
      print (nl +:+ "NUMERICAL DATA ANALYSIS:");;
      s ← field_of (statistics ds) "count" (VNum (PyInt 0)) fmt_comma;
      print ("  • Data Points: " +:+ s);;
      s ← field_of (statistics ds) "total" (VNum (PyInt 0)) fmt_2f;
      print ("  • Total: " +:+ s);;
      s ← field_of (statistics ds) "average" (VNum (PyInt 0)) fmt_2f;
      print ("  • Average: " +:+ s);;
      s ← field_of (statistics ds) "minimum" (VNum (PyInt 0)) fmt_2f;
      print ("  • Minimum: " +:+ s);;
      s ← field_of (statistics ds) "maximum" (VNum (PyInt 0)) fmt_2f;
      print ("  • Maximum: " +:+ s);;
      s ← field_of (statistics ds) "performance" (VStr "N/A") fmt_plain;
      print ("  • Performance: " +:+ s)
  end;;
  match categorical_data ds with
  | [] => mret ()
  | _ =>
      print (nl +:+ "CATEGORICAL DATA ANALYSIS:");;
      print ("  • Total Categories: "
             +:+ str_of_int (Z.of_nat (length (categorical_data ds))));;
      s ← field_of (statistics ds) "unique_categories" (VNum (PyInt 0)) fmt_plain;
      print ("  • Unique Categories: " +:+ s);;
      if bool_decide (unique_categories ds ≠ ∅) then
        print ("  • Unique Values: " +:+ join_comma (sorted (unique_categories ds)))
      else mret ()
  end;;
  print (nl +:+ repeat_char "=" 50).

(** *** Main program *)

Definition NUMERICAL_FILE : string := "sample_data.csv".
Definition CATEGORICAL_FILE : string := "categories.txt".

Definition sample_data : string :=
  "85,92,78,65,88,91,76,82,95,70" +:+ nl +:+
  repeat_char " " 24 +:+ "73,89,81,67,94,79,86,90,68,84".

Definition sample_categories : string :=
  let indent := nl +:+ repeat_char " " 8 in
  "Mathematics" +:+ indent +:+ "Physics" +:+ indent +:+ "Chemistry" +:+ indent +:+ "Biology"
  +:+ indent +:+ "Mathematics" +:+ indent +:+ "Physics" +:+ indent +:+ "Computer Science"
  +:+ indent +:+ "Mathematics" +:+ indent +:+ "Biology" +:+ indent +:+ "Chemistry"
  +:+ indent +:+ "Physics" +:+ indent +:+ "Mathematics".

(** [os.path.exists(path)] *)
Definition path_exists (path : string) : M bool :=
  w ← get_world; mret (bool_decide (is_Some (files w !! path))).

Definition main : M unit :=
  print "DATASET MANAGEMENT AND BASIC ANALYSIS SYSTEM";;
  print (repeat_char "=" 50);;
  present ← path_exists NUMERICAL_FILE;
  (if present : bool then mret ()
   else
     print (nl +:+ "Creating sample numerical file: " +:+ NUMERICAL_FILE);;
     with_open_w NUMERICAL_FILE (write NUMERICAL_FILE sample_data));;
  present ← path_exists CATEGORICAL_FILE;
  (if present : bool then mret ()
   else
     print ("Creating sample categorical file: " +:+ CATEGORICAL_FILE);;
     with_open_w CATEGORICAL_FILE (write CATEGORICAL_FILE sample_categories));;
  dataset ← DataSet_init (Some NUMERICAL_FILE) (Some CATEGORICAL_FILE);
  try_except
    (print (nl +:+ "1. LOADING DATA...");;
     load_data dataset;;
     print (nl +:+ "2. CALCULATING STATISTICS...");;
     calculate_statistics dataset (PyInt 75);;
     print (nl +:+ "3. ANALYSIS RESULTS:");;
     display_results dataset;;
     print (nl +:+ "4. SAVING REPORT...");;
     ds ← get_self dataset;
     save_report (statistics ds) (unique_categories ds) "dataset_analysis_report.txt";;
     print (nl +:+ repeat_char "=" 50);;
     print "ANALYSIS COMPLETED SUCCESSFULLY!")
    (λ e, print (nl +:+ " Program terminated with error: " +:+ exn_msg e)).

End program.

(** The builtins as Python has them. *)
Definition py_builtins : Builtins :=
  {| float_of_str := py_float; csv_reader := py_csv_reader; format := py_format |}.

(** The world with no object, no file and nothing printed. *)
Definition empty_world : World := mk_World ∅ ∅ ∅ ∅ [] [].

(** * Specification

    The vocabulary of the properties below: the quantities the specification
    names, and the sample inputs and worlds the properties are evaluated on. *)

(** The sum of the first [n] elements of [data] in Python's arithmetic: the
    empty sum is the int 0, and each element is added to the sum of those
    before it. *)
Fixpoint partial_sum (data : list float) (n : nat) : pynum :=
  match n with
  | O => PyInt 0
  | S k =>
      match data !! k with
      | Some x => py_add (partial_sum data k) (PyFloat x)
      | None => partial_sum data k
      end
  end.

(** The steps of the two scans. *)
Definition min_step (minimum value : float) : float :=
  if (value <? minimum)%float then value else minimum.
Definition max_step (maximum value : float) : float :=
  if (maximum <? value)%float then value else maximum.

(** The two failures of the validator as the specification names them; both
    are [ValueError]s, told apart by their messages. *)
Definition EmptyInput : exn := mk_exn ValueError "Error: File is empty".
Definition InvalidValue (value : string) (position : Z) : exn :=
  mk_exn ValueError
    ("Error: Invalid non-numeric value '" +:+ value +:+ "' at position "
     +:+ str_of_int position).

(** [s.isascii()]: every character of [s] has a code below 128. *)
Fixpoint isascii (s : string) : bool :=
  match s with
  | String c s' => (nat_of_ascii c <? 128)%nat && isascii s'
  | EmptyString => true
  end.

(** ASCII text: the strings on which [strip] is Python's [str.strip]. *)
Definition ascii_text (s : string) : Prop := isascii s = true.

(** The record the CSV reader is building holds ASCII text only. *)
Definition ascii_parser (p : csv_parser) : Prop :=
  ascii_text (field p) ∧ Forall ascii_text (fields p).

(** A cell is blank when nothing is left of it once stripped. *)
Definition blank (value : string) : Prop := strip value = "".

Global Instance blank_dec (value : string) : Decision (blank value).
Proof. unfold blank. apply _. Defined.

(** The rows without their blank cells, and without the rows left empty. *)
Definition drop_blanks (rows : list (list string)) : list (list string) :=
  filter (λ row, row ≠ []) (filter (λ value, ¬ blank value) <$> rows).

(** The row a line makes when it is a record of its own: read from the
    start of a record, the line ends at the end of a record. *)
Definition record_of (line : string) : option (list string) :=
  match parse_line parse_reset line with
  | Return p => if bool_decide (state p = START_RECORD) then Some (rev (fields p)) else None
  | Raise _ => None
  end.

(** The outcome of a call, with [f] applied to the value returned. *)
Definition outcome_map {A B} (f : A → B) (o : outcome A) : outcome B :=
  match o with
  | Return a => Return (f a)
  | Raise e => Raise e
  end.

(** Two CSV contents, the second being the first without its blank row and
    its blank cells. *)
Definition csv_with_blanks : string :=
  "85, 92,,78" +:+ nl +:+ nl +:+ " , " +:+ nl +:+ "65,  ,88" +:+ nl.
Definition csv_without_blanks : string :=
  "85,92,78" +:+ nl +:+ "65,88" +:+ nl.

(** The numeric input of twenty scores. *)
Definition twenty_scores : string :=
  "85,92,78,65,88,91,76,82,95,70,73,89,81,67,94,79,86,90,68,84".

(** The six keys of the numeric statistics. *)
Definition numeric_keys : gset string :=
  {["total"; "average"; "minimum"; "maximum"; "count"; "performance"]}.

(** The dict the numeric block makes, and the update of the categorical
    block, from the data alone. *)
Definition numeric_block (data : list float) (threshold : pynum) : gmap string pyval :=
  match data, calculate_average data with
  | _ :: _, Return average =>
      <["performance" := VStr (evaluate_performance average threshold)]>
        (<["count" := VNum (PyInt (Z.of_nat (length data)))]>
           (<["maximum" := of_opt_float (calculate_maximum data)]>
              (<["minimum" := of_opt_float (calculate_minimum data)]>
                 (<["average" := VNum average]>
                    (<["total" := VNum (calculate_total data)]> ∅)))))
  | _, _ => ∅
  end.

Definition categorical_block (categories : list string) : gmap string pyval :=
  match categories with
  | [] => ∅
  | _ => {["unique_categories" := VNum (PyInt (Z.of_nat (get_unique_categories categories).2))]}
  end.

(** The world after [DataSet(None, "categories.txt")] and [load_data()], from
    a world with that file alone, of three category records. *)
Definition categorical_only : World :=
  ((self ← DataSet_init None (Some "categories.txt");
    load_data (py := py_builtins) self)
     (mk_World ∅ ∅
        {["categories.txt" := "Math" +:+ nl +:+ "Physics" +:+ nl +:+ "Math" +:+ nl]}
        ∅ [] [])).2.

(** A data set whose statistics dict holds two entries of an earlier run. *)
Definition stale_statistics : gmap string pyval :=
  {["count" := VNum (PyInt 3); "unique_categories" := VNum (PyInt 9)]}.

(** The world of one data set with those statistics and the given data. *)
Definition analysed_before (data : list float) (categories : list string) : World :=
  mk_World {[1%positive := stale_statistics]}
    {[1%positive := mk_DataSet None None data categories 1%positive ∅]} ∅ ∅ [] [].

(** [heap_preserved m]: running [m] changes no dict and no [DataSet] object,
    whatever its outcome. *)
Definition heap_preserved {A} (m : M A) : Prop :=
  ∀ w, dicts (m w).2 = dicts w ∧ datasets (m w).2 = datasets w.

(** A world where the report cannot be written, and one where the second
    write fails for lack of space. *)
Definition read_only_target : World :=
  mk_World {[1%positive := stale_statistics]} ∅ ∅ {["analysis_report.txt"]} [] [].
Definition disk_full : World :=
  mk_World {[1%positive := stale_statistics]} ∅ ∅ ∅
    [None; None; Some (mk_exn OSError "[Errno 28] No space left on device")] [].

(** The writes of [save_report] for the statistics [d]: the title and the
    rule, eight lines when [d] has the key [count], three and the list of
    the categories when it has the key [unique_categories], and the two
    closing lines. *)
Definition report_writes (d : gmap string pyval) (unique : gset string) : nat :=
  (2
   + (if bool_decide (is_Some (d !! "count")) then 8 else 0)
   + (if bool_decide (is_Some (d !! "unique_categories")) then
        3 + (if bool_decide (unique ≠ ∅) then 1 + size unique else 0)
      else 0)
   + 2)%nat.

(** The operations on the file: [open], the writes and [close]. *)
Definition report_operations (d : gmap string pyval) (unique : gset string) : nat :=
  S (report_writes d unique + 1).

(** [uses stats d n m Q]: where the dict [stats] holds [d], a run of [m]
    that returns has made [n] operations, has met no fault at any of them,
    returns a value of [Q] and leaves [d] in [stats]. *)
Definition uses {A} (stats : loc) (d : gmap string pyval) (n : nat) (m : M A)
    (Q : A → Prop) : Prop :=
  ∀ w a w',
    default ∅ (dicts w !! stats) = d →
    m w = (Return a, w') →
    default ∅ (dicts w' !! stats) = d ∧ Q a ∧
    faults w' = drop n (faults w) ∧ Forall (λ fault, fault = None) (take n (faults w)).

(** A world where the report of the stale statistics meets a fault at its
    last operation, the closing of the file. *)
Definition closing_fails : World :=
  mk_World {[1%positive := stale_statistics]} ∅ ∅ ∅
    (replicate 16 None ++ [Some (mk_exn OSError "[Errno 28] No space left on device")]) [].

(** ** Further vocabulary

    The relations between worlds and the states of a run that the further
    properties are stated with. *)

(** A string that does not start with white space. *)
Definition starts_clean (s : string) : Prop :=
  match s with
  | String c _ => isspace c = false
  | EmptyString => True
  end.

(** The lines of a text, stripped, without the blank ones. *)
Definition nonblank_lines (content : string) : list string :=
  filter (λ value, value ≠ "") (strip <$> file_lines content).

(** A CSV content of one field that is one character longer than the
    reader's limit. *)
Definition long_field : string := repeat_char "7" (2 ^ 17 + 1)%nat.

(** The exception of an operation on a path the process may not use. *)
Definition permission_denied (path : string) : exn :=
  mk_exn PermissionError ("[Errno 13] Permission denied: '" +:+ path +:+ "'").

(** The message of the two readers for a missing file. *)
Definition not_found (filename : string) : exn :=
  mk_exn FileNotFoundError ("Error: File '" +:+ filename +:+ "' not found").

(** The data set [ds] with its numeric data replaced. *)
Definition with_numerical_data (data : list float) (ds : DataSet) : DataSet :=
  mk_DataSet (numerical_file ds) (categorical_file ds) data (categorical_data ds)
    (statistics ds) (unique_categories ds).

(** The world after the numeric part of [load_data]: the data set [ds] at
    [self] holds the validated [data], and their number has been printed. *)
Definition numbers_loaded (self : loc) (ds : DataSet) (data : list float) (w : World)
    : World :=
  set_stdout
    (λ out, out ++ [" Loaded " +:+ str_of_int (Z.of_nat (length data))
                    +:+ " numerical records"])
    (set_datasets (insert self (with_numerical_data data ds)) w).

(** The world of one data set [ds], whose statistics are the empty dict, and
    of the files [fs]; nothing fails there. *)
Definition one_data_set (ds : DataSet) (fs : gmap string string) : World :=
  mk_World {[1%positive := ∅]} {[1%positive := ds]} fs ∅ [] [].

(** The path of the report [main] writes. *)
Definition REPORT_FILE : string := "dataset_analysis_report.txt".

(** The report of a data set without statistics. *)
Definition empty_report : string :=
  "DATASET ANALYSIS REPORT" +:+ nl
  +:+ repeat_char "=" 50 +:+ nl +:+ nl
  +:+ nl +:+ repeat_char "=" 50 +:+ nl
  +:+ "Report generated by Dataset Management System" +:+ nl.

(** The fields of the report and of the console display: key, default and
    format specification. *)
Definition report_fields : list (string * pyval * format_spec) :=
  [("count", VNum (PyInt 0), fmt_comma);
   ("total", VNum (PyInt 0), fmt_2f);
   ("average", VNum (PyInt 0), fmt_2f);
   ("minimum", VNum (PyInt 0), fmt_2f);
   ("maximum", VNum (PyInt 0), fmt_2f);
   ("performance", VStr "N/A", fmt_plain);
   ("unique_categories", VNum (PyInt 0), fmt_plain)].

(** The statistics [d] can be rendered: every field formats, with the value
    of [d] or else with its default. *)
Definition renders {py : Builtins} (d : gmap string pyval) : Prop :=
  ∀ key dflt spec,
    (key, dflt, spec) ∈ report_fields → ∃ s, format (default dflt (d !! key)) spec = Return s.

(** [keeps R m]: running [m] takes every world to a world in relation [R] to
    it, whatever the outcome. *)
Definition keeps {A} (R : relation World) (m : M A) : Prop := ∀ w, R w (m w).2.

(** The files outside [paths] are what they were. *)
Definition same_files_outside (paths : gset string) (w w' : World) : Prop :=
  ∀ path, path ∉ paths → files w' !! path = files w !! path.

(** Nothing has changed but the console, which has the lines it had and
    maybe more. *)
Definition console_only (w w' : World) : Prop :=
  dicts w' = dicts w ∧ datasets w' = datasets w ∧ files w' = files w ∧
  unwritable w' = unwritable w ∧ faults w' = faults w ∧
  stdout w `prefix_of` stdout w'.

(** Nothing has changed but the console and the schedule of faults. *)
Definition same_objects (w w' : World) : Prop :=
  dicts w' = dicts w ∧ datasets w' = datasets w ∧ files w' = files w ∧
  unwritable w' = unwritable w.

(** The schedule of faults and the protected paths are what they were. *)
Definition same_faults (w w' : World) : Prop :=
  faults w' = faults w ∧ unwritable w' = unwritable w.

(** What [load_data] may change: of the objects, the two data fields of
    [self] alone; no dict, no file. *)
Definition loaded (self : loc) (w w' : World) : Prop :=
  dicts w' = dicts w ∧ files w' = files w ∧ unwritable w' = unwritable w ∧
  (∀ l, l ≠ self → datasets w' !! l = datasets w !! l) ∧
  match datasets w !! self with
  | Some ds =>
      ∃ data categories,
        datasets w' !! self
          = Some (mk_DataSet (numerical_file ds) (categorical_file ds) data categories
                    (statistics ds) (unique_categories ds))
  | None => datasets w' !! self = None
  end.

(** [returns P m Q]: from every world of [P], [m] returns, with a value and
    in a world of [Q]. *)
Definition returns {A} (P : World → Prop) (m : M A) (Q : A → World → Prop) : Prop :=
  ∀ w, P w → ∃ a w', m w = (Return a, w') ∧ Q a w'.

(** A world where the report of the statistics [d], held by the dict
    [stats], can be written to [filename]: nothing fails. *)
Definition can_report (stats : loc) (d : gmap string pyval) (filename : string)
    (w : World) : Prop :=
  faults w = [] ∧ (filename ∉ unwritable w) ∧ dicts w !! stats = Some d.

(** A world without faults where [filename] holds [content] and the dict
    [stats] holds [d]. *)
Definition writing (stats : loc) (d : gmap string pyval) (filename content : string)
    (w : World) : Prop :=
  faults w = [] ∧ files w !! filename = Some content ∧ dicts w !! stats = Some d.

(** The state of an analysis: a world without faults, with the protected
    paths [U] and the files [fs], where the data set [self] is [ds] and its
    statistics are [d]. *)
Definition analysing (self : loc) (ds : DataSet) (d : gmap string pyval)
    (fs : gmap string string) (U : gset string) (w : World) : Prop :=
  faults w = [] ∧ unwritable w = U ∧ files w = fs ∧
  datasets w !! self = Some ds ∧ dicts w !! statistics ds = Some d.

(** * Properties *)

(** ** The order of binary64 *)

Section float_order.

Local Ltac cmp_cases :=
  repeat match goal with
  | |- context [Z.compare ?a ?b] => destruct (Z.compare_spec a b)
  | H : context [Z.compare ?a ?b] |- _ => destruct (Z.compare_spec a b)
  | |- context [Pos.compare_cont Eq ?a ?b] =>
      change (Pos.compare_cont Eq a b) with (Pos.compare a b);
      destruct (Pos.compare_spec a b)
  | H : context [Pos.compare_cont Eq ?a ?b] |- _ =>
      change (Pos.compare_cont Eq a b) with (Pos.compare a b) in H;
      destruct (Pos.compare_spec a b)
  end.

Lemma SFcompare_None (a b : spec_float) :
  SFcompare a b = None ↔ a = S754_nan ∨ b = S754_nan.
Proof.
  split.
  - destruct a as [[]|[]| |[] ? ?], b as [[]|[]| |[] ? ?]; simpl; intros; auto; discriminate.
  - intros [-> | ->]; [reflexivity|]. by destruct a.
Qed.

Lemma SFleb_refl (a : spec_float) : a ≠ S754_nan → SFleb a a = true.
Proof.
  unfold SFleb. destruct a as [[]|[]| |[] m e]; simpl; intros; try done;
    cmp_cases; simpl; try done; lia.
Qed.

Lemma SFleb_total (a b : spec_float) :
  a ≠ S754_nan → b ≠ S754_nan → SFltb a b = false → SFleb b a = true.
Proof.
  unfold SFltb, SFleb.
  destruct a as [[]|[]| |[] m1 e1], b as [[]|[]| |[] m2 e2]; simpl; intros; try done;
    cmp_cases; simpl in *; try done; try lia.
Qed.

Lemma SFltb_leb_trans (a b c : spec_float) :
  SFltb a b = true → SFleb b c = true → SFleb a c = true.
Proof.
  unfold SFltb, SFleb.
  destruct a as [[]|[]| |[] m1 e1], b as [[]|[]| |[] m2 e2], c as [[]|[]| |[] m3 e3];
    simpl; intros; try done; cmp_cases; simpl in *; try done; try lia.
Qed.

Lemma SFleb_ltb_trans (a b c : spec_float) :
  SFleb a b = true → SFltb b c = true → SFleb a c = true.
Proof.
  unfold SFltb, SFleb.
  destruct a as [[]|[]| |[] m1 e1], b as [[]|[]| |[] m2 e2], c as [[]|[]| |[] m3 e3];
    simpl; intros; try done; cmp_cases; simpl in *; try done; try lia.
Qed.

Lemma SFcompare_ge_leb (a b : spec_float) :
  match SFcompare a b with Some (Gt | Eq) => true | _ => false end = SFleb b a.
Proof.
  unfold SFleb.
  destruct a as [[]|[]| |[] m1 e1], b as [[]|[]| |[] m2 e2]; simpl; try done;
    cmp_cases; simpl in *; try done; try lia.
Qed.

Lemma is_nan_false (x : float) : is_nan x = false ↔ Prim2SF x ≠ S754_nan.
Proof.
  unfold is_nan. rewrite FloatAxioms.eqb_spec. unfold SFeqb.
  destruct (SFcompare (Prim2SF x) (Prim2SF x)) as [c|] eqn:E.
  - assert (Prim2SF x ≠ S754_nan).
    { intros Hn. rewrite Hn in E. discriminate. }
    split; [done|]; intros _.
    pose proof (SFleb_refl _ H) as Hr. unfold SFleb in Hr. rewrite E in Hr.
    assert (c ≠ Gt) by (by destruct c).
    destruct c; try done.
    revert E. clear. destruct (Prim2SF x) as [[]|[]| |[] m e]; simpl; try done;
      cmp_cases; simpl; try done; lia.
  - apply SFcompare_None in E. split; [done|]. intros Hn. by destruct E.
Qed.

Lemma float_leb_refl (x : float) : is_nan x = false → (x <=? x)%float = true.
Proof. rewrite is_nan_false, FloatAxioms.leb_spec. apply SFleb_refl. Qed.

Lemma float_leb_total (x y : float) :
  is_nan x = false → is_nan y = false → (x <? y)%float = false → (y <=? x)%float = true.
Proof. rewrite !is_nan_false, FloatAxioms.ltb_spec, FloatAxioms.leb_spec. apply SFleb_total. Qed.

Lemma float_ltb_leb_trans (x y z : float) :
  (x <? y)%float = true → (y <=? z)%float = true → (x <=? z)%float = true.
Proof. rewrite FloatAxioms.ltb_spec, !FloatAxioms.leb_spec. apply SFltb_leb_trans. Qed.

Lemma float_leb_ltb_trans (x y z : float) :
  (x <=? y)%float = true → (y <? z)%float = true → (x <=? z)%float = true.
Proof. rewrite FloatAxioms.ltb_spec, !FloatAxioms.leb_spec. apply SFleb_ltb_trans. Qed.

End float_order.

(** ** Aggregator *)

Lemma partial_sum_app (data rest : list float) (n : nat) :
  (n ≤ length data)%nat → partial_sum (data ++ rest) n = partial_sum data n.
Proof.
  induction n as [|n IH]; intros Hn; simpl; [done|].
  rewrite lookup_app_l by lia. rewrite IH by lia. done.
Qed.

Lemma calculate_total_snoc (data : list float) (x : float) :
  calculate_total (data ++ [x]) = py_add (calculate_total data) (PyFloat x).
Proof. unfold calculate_total. by rewrite fold_left_app. Qed.

Lemma calculate_total_partial_sum (data : list float) :
  calculate_total data = partial_sum data (length data).
Proof.
  induction data as [|x data IH] using rev_ind; [done|].
  rewrite calculate_total_snoc, IH, length_app, Nat.add_1_r. simpl.
  rewrite lookup_app_r by lia. rewrite Nat.sub_diag. simpl.
  by rewrite partial_sum_app.
Qed.

(** The total of a non-empty sequence is a float. *)
Lemma calculate_total_float (data : list float) :
  data ≠ [] → ∃ total, calculate_total data = PyFloat total.
Proof.
  destruct data as [|x data] using rev_ind; [done|]. intros _.
  rewrite calculate_total_snoc. destruct (calculate_total data); simpl; eauto.
Qed.

Lemma calculate_average_float (data : list float) :
  data ≠ [] →
  ∃ total, calculate_total data = PyFloat total ∧
    calculate_average data
      = Return (PyFloat (total / float_of_Z (Z.of_nat (length data)))).
Proof.
  intros Hne. destruct (calculate_total_float data Hne) as [total Ht].
  exists total. split; [done|].
  destruct data as [|x data]; [done|].
  unfold calculate_average. rewrite Ht. unfold py_truediv.
  destruct (Z.eqb_spec (Z.of_nat (length (x :: data))) 0) as [Hz|]; [|done].
  simpl in Hz. lia.
Qed.

(** C2: [calculate_total] is the sum of the elements, the int 0 for the empty
    sequence; [calculate_average] is 0 for the empty sequence and the total
    divided by the number of elements otherwise, and never raises. *)
Theorem total_and_average (data : list float) :
  calculate_total data = partial_sum data (length data) ∧
  calculate_total [] = PyInt 0 ∧
  calculate_average [] = Return (PyInt 0) ∧
  (data ≠ [] →
     calculate_average data
       = py_truediv (calculate_total data) (PyInt (Z.of_nat (length data))) ∧
     ∃ total, calculate_total data = PyFloat total ∧
       calculate_average data
         = Return (PyFloat (total / float_of_Z (Z.of_nat (length data))))) ∧
  (∀ e, calculate_average data ≠ Raise e).
Proof.
  split; [apply calculate_total_partial_sum|].
  split; [done|]. split; [done|]. split.
  - intros Hne. split; [by destruct data|]. by apply calculate_average_float.
  - intros e. destruct data as [|x data]; [done|].
    destruct (calculate_average_float (x :: data)) as (t & _ & ->); done.
Qed.

Lemma total_and_average_witness :
  calculate_average [85; 92; 78]%float = Return (PyFloat 85).
Proof.
  destruct (total_and_average [85; 92; 78]%float) as (_ & _ & _ & Havg & _).
  destruct Havg as [-> _]; [done|]. reflexivity.
Defined.

Lemma min_scan (first : float) (rest : list float) :
  let m := fold_left min_step rest first in
  m ∈ first :: rest ∧
  (Forall (λ x, is_nan x = false) (first :: rest) →
   ∀ x, x ∈ first :: rest → (m <=? x)%float = true).
Proof.
  induction rest as [|y rest IH] using rev_ind; simpl.
  - split; [left|]. intros Hn x ->%list_elem_of_singleton.
    apply float_leb_refl. by inversion Hn.
  - rewrite fold_left_app. simpl. destruct IH as [Hin Hle].
    set (m := fold_left min_step rest first) in *.
    split.
    + unfold min_step. destruct (y <? m)%float.
      * rewrite app_comm_cons. apply elem_of_app. right. left.
      * rewrite app_comm_cons. apply elem_of_app. by left.
    + rewrite app_comm_cons. intros [Hn Hy]%Forall_app x [Hx|Hx]%elem_of_app.
      * specialize (Hle Hn x Hx). unfold min_step.
        destruct (y <? m)%float eqn:E; [|done].
        by apply float_ltb_leb_trans with m.
      * apply list_elem_of_singleton in Hx as ->.
        assert (is_nan y = false) by (by inversion Hy).
        assert (is_nan m = false).
        { rewrite Forall_forall in Hn. by apply Hn. }
        unfold min_step. destruct (y <? m)%float eqn:E.
        -- by apply float_leb_refl.
        -- by apply float_leb_total.
Qed.

Lemma max_scan (first : float) (rest : list float) :
  let M := fold_left max_step rest first in
  M ∈ first :: rest ∧
  (Forall (λ x, is_nan x = false) (first :: rest) →
   ∀ x, x ∈ first :: rest → (x <=? M)%float = true).
Proof.
  induction rest as [|y rest IH] using rev_ind; simpl.
  - split; [left|]. intros Hn x ->%list_elem_of_singleton.
    apply float_leb_refl. by inversion Hn.
  - rewrite fold_left_app. simpl. destruct IH as [Hin Hle].
    set (M := fold_left max_step rest first) in *.
    split.
    + unfold max_step. destruct (M <? y)%float.
      * rewrite app_comm_cons. apply elem_of_app. right. left.
      * rewrite app_comm_cons. apply elem_of_app. by left.
    + rewrite app_comm_cons. intros [Hn Hy]%Forall_app x [Hx|Hx]%elem_of_app.
      * specialize (Hle Hn x Hx). unfold max_step.
        destruct (M <? y)%float eqn:E; [|done].
        by apply float_leb_ltb_trans with M.
      * apply list_elem_of_singleton in Hx as ->.
        assert (is_nan y = false) by (by inversion Hy).
        assert (is_nan M = false).
        { rewrite Forall_forall in Hn. by apply Hn. }
        unfold max_step. destruct (M <? y)%float eqn:E.
        -- by apply float_leb_refl.
        -- by apply float_leb_total.
Qed.

(** C3: on the empty sequence the minimum and the maximum are [None]; on a
    non-empty one they are the results of a scan from the first element and
    are elements of the sequence, and when no element is a NaN the minimum
    is below and the maximum above every element. *)
Theorem minimum_maximum_bounds (data : list float) :
  calculate_minimum [] = None ∧ calculate_maximum [] = None ∧
  (∀ first rest,
     calculate_minimum (first :: rest) = Some (fold_left min_step rest first) ∧
     calculate_maximum (first :: rest) = Some (fold_left max_step rest first)) ∧
  (data ≠ [] →
     ∃ m M, calculate_minimum data = Some m ∧ calculate_maximum data = Some M ∧
       m ∈ data ∧ M ∈ data ∧
       (Forall (λ x, is_nan x = false) data →
        ∀ x, x ∈ data → (m <=? x)%float = true ∧ (x <=? M)%float = true)).
Proof.
  split; [done|]. split; [done|]. split; [done|].
  destruct data as [|first rest]; [done|]. intros _.
  destruct (min_scan first rest) as [Hm Hmle].
  destruct (max_scan first rest) as [HM HMle].
  eexists _, _. repeat split; try done; auto.
Qed.

Lemma minimum_maximum_bounds_witness :
  ∃ m M, calculate_minimum [3; 1; 2]%float = Some m ∧
    calculate_maximum [3; 1; 2]%float = Some M ∧
    (m <=? 2)%float = true ∧ (2 <=? M)%float = true.
Proof.
  destruct (minimum_maximum_bounds [3; 1; 2]%float) as (_ & _ & _ & H).
  destruct H as (m & M & Hm & HM & _ & _ & Hb); [done|].
  exists m, M. split; [done|]. split; [done|].
  apply Hb.
  - repeat constructor.
  - do 2 right. left.
Defined.

(** With a NaN in the sequence the bounds fail: the tokens [nan] and [1] are
    valid, and the minimum of [nan, 1.0] is the NaN, which is not below 1.0. *)
Lemma minimum_bound_fails_on_nan :
  validate_numerical_data (py := py_builtins) ["nan"; "1"] = Return [nan; 1]%float ∧
  ¬ ∃ m M, calculate_minimum [nan; 1]%float = Some m ∧
      calculate_maximum [nan; 1]%float = Some M ∧
      m ∈ [nan; 1]%float ∧ M ∈ [nan; 1]%float ∧
      ∀ x, x ∈ [nan; 1]%float → (m <=? x)%float = true ∧ (x <=? M)%float = true.
Proof.
  split; [vm_compute; exact eq_refl|].
  intros (m & M & Hm & _ & _ & _ & Hb).
  vm_compute in Hm. injection Hm as <-.
  destruct (Hb 1%float) as [Hle _]; [right; left|].
  vm_compute in Hle. discriminate.
Qed.

(** ** Classifier *)

Lemma py_ge_int (m n : Z) : py_ge (PyInt m) (PyInt n) = true ↔ n ≤ m.
Proof.
  unfold py_ge. simpl. destruct (Z.compare_spec m n); split; intros; try done; lia.
Qed.

Lemma py_ge_float (x y : float) : py_ge (PyFloat x) (PyFloat y) = (y <=? x)%float.
Proof.
  unfold py_ge, py_compare, float_compare.
  rewrite FloatAxioms.compare_spec, FloatAxioms.leb_spec, <- SFcompare_ge_leb.
  by destruct (SFcompare (Prim2SF x) (Prim2SF y)) as [[]|].
Qed.

(** C4: the label is "High Performance" exactly when [average >= threshold],
    and "Needs Improvement" otherwise, for any threshold. *)
Theorem evaluate_performance_threshold (average threshold : pynum) :
  (evaluate_performance average threshold = "High Performance"
     ↔ py_ge average threshold = true) ∧
  (evaluate_performance average threshold = "Needs Improvement"
     ↔ py_ge average threshold = false) ∧
  (∀ m n, py_ge (PyInt m) (PyInt n) = true ↔ n ≤ m) ∧
  (∀ x y, py_ge (PyFloat x) (PyFloat y) = (y <=? x)%float) ∧
  default_threshold = PyInt 75 ∧
  evaluate_performance (PyInt 75) (PyInt 75) = "High Performance" ∧
  evaluate_performance (PyFloat 75) default_threshold = "High Performance" ∧
  evaluate_performance (PyFloat 74.999) (PyInt 75) = "Needs Improvement" ∧
  evaluate_performance (PyFloat 0) (PyInt (-5)) = "High Performance" ∧
  evaluate_performance (PyFloat 100) (PyInt 150) = "Needs Improvement" ∧
  evaluate_performance (PyFloat 150.5) (PyFloat 150.5) = "High Performance".
Proof.
  split; [|split]; [| |split; [|split]].
  - unfold evaluate_performance. by destruct (py_ge average threshold).
  - unfold evaluate_performance. by destruct (py_ge average threshold).
  - apply py_ge_int.
  - apply py_ge_float.
  - repeat split; vm_compute; exact eq_refl.
Qed.

(** ** Sets *)

(** C5: the set holds exactly the elements of the sequence, and the count is
    its cardinality, the number of distinct elements. *)
Theorem get_unique_categories_spec (categories : list string) :
  (∀ c, c ∈ (get_unique_categories categories).1 ↔ c ∈ categories) ∧
  (get_unique_categories categories).2 = size (get_unique_categories categories).1 ∧
  (get_unique_categories categories).2 = length (remove_dups categories) ∧
  get_unique_categories ["Math"; "Physics"; "Math"] = ({["Math"; "Physics"]}, 2%nat) ∧
  get_unique_categories ["Math"; "Physics"; "Math"] = ({["Physics"; "Math"]}, 2%nat).
Proof.
  unfold get_unique_categories. simpl.
  split; [|split; [|split; [|split]]].
  - intros c. apply elem_of_list_to_set.
  - done.
  - rewrite <- (size_list_to_set (C:=gset string) (remove_dups categories))
      by apply NoDup_remove_dups.
    f_equal. apply set_eq. intros c.
    by rewrite !elem_of_list_to_set, elem_of_remove_dups.
  - vm_compute; exact eq_refl.
  - vm_compute; exact eq_refl.
Qed.

(** ** Validator *)

Section validator.
Context {py : Builtins}.

Lemma validate_loop_invalid (before : list string) (bad : string) (after : list string)
    (i : Z) (validated : list float) :
  Forall (λ token, is_Some (float_of_str token)) before →
  float_of_str bad = None →
  validate_loop i (before ++ bad :: after) validated
    = Raise (InvalidValue bad (i + Z.of_nat (length before))).
Proof.
  intros Hok Hbad. revert i validated.
  induction Hok as [|token before [num Hnum] _ IH]; intros i validated; simpl.
  - rewrite Hbad. by rewrite Z.add_0_r.
  - rewrite Hnum, IH. do 2 f_equal. lia.
Qed.

Lemma validate_loop_valid (data : list string) (values : list float)
    (i : Z) (validated : list float) :
  Forall2 (λ token num, float_of_str token = Some num) data values →
  validate_loop i data validated = Return (validated ++ values).
Proof.
  intros Hok. revert i validated.
  induction Hok as [|token num data values Hnum _ IH]; intros i validated; simpl.
  - by rewrite app_nil_r.
  - rewrite Hnum, IH. by rewrite <- app_assoc.
Qed.

End validator.

(** C1: the validator fails with [EmptyInput] on no token; otherwise it fails
    at the first token that is not a float, with that token and its position
    counted from 1, and returns the floats when every token is one. *)
Theorem validate_numerical_data_errors {py : Builtins} :
  validate_numerical_data [] = Raise EmptyInput ∧
  (∀ before bad after,
     Forall (λ token, is_Some (float_of_str token)) before →
     float_of_str bad = None →
     validate_numerical_data (before ++ bad :: after)
       = Raise (InvalidValue bad (Z.of_nat (length before) + 1))) ∧
  (∀ data values,
     data ≠ [] →
     Forall2 (λ token num, float_of_str token = Some num) data values →
     validate_numerical_data data = Return values) ∧
  validate_numerical_data (py := py_builtins) ["3"; "x"; "5"] = Raise (InvalidValue "x" 2) ∧
  InvalidValue "x" 2 ≠ InvalidValue "x" 1 ∧
  InvalidValue "x" 2 ≠ InvalidValue "x" 3 ∧
  InvalidValue "x" 2 ≠ InvalidValue "3" 2 ∧
  (∀ value position, InvalidValue value position ≠ EmptyInput).
Proof.
  split; [done|]. split; [|split; [|split]].
  - intros before bad after Hok Hbad.
    unfold validate_numerical_data.
    destruct (before ++ bad :: after) as [|token data] eqn:E; [by destruct before|].
    rewrite <- E, (validate_loop_invalid before bad after 1 [] Hok Hbad).
    do 2 f_equal. lia.
  - intros data values Hne Hok. unfold validate_numerical_data.
    destruct data as [|token data]; [done|].
    by rewrite (validate_loop_valid _ values 1 [] Hok).
  - by vm_compute.
  - repeat split; intros Heq; vm_compute in Heq; discriminate.
Qed.

Lemma validate_numerical_data_errors_witness :
  validate_numerical_data (py := py_builtins) ["85"; "9 2"; "nan"]
    = Raise (InvalidValue "9 2" 2).
Proof.
  apply (proj1 (proj2 (validate_numerical_data_errors (py := py_builtins))) ["85"] "9 2" ["nan"]).
  - constructor; [|constructor]. eexists. vm_compute; exact eq_refl.
  - vm_compute; exact eq_refl.
Defined.

(** ** Strings *)

Lemma append_cons (c : ascii) (s1 s2 : string) :
  String c s1 +:+ s2 = String c (s1 +:+ s2).
Proof. done. Qed.

Lemma string_app_assoc (s1 s2 s3 : string) : (s1 +:+ s2) +:+ s3 = s1 +:+ (s2 +:+ s3).
Proof. induction s1 as [|c s1 IH]; [done|]. by rewrite !append_cons, IH. Qed.

Lemma rev_app_append (s1 s2 : string) : String.rev_app s1 s2 = String.rev s1 +:+ s2.
Proof.
  unfold String.rev. revert s2. induction s1 as [|c s1 IH]; intros s2; simpl; [done|].
  rewrite (IH (String c s2)), (IH (String c "")). by rewrite string_app_assoc.
Qed.

Lemma string_rev_cons (c : ascii) (s : string) :
  String.rev (String c s) = String.rev s +:+ String c "".
Proof. unfold String.rev at 1. simpl. apply rev_app_append. Qed.

Lemma string_rev_snoc (s : string) (c : ascii) :
  String.rev (s +:+ String c "") = String c (String.rev s).
Proof.
  induction s as [|d s IH]; [done|].
  by rewrite append_cons, !string_rev_cons, IH.
Qed.

Lemma string_rev_involutive (s : string) : String.rev (String.rev s) = s.
Proof.
  induction s as [|c s IH]; [done|]. by rewrite string_rev_cons, string_rev_snoc, IH.
Qed.

Lemma lstrip_starts_clean (s : string) : starts_clean (lstrip s).
Proof.
  induction s as [|c s IH]; simpl; [done|].
  destruct (isspace c) eqn:E; [done|]. simpl. done.
Qed.

Lemma starts_clean_lstrip (s : string) : starts_clean s → lstrip s = s.
Proof. destruct s as [|c s]; simpl; [done|]. by intros ->. Qed.

Lemma lstrip_snoc (s : string) (c : ascii) :
  isspace c = false → lstrip (s +:+ String c "") = lstrip s +:+ String c "".
Proof.
  intros Hc. induction s as [|d s IH]; [by simpl; rewrite Hc|].
  rewrite append_cons. simpl. by destruct (isspace d).
Qed.

Lemma rstrip_starts_clean (s : string) : starts_clean s → starts_clean (rstrip s).
Proof.
  destruct s as [|c s]; [done|]. simpl. intros Hc.
  unfold rstrip. by rewrite string_rev_cons, lstrip_snoc, string_rev_snoc.
Qed.

Lemma strip_idemp (s : string) : strip (strip s) = strip s.
Proof.
  unfold strip.
  assert (lstrip (rstrip (lstrip s)) = rstrip (lstrip s)) as ->.
  { apply starts_clean_lstrip, rstrip_starts_clean, lstrip_starts_clean. }
  unfold rstrip. rewrite string_rev_involutive. f_equal.
  apply starts_clean_lstrip, lstrip_starts_clean.
Qed.

(** ** Readers *)

Lemma row_tokens (row : list string) (data : list string) :
  fold_left
    (λ data value, if bool_decide (strip value ≠ "") then data ++ [strip value] else data)
    row data
  = data ++ (strip <$> filter (λ value, ¬ blank value) row).
Proof.
  revert data. induction row as [|value row IH]; intros data; simpl.
  - by rewrite app_nil_r.
  - rewrite IH, filter_cons. unfold blank at 2.
    case_bool_decide; case_decide; try done.
    by rewrite <- app_assoc.
Qed.

Lemma csv_tokens_from (rows : list (list string)) (data : list string) :
  fold_left
    (λ data row,
       match row with
       | [] => data
       | _ =>
           fold_left
             (λ data value,
                if bool_decide (strip value ≠ "") then data ++ [strip value] else data)
             row data
       end)
    rows data
  = data ++ (strip <$> filter (λ value, ¬ blank value) (concat rows)).
Proof.
  revert data. induction rows as [|row rows IH]; intros data; simpl.
  - by rewrite app_nil_r.
  - rewrite IH, filter_app, fmap_app, app_assoc. f_equal.
    destruct row as [|value row]; [by rewrite app_nil_r|].
    apply row_tokens.
Qed.

Lemma csv_tokens_flat (rows : list (list string)) :
  csv_tokens rows = strip <$> filter (λ value, ¬ blank value) (concat rows).
Proof. unfold csv_tokens. by rewrite csv_tokens_from. Qed.

Lemma concat_drop_blanks (rows : list (list string)) :
  concat (drop_blanks rows) = filter (λ value, ¬ blank value) (concat rows).
Proof.
  unfold drop_blanks. induction rows as [|row rows IH]; [done|].
  rewrite fmap_cons, filter_cons. simpl. rewrite filter_app, <- IH.
  case_decide as Hrow; [done|]. by rewrite Hrow.
Qed.

Lemma filter_idemp {A} (P : A → Prop) `{∀ x, Decision (P x)} (l : list A) :
  filter P (filter P l) = filter P l.
Proof.
  induction l as [|x l IH]; [done|].
  rewrite !filter_cons. case_decide; [|done].
  rewrite filter_cons. case_decide; [|done]. by rewrite IH.
Qed.

Lemma csv_tokens_drop_blanks (rows : list (list string)) :
  csv_tokens (drop_blanks rows) = csv_tokens rows.
Proof. by rewrite !csv_tokens_flat, concat_drop_blanks, filter_idemp. Qed.

Lemma csv_rows_records (lines : list string) (rows : list (list string))
    (rest : list string) :
  mapM record_of lines = Some rows →
  csv_rows parse_reset (lines ++ rest)
    = outcome_map (app rows) (csv_rows parse_reset rest).
Proof.
  revert rows. induction lines as [|line lines IH]; intros rows Hrows.
  - injection Hrows as <-. simpl. by destruct (csv_rows parse_reset rest).
  - simpl in Hrows. destruct (record_of line) as [row|] eqn:Hrow; [|done].
    simpl in Hrows. destruct (mapM record_of lines) as [rows'|] eqn:Hrows'; [|done].
    injection Hrows as <-. unfold record_of in Hrow.
    simpl. destruct (parse_line parse_reset line) as [p|e]; [|done].
    case_bool_decide; [|done]. injection Hrow as <-.
    rewrite (IH rows') by done.
    by destruct (csv_rows parse_reset rest).
Qed.

Lemma csv_blank_record_ignored (lines : list string) (rows : list (list string))
    (line : string) (row : list string) (rest : list string) :
  mapM record_of lines = Some rows →
  record_of line = Some row →
  Forall blank row →
  outcome_map csv_tokens (py_csv_reader (lines ++ line :: rest))
    = outcome_map csv_tokens (py_csv_reader (lines ++ rest)).
Proof.
  intros Hrows Hrow Hblank. unfold py_csv_reader.
  rewrite (csv_rows_records lines rows (line :: rest) Hrows).
  rewrite (csv_rows_records lines rows rest Hrows).
  change (line :: rest) with ([line] ++ rest).
  rewrite (csv_rows_records [line] [row] rest) by (simpl; by rewrite Hrow).
  destruct (csv_rows parse_reset rest) as [rows'|e]; [|done]. simpl. f_equal.
  rewrite !csv_tokens_flat, !concat_app, !filter_app. simpl.
  rewrite filter_app. do 2 f_equal.
  rewrite <- (app_nil_l (filter _ (concat rows'))) at 2. f_equal.
  clear -Hblank. induction Hblank as [|value row Hvalue _ IH]; [done|].
  rewrite filter_cons. by case_decide.
Qed.

(** ** ASCII text

    The readers keep to the characters of the file: from ASCII text they
    make tokens of ASCII text. *)

Lemma isascii_app (s1 s2 : string) : isascii (s1 +:+ s2) = isascii s1 && isascii s2.
Proof.
  induction s1 as [|c s1 IH]; [done|].
  rewrite append_cons. simpl. by rewrite IH, andb_assoc.
Qed.

Lemma isascii_rev (s : string) : isascii (String.rev s) = isascii s.
Proof.
  induction s as [|c s IH]; [done|].
  rewrite string_rev_cons, isascii_app, IH. simpl. by rewrite andb_true_r, andb_comm.
Qed.

Lemma ascii_text_lstrip (s : string) : ascii_text s → ascii_text (lstrip s).
Proof.
  unfold ascii_text. induction s as [|c s IH]; [done|]. simpl.
  intros [Hc Hs]%andb_true_iff. destruct (isspace c); [by apply IH|].
  simpl. by rewrite Hc.
Qed.

Lemma ascii_text_strip (s : string) : ascii_text s → ascii_text (strip s).
Proof.
  intros Hs. unfold strip, rstrip, ascii_text. rewrite isascii_rev.
  apply ascii_text_lstrip. unfold ascii_text. rewrite isascii_rev.
  by apply ascii_text_lstrip.
Qed.

Lemma ascii_text_file_lines_go (cur s : string) :
  ascii_text cur → ascii_text s → Forall ascii_text (file_lines_go cur s).
Proof.
  unfold ascii_text.
  assert (Hlines : ∀ n s cur,
    (String.length s ≤ n)%nat → isascii cur = true → isascii s = true →
    Forall (λ line, isascii line = true) (file_lines_go cur s));
    [|by apply (Hlines (String.length s) s cur)].
  clear cur s. intros n. induction n as [|n IH]; intros s cur Hlen Hcur Hs.
  - destruct s; [|simpl in Hlen; lia]. simpl.
    destruct cur; [done|]. constructor; [|done]. by rewrite isascii_rev.
  - destruct s as [|c s]; simpl.
    { destruct cur; [done|]. constructor; [|done]. by rewrite isascii_rev. }
    simpl in Hs, Hlen. apply andb_true_iff in Hs as [Hc Hs].
    assert (Hline : isascii (String.rev (String "010"%char cur)) = true)
      by by rewrite isascii_rev.
    assert (Hnext : Forall (λ line, isascii line = true) (file_lines_go (String c cur) s)).
    { apply IH; [lia| |done]. simpl. by rewrite Hc. }
    assert (Hrest : Forall (λ line, isascii line = true) (file_lines_go "" s))
      by (apply IH; [lia|done|done]).
    assert (Hskip : ∀ c' s', s = String c' s' →
              Forall (λ line, isascii line = true) (file_lines_go "" s')).
    { intros c' s' ->. simpl in Hs, Hlen. apply andb_true_iff in Hs as [_ Hs].
      apply IH; [lia|done|done]. }
    repeat case_match; subst; try done; try (constructor; [done|]); try done.
    all: by eapply Hskip.
Qed.

Lemma ascii_text_file_lines (content : string) :
  ascii_text content → Forall ascii_text (file_lines content).
Proof. by apply ascii_text_file_lines_go. Qed.

Lemma Forall_filter_1 {A} (P Q : A → Prop) `{∀ x, Decision (Q x)} (l : list A) :
  Forall P l → Forall P (filter Q l).
Proof.
  rewrite !Forall_forall. intros Hl x [_ Hx]%list_elem_of_filter. by apply Hl.
Qed.

Lemma ascii_text_nonblank_lines (content : string) :
  ascii_text content → Forall ascii_text (nonblank_lines content).
Proof.
  intros Hcontent. unfold nonblank_lines.
  apply Forall_filter_1, Forall_fmap.
  eapply Forall_impl; [by apply ascii_text_file_lines|].
  intros line. apply ascii_text_strip.
Qed.

Lemma ascii_parser_save_field (p : csv_parser) :
  ascii_parser p → ascii_parser (parse_save_field p).
Proof.
  intros [Hfield Hfields]. split; [done|]. simpl. constructor; [|done].
  unfold ascii_text. by rewrite isascii_rev.
Qed.

Lemma ascii_parser_set_state (p : csv_parser) (s : csv_state) :
  ascii_parser p → ascii_parser (set_state p s).
Proof. done. Qed.

Lemma ascii_parser_add_char (p p' : csv_parser) (c : ascii) :
  ascii_parser p → (nat_of_ascii c <? 128)%nat = true →
  parse_add_char p c = Return p' → ascii_parser p'.
Proof.
  intros [Hfield Hfields] Hc. unfold parse_add_char. case_match; [done|].
  intros [= <-]. split; [|done]. unfold ascii_text. simpl. by rewrite Hc.
Qed.

Lemma ascii_parser_process_char (p p' : csv_parser) (c : option ascii) :
  ascii_parser p →
  from_option (λ ch, (nat_of_ascii ch <? 128)%nat) true c = true →
  parse_process_char p c = Return p' → ascii_parser p'.
Proof.
  intros Hp Hc. unfold parse_process_char.
  pose proof ascii_parser_save_field. pose proof ascii_parser_set_state.
  pose proof ascii_parser_add_char.
  repeat case_match; simplify_eq; try done; intros [= <-] || intros ?; eauto 6.
Qed.

Lemma ascii_parser_line (line : string) (p p' : csv_parser) :
  ascii_parser p → ascii_text line → parse_line p line = Return p' → ascii_parser p'.
Proof.
  unfold ascii_text. revert p. induction line as [|c line IH]; intros p Hp Hline; simpl.
  - by apply ascii_parser_process_char.
  - simpl in Hline. apply andb_true_iff in Hline as [Hc Hline].
    destruct (parse_process_char p (Some c)) as [p1|e] eqn:Hstep; [|done].
    apply IH; [|done]. by apply (ascii_parser_process_char p p1 (Some c)).
Qed.

Lemma ascii_csv_rows (lines : list string) (p : csv_parser) (rows : list (list string)) :
  ascii_parser p → Forall ascii_text lines → csv_rows p lines = Return rows →
  Forall (Forall ascii_text) rows.
Proof.
  revert p rows. induction lines as [|line lines IH]; intros p rows Hp Hlines; simpl.
  - case_match; intros [= <-]; [|done]. constructor; [|done].
    change (Forall ascii_text (rev (fields (parse_save_field p)))).
    apply Forall_rev. by apply ascii_parser_save_field.
  - apply Forall_cons in Hlines as [Hline Hlines].
    destruct (parse_line p line) as [p1|e] eqn:Hp1; [|done].
    pose proof (ascii_parser_line line p p1 Hp Hline Hp1) as [Hfield Hfields].
    case_bool_decide.
    + destruct (csv_rows parse_reset lines) as [rows'|e] eqn:Hrows'; [|done].
      intros [= <-]. constructor; [by apply Forall_rev|].
      by apply (IH parse_reset).
    + by apply IH.
Qed.

Lemma ascii_py_csv_reader (lines : list string) (rows : list (list string)) :
  Forall ascii_text lines → py_csv_reader lines = Return rows →
  Forall (Forall ascii_text) rows.
Proof. by apply ascii_csv_rows. Qed.

Lemma ascii_csv_tokens (rows : list (list string)) :
  Forall (Forall ascii_text) rows → Forall ascii_text (csv_tokens rows).
Proof.
  intros Hrows. rewrite csv_tokens_flat.
  induction Hrows as [|row rows Hrow _ IH]; [done|].
  simpl. rewrite filter_app, fmap_app. apply Forall_app. split; [|done].
  apply Forall_fmap, Forall_filter_1.
  eapply Forall_impl; [done|]. intros cell. apply ascii_text_strip.
Qed.

Section readers.
Context {py : Builtins}.

Lemma read_numerical_data_csv_run (filename content : string) (w w1 : World)
    (rows : list (list string)) :
  endswith filename ".csv" = true →
  read_text filename w = (Return content, w1) →
  csv_reader (file_lines content) = Return rows →
  read_numerical_data filename w = (Return (csv_tokens rows), w1).
Proof.
  intros Hext Hread Hrows.
  unfold read_numerical_data, try_except, mbind, M_bind.
  rewrite Hread, Hext. unfold lift. by rewrite Hrows.
Qed.

End readers.

(** C8: for a path ending in [.csv] and a file of ASCII text, the reader
    returns the cells of all rows in order, each stripped, without the blank
    ones, and these tokens are ASCII text again; blank rows and blank
    cells leave the result as it is without them, and so does a line of the
    text that is a record of blank cells only, such as an empty line. *)
Theorem read_numerical_data_csv {py : Builtins} :
  (∀ filename content w w1 rows,
     endswith filename ".csv" = true →
     read_text filename w = (Return content, w1) →
     ascii_text content →
     csv_reader (file_lines content) = Return rows →
     Forall (Forall ascii_text) rows →
     read_numerical_data filename w
       = (Return (strip <$> filter (λ value, ¬ blank value) (concat rows)), w1) ∧
     Forall ascii_text (strip <$> filter (λ value, ¬ blank value) (concat rows))) ∧
  (∀ content rows,
     ascii_text content →
     py_csv_reader (file_lines content) = Return rows →
     Forall (Forall ascii_text) rows) ∧
  (∀ rows,
     Forall (Forall ascii_text) rows →
     csv_tokens (drop_blanks rows) = csv_tokens rows) ∧
  (∀ rows rows',
     Forall (Forall ascii_text) (rows ++ rows') →
     csv_tokens (rows ++ [] :: rows') = csv_tokens (rows ++ rows')) ∧
  (∀ rows cells value cells' rows',
     Forall (Forall ascii_text) (rows ++ (cells ++ value :: cells') :: rows') →
     blank value →
     csv_tokens (rows ++ (cells ++ value :: cells') :: rows')
       = csv_tokens (rows ++ (cells ++ cells') :: rows')) ∧
  (∀ lines rows line row rest,
     Forall ascii_text (lines ++ line :: rest) →
     mapM record_of lines = Some rows →
     record_of line = Some row →
     Forall blank row →
     outcome_map csv_tokens (py_csv_reader (lines ++ line :: rest))
       = outcome_map csv_tokens (py_csv_reader (lines ++ rest))) ∧
  record_of nl = Some [] ∧
  record_of ("  , " +:+ nl) = Some ["  "; " "] ∧
  (let w := mk_World ∅ ∅ {["blanks.csv" := csv_with_blanks; "plain.csv" := csv_without_blanks]}
              ∅ [] [] in
   (read_numerical_data (py := py_builtins) "blanks.csv" w).1 = Return ["85"; "92"; "78"; "65"; "88"] ∧
   (read_numerical_data (py := py_builtins) "plain.csv" w).1 = Return ["85"; "92"; "78"; "65"; "88"]).
Proof.
  split; [|split; [|split; [|split; [|split; [|split; [|split; [|split]]]]]]].
  - intros filename content w w1 rows Hext Hread _ Hrows Hascii.
    rewrite <- csv_tokens_flat. split.
    + by apply read_numerical_data_csv_run with content.
    + by apply ascii_csv_tokens.
  - intros content rows Hcontent. by apply ascii_py_csv_reader, ascii_text_file_lines.
  - intros rows _. apply csv_tokens_drop_blanks.
  - intros rows rows' _. by rewrite !csv_tokens_flat, !concat_app.
  - intros rows cells value cells' rows' _ Hblank.
    rewrite !csv_tokens_flat, !concat_app. simpl.
    rewrite !filter_app, filter_cons. by case_decide.
  - intros lines rows line row rest _. apply csv_blank_record_ignored.
  - vm_compute; exact eq_refl.
  - vm_compute; exact eq_refl.
  - split; vm_compute; exact eq_refl.
Qed.

Lemma read_numerical_data_csv_witness :
  (read_numerical_data (py := py_builtins) "scores.csv"
     (mk_World ∅ ∅ {["scores.csv" := " 7 ,," +:+ nl +:+ nl +:+ "8"]} ∅ [] [])).1
  = Return ["7"; "8"].
Proof.
  set (w := mk_World ∅ ∅ {["scores.csv" := " 7 ,," +:+ nl +:+ nl +:+ "8"]} ∅ [] []).
  rewrite (proj1 (proj1 (read_numerical_data_csv (py := py_builtins)) "scores.csv"
                    (" 7 ,," +:+ nl +:+ nl +:+ "8") w w [[" 7 "; ""; ""]; []; ["8"]]
                    eq_refl eq_refl eq_refl eq_refl
                    ltac:(repeat constructor))).
  vm_compute; exact eq_refl.
Defined.

(** ** The sample of twenty scores *)

(** C9: read from a CSV file and validated, the twenty scores are twenty
    floats of total 1633.0 and average 81.65. *)
Theorem twenty_scores_statistics :
  ∃ tokens data,
    (read_numerical_data (py := py_builtins) "scores.csv"
       (mk_World ∅ ∅ {["scores.csv" := twenty_scores]} ∅ [] [])).1 = Return tokens ∧
    validate_numerical_data (py := py_builtins) tokens = Return data ∧
    length tokens = 20%nat ∧
    length data = 20%nat ∧
    calculate_total data = PyFloat 1633 ∧
    calculate_average data = Return (PyFloat 81.65) ∧
    (1633 / 20 = 81.65)%float.
Proof.
  eexists _, _. split; [vm_compute; exact eq_refl|].
  split; [vm_compute; exact eq_refl|].
  repeat split; vm_compute; exact eq_refl.
Qed.

(** ** Code that leaves the heap as it is *)

Create HintDb heap discriminated.

Section heap.
Context {py : Builtins}.

Lemma heap_ret {A} (a : A) : heap_preserved (mret a).
Proof. done. Qed.

Lemma heap_raise {A} (e : exn) : heap_preserved (raise (A := A) e).
Proof. done. Qed.

Lemma heap_lift {A} (o : outcome A) : heap_preserved (lift o).
Proof. done. Qed.

Lemma heap_bind {A B} (m : M A) (k : A → M B) :
  heap_preserved m → (∀ a, heap_preserved (k a)) → heap_preserved (m ≫= k).
Proof.
  intros Hm Hk w. unfold mbind, M_bind.
  specialize (Hm w). destruct (m w) as [[a|e] w1]; simpl in *; [|done].
  destruct (Hk a w1) as [-> ->]. done.
Qed.

Lemma heap_try_except {A} (body : M A) (handler : exn → M A) :
  heap_preserved body → (∀ e, heap_preserved (handler e)) →
  heap_preserved (try_except body handler).
Proof.
  intros Hm Hk w. unfold try_except.
  specialize (Hm w). destruct (body w) as [[a|e] w1]; simpl in *; [done|].
  destruct (Hk e w1) as [-> ->]. done.
Qed.

Lemma heap_print (s : string) : heap_preserved (print s).
Proof. done. Qed.

Lemma heap_io_step : heap_preserved io_step.
Proof. intros w. unfold io_step. by destruct (faults w) as [|[e|] rest]. Qed.

Lemma heap_open_w (filename : string) : heap_preserved (open_w filename).
Proof.
  unfold open_w. apply heap_bind; [apply heap_io_step|]. intros _.
  apply heap_bind; [done|]. intros w. by case_bool_decide.
Qed.

Lemma heap_write (filename s : string) : heap_preserved (write filename s).
Proof. unfold write. apply heap_bind; [apply heap_io_step|]. done. Qed.

Lemma heap_close (filename : string) : heap_preserved (close filename).
Proof. apply heap_io_step. Qed.

Lemma heap_with_open_w {A} (filename : string) (body : M A) :
  heap_preserved body → heap_preserved (with_open_w filename body).
Proof.
  intros Hbody. unfold with_open_w.
  apply heap_bind; [apply heap_open_w|]. intros _ w.
  specialize (Hbody w). destruct (body w) as [[a|e] w1]; simpl in *.
  - destruct (heap_bind (close filename) (λ _, mret a) (heap_close _)
                (λ _, heap_ret a) w1) as [-> ->]. done.
  - destruct (heap_bind (B := A) (close filename) (λ _, raise e) (heap_close _)
                (λ _, heap_raise e) w1) as [-> ->]. done.
Qed.

Lemma heap_dict_contains (l : loc) (key : string) : heap_preserved (dict_contains l key).
Proof. done. Qed.

Lemma heap_field_of (l : loc) (key : string) (dflt : pyval) (spec : format_spec) :
  heap_preserved (field_of l key dflt spec).
Proof. unfold field_of. apply heap_bind; [done|]. intros value. apply heap_lift. Qed.

Lemma heap_mapM {A B} (f : A → M B) (l : list A) :
  (∀ a, heap_preserved (f a)) → heap_preserved (mapM f l).
Proof.
  intros Hf. induction l as [|a l IH]; simpl; [apply heap_ret|].
  apply heap_bind; [apply Hf|]. intros b.
  apply heap_bind; [apply IH|]. intros bs. apply heap_ret.
Qed.

Lemma heap_if {A} (b : bool) (m1 m2 : M A) :
  heap_preserved m1 → heap_preserved m2 → heap_preserved (if b then m1 else m2).
Proof. by destruct b. Qed.

Hint Resolve heap_ret heap_raise heap_lift heap_print heap_io_step heap_open_w heap_write
  heap_close heap_dict_contains heap_field_of : heap.

Ltac heap_steps :=
  repeat match goal with
  | |- heap_preserved (mbind _ _) => apply heap_bind; [|intros ?]
  | |- heap_preserved (if _ then _ else _) => apply heap_if
  | |- heap_preserved (mapM _ _) => apply heap_mapM; intros ?
  | |- heap_preserved _ => solve [auto with heap]
  end.

Lemma heap_save_report_body (stats : loc) (unique : gset string) (filename : string) :
  heap_preserved (save_report_body stats unique filename).
Proof.
  unfold save_report_body.
  apply heap_bind; [|intros ?; heap_steps].
  apply heap_with_open_w. heap_steps.
Qed.

Lemma heap_save_report (stats : loc) (unique : gset string) (filename : string) :
  heap_preserved (save_report stats unique filename).
Proof.
  unfold save_report. apply heap_try_except; [apply heap_save_report_body|].
  intros e. heap_steps.
Qed.

Lemma heap_read_text (filename : string) : heap_preserved (read_text filename).
Proof.
  unfold read_text. apply heap_bind; [apply heap_io_step|]. intros _.
  apply heap_bind; [done|]. intros w. by destruct (files w !! filename).
Qed.

Lemma heap_read_categorical_data (filename : string) :
  heap_preserved (read_categorical_data filename).
Proof.
  unfold read_categorical_data. apply heap_try_except.
  - apply heap_bind; [apply heap_read_text|]. intros content. apply heap_ret.
  - intros e. destruct (isinstance e FileNotFoundError); apply heap_raise.
Qed.

End heap.

(** ** The statistics of a data set *)

Lemma dom_numeric_block (data : list float) (threshold : pynum) :
  data ≠ [] → dom (numeric_block data threshold) = numeric_keys.
Proof.
  intros Hne. unfold numeric_block.
  destruct (calculate_average_float data Hne) as (total & _ & Havg).
  destruct data as [|x data]; [done|]. rewrite Havg.
  rewrite !dom_insert_L, dom_empty_L. unfold numeric_keys. set_solver.
Qed.

Lemma dom_categorical_block (categories : list string) :
  categories ≠ [] → dom (categorical_block categories) = {["unique_categories"]}.
Proof.
  intros Hne. destruct categories; [done|].
  unfold categorical_block. by rewrite dom_singleton_L.
Qed.

Section statistics.

Lemma get_self_run (self : loc) (ds : DataSet) (w : World) :
  datasets w !! self = Some ds → get_self self w = (Return ds, w).
Proof. intros Hds. unfold get_self. by rewrite Hds. Qed.

(** What [calculate_statistics] does, in full: the dict the data set refers
    to afterwards is a new one holding the numeric block when there are
    numeric data, the old one otherwise, updated by the categorical block;
    no other dict object changes. *)
Lemma set_self_run (self : loc) (f : DataSet → DataSet) (ds : DataSet) (w : World) :
  datasets w !! self = Some ds →
  set_self self f w = (Return (), set_datasets (insert self (f ds)) w).
Proof. intros Hds. unfold set_self, modify, set_datasets. by rewrite Hds. Qed.

Lemma dict_new_run (d : gmap string pyval) (w : World) :
  dict_new d w = (Return (fresh (dom (dicts w))), set_dicts (insert (fresh (dom (dicts w))) d) w).
Proof. done. Qed.

Lemma calculate_statistics_run (self : loc) (threshold : pynum) (w : World)
    (ds : DataSet) (old : gmap string pyval) :
  datasets w !! self = Some ds →
  dicts w !! statistics ds = Some old →
  ∃ w' l,
    calculate_statistics self threshold w = (Return (), w') ∧
    l = match numerical_data ds with
        | [] => statistics ds
        | _ => fresh (dom (dicts w))
        end ∧
    datasets w' !! self
      = Some (mk_DataSet (numerical_file ds) (categorical_file ds) (numerical_data ds)
                (categorical_data ds) l
                match categorical_data ds with
                | [] => unique_categories ds
                | _ => (get_unique_categories (categorical_data ds)).1
                end) ∧
    dicts w' !! l
      = Some (categorical_block (categorical_data ds) ∪
                match numerical_data ds with
                | [] => old
                | _ => numeric_block (numerical_data ds) threshold
                end) ∧
    (∀ l', l' ≠ l → dicts w' !! l' = dicts w !! l') ∧
    files w' = files w ∧ stdout w' = stdout w.
Proof.
  intros Hds Hold.
  destruct ds as [nfile cfile ndata cdata st uniq].
  cbn [numerical_file categorical_file numerical_data categorical_data statistics
       unique_categories] in *.
  unfold calculate_statistics, mbind, M_bind.
  rewrite (get_self_run _ _ _ Hds).
  cbn [numerical_file categorical_file numerical_data categorical_data statistics
       unique_categories].
  destruct ndata as [|x data].
  - unfold mret, M_ret. rewrite (get_self_run _ _ _ Hds).
    cbn [numerical_file categorical_file numerical_data categorical_data statistics
         unique_categories].
    destruct cdata as [|c categories].
    + exists w, st. split; [done|]. split; [done|]. split; [done|].
      split; [|done]. rewrite Hold. f_equal. unfold categorical_block.
      by rewrite (left_id_L ∅ (∪)).
    + unfold get_unique_categories at 1. cbv beta iota zeta.
      rewrite (set_self_run _ _ _ _ Hds).
      eexists _, st. split; [reflexivity|].
      cbn [set_dicts set_datasets datasets dicts files stdout].
      rewrite !lookup_insert_eq, Hold.
      split; [done|]. split; [done|]. split.
      { f_equal. unfold categorical_block. by rewrite <- insert_union_singleton_l. }
      split; [|done]. intros l' Hl'. by rewrite lookup_insert_ne.
  - assert (Hne : x :: data ≠ []) by done.
    destruct (calculate_average_float (x :: data) Hne) as (total & Htotal & Havg).
    unfold lift. rewrite Havg. cbv beta iota.
    set (block := insert "performance" _ _).
    assert (Hblock : numeric_block (x :: data) threshold = block).
    { unfold numeric_block. by rewrite Havg. }
    clearbody block. rewrite dict_new_run.
    set (l := fresh (dom (dicts w))).
    assert (Hl : dicts w !! l = None).
    { apply not_elem_of_dom. apply is_fresh. }
    set (w1 := set_dicts (insert l block) w).
    assert (Hds1 : datasets w1 !! self = Some (mk_DataSet nfile cfile (x :: data) cdata st uniq))
      by done.
    rewrite (set_self_run _ _ _ _ Hds1).
    cbn [numerical_file categorical_file numerical_data categorical_data statistics
         unique_categories].
    set (ds2 := mk_DataSet nfile cfile (x :: data) cdata l uniq).
    set (w2 := set_datasets (insert self ds2) w1).
    assert (Hds2 : datasets w2 !! self = Some ds2) by apply lookup_insert_eq.
    rewrite (get_self_run _ _ _ Hds2).
    subst ds2.
    cbn [numerical_file categorical_file numerical_data categorical_data statistics
         unique_categories].
    destruct cdata as [|c categories].
    + exists w2, l. split; [done|]. split; [done|]. split; [done|].
      subst w2 w1. cbn [set_dicts set_datasets datasets dicts files stdout].
      rewrite lookup_insert_eq. split.
      { f_equal. unfold categorical_block. by rewrite (left_id_L ∅ (∪)), Hblock. }
      split; [|done]. intros l' Hl'. by rewrite lookup_insert_ne.
    + unfold get_unique_categories at 1. cbv beta iota zeta.
      rewrite (set_self_run _ _ _ _ Hds2).
      eexists _, l. split; [reflexivity|].
      subst w2 w1. cbn [set_dicts set_datasets datasets dicts files stdout].
      rewrite !lookup_insert_eq. split; [done|]. split; [done|]. split.
      { f_equal. unfold categorical_block.
        by rewrite <- insert_union_singleton_l, Hblock. }
      split; [|done]. intros l' Hl'. by rewrite !lookup_insert_ne.
Qed.

End statistics.

Lemma numeric_block_nil (threshold : pynum) : numeric_block [] threshold = ∅.
Proof. done. Qed.

Lemma numeric_block_unique (data : list float) (threshold : pynum) :
  numeric_block data threshold !! "unique_categories" = None.
Proof.
  destruct data as [|x data]; [done|].
  apply not_elem_of_dom. rewrite dom_numeric_block by done.
  unfold numeric_keys. set_solver.
Qed.

Lemma categorical_block_numeric (categories : list string) (key : string) :
  key ≠ "unique_categories" → categorical_block categories !! key = None.
Proof.
  intros Hkey. destruct categories as [|c categories]; [done|].
  unfold categorical_block. by rewrite lookup_singleton_ne.
Qed.

Lemma numeric_keys_not_unique (key : string) :
  key ∈ numeric_keys → key ≠ "unique_categories".
Proof. unfold numeric_keys. set_solver. Qed.

Section construction.
Context {py : Builtins}.

Lemma DataSet_init_run (nfile cfile : option string) (w : World) :
  DataSet_init nfile cfile w
    = (Return (fresh (dom (datasets w))),
       set_datasets
         (insert (fresh (dom (datasets w)))
            (mk_DataSet nfile cfile [] [] (fresh (dom (dicts w))) ∅))
         (set_dicts (insert (fresh (dom (dicts w))) ∅) w)).
Proof. done. Qed.

(** Loading a data set that has no numeric file leaves the dict objects and
    the numeric data as they are. *)
Lemma load_data_no_numerical_file (self : loc) (ds : DataSet) (w w' : World) :
  datasets w !! self = Some ds →
  numerical_file ds = None →
  load_data self w = (Return (), w') →
  dicts w' = dicts w ∧
  ∃ categories,
    datasets w' !! self
      = Some (mk_DataSet None (categorical_file ds) (numerical_data ds) categories
                (statistics ds) (unique_categories ds)).
Proof.
  intros Hds Hnfile. unfold load_data, try_except.
  match goal with |- context [?body w] => destruct (body w) as [[[]|e] w1] eqn:Hbody end;
    [|done].
  intros [= <-]. revert Hbody.
  unfold mbind at 1, M_bind at 1. rewrite (get_self_run _ _ _ Hds), Hnfile.
  cbn [truthy_name]. unfold mbind at 1, M_bind at 1, mret at 1, M_ret at 1.
  unfold mbind at 1, M_bind at 1. rewrite (get_self_run _ _ _ Hds).
  destruct (truthy_name (categorical_file ds)) as [file|].
  - unfold mbind at 1, M_bind at 1.
    destruct (heap_read_categorical_data file w) as [Hdicts Hdatasets].
    destruct (read_categorical_data file w) as [[categories|e] w2]; [|done].
    cbn [snd] in Hdicts, Hdatasets.
    assert (Hds2 : datasets w2 !! self = Some ds) by by rewrite Hdatasets.
    unfold mbind, M_bind. rewrite (set_self_run _ _ _ _ Hds2).
    unfold print, modify. intros [= <-].
    cbn [set_stdout set_datasets dicts datasets]. rewrite lookup_insert_eq.
    split; [done|]. exists categories. by rewrite Hnfile.
  - unfold mret, M_ret. intros [= <-]. split; [done|].
    exists (categorical_data ds). rewrite Hds. f_equal.
    destruct ds; cbn in *. by subst.
Qed.

End construction.

(** C6: on a data set whose statistics are still the empty dict, the numeric
    keys come from the numeric data alone and the key [unique_categories]
    from the categorical data alone; with no numeric data and some
    categorical data the statistics hold exactly the key [unique_categories].
    So it is for a data set constructed with a categorical file only, then
    loaded and analysed. *)
Theorem calculate_statistics_categorical_only {py : Builtins} :
  (∀ self threshold w ds,
     datasets w !! self = Some ds →
     dicts w !! statistics ds = Some ∅ →
     ∃ w' ds' stats,
       calculate_statistics self threshold w = (Return (), w') ∧
       datasets w' !! self = Some ds' ∧
       dicts w' !! statistics ds' = Some stats ∧
       (∀ key, key ∈ numeric_keys →
          stats !! key = numeric_block (numerical_data ds) threshold !! key) ∧
       stats !! "unique_categories"
         = categorical_block (categorical_data ds) !! "unique_categories" ∧
       (numerical_data ds = [] → categorical_data ds ≠ [] →
          dom stats = {["unique_categories"]} ∧
          stats !! "unique_categories"
            = Some (VNum (PyInt (Z.of_nat
                      (size (list_to_set (categorical_data ds) : gset string))))) ∧
          ∀ key, key ∈ numeric_keys → stats !! key = None) ∧
       (numerical_data ds ≠ [] → categorical_data ds = [] → dom stats = numeric_keys)) ∧
  (∀ cfile threshold w self w',
     (self ← DataSet_init None cfile;
      load_data self;;
      calculate_statistics self threshold;;
      mret self) w = (Return self, w') →
     ∃ ds stats,
       datasets w' !! self = Some ds ∧
       numerical_data ds = [] ∧
       dicts w' !! statistics ds = Some stats ∧
       (categorical_data ds ≠ [] → dom stats = {["unique_categories"]}) ∧
       (categorical_data ds = [] → stats = ∅)).
Proof.
  assert (Hstate : ∀ self threshold w ds,
    datasets w !! self = Some ds →
    dicts w !! statistics ds = Some ∅ →
    ∃ w' ds' stats,
      calculate_statistics self threshold w = (Return (), w') ∧
      datasets w' !! self = Some ds' ∧
      dicts w' !! statistics ds' = Some stats ∧
      numerical_data ds' = numerical_data ds ∧
      categorical_data ds' = categorical_data ds ∧
      stats = categorical_block (categorical_data ds)
                ∪ numeric_block (numerical_data ds) threshold).
  { intros self threshold w ds Hds Hstats.
    destruct (calculate_statistics_run self threshold w ds ∅ Hds Hstats)
      as (w' & l & Hrun & _ & Hds' & Hl & _).
    eexists w', _, _. split; [done|]. split; [done|]. split; [done|].
    split; [done|]. split; [done|]. by destruct (numerical_data ds). }
  split.
  - intros self threshold w ds Hds Hstats.
    destruct (Hstate self threshold w ds Hds Hstats)
      as (w' & ds' & stats & Hrun & Hds' & Hstats' & _ & _ & ->).
    eexists w', ds', _. split; [done|]. split; [done|]. split; [done|].
    split; [|split; [|split]].
    + intros key Hkey%numeric_keys_not_unique.
      by rewrite lookup_union_r by by apply categorical_block_numeric.
    + rewrite lookup_union, numeric_block_unique.
      by destruct (categorical_block (categorical_data ds) !! "unique_categories").
    + intros Hdata Hcat. rewrite Hdata, numeric_block_nil, (right_id_L ∅ (∪)).
      split; [by apply dom_categorical_block|].
      destruct (categorical_data ds) as [|c categories]; [done|].
      split; [apply lookup_singleton_eq|].
      intros key Hkey%numeric_keys_not_unique. by apply lookup_singleton_ne.
    + intros Hdata Hcat. rewrite Hcat. unfold categorical_block.
      rewrite (left_id_L ∅ (∪)). by apply dom_numeric_block.
  - intros cfile threshold w self w'.
    unfold mbind at 1, M_bind at 1. rewrite DataSet_init_run.
    set (self0 := fresh (dom (datasets w))).
    set (stats0 := fresh (dom (dicts w))).
    set (ds0 := mk_DataSet None cfile [] [] stats0 ∅).
    set (w1 := set_datasets _ _).
    assert (Hds0 : datasets w1 !! self0 = Some ds0) by apply lookup_insert_eq.
    assert (Hstats0 : dicts w1 !! stats0 = Some ∅) by apply lookup_insert_eq.
    unfold mbind at 1, M_bind at 1.
    destruct (load_data self0 w1) as [[[]|e] w2] eqn:Hload; [|done].
    destruct (load_data_no_numerical_file self0 ds0 w1 w2 Hds0 eq_refl Hload)
      as (Hdicts & categories & Hds2).
    cbn [ds0 categorical_file numerical_data statistics unique_categories] in Hds2.
    assert (Hstats2 : dicts w2 !! stats0 = Some ∅) by by rewrite Hdicts.
    destruct (Hstate self0 threshold w2 _ Hds2 Hstats2)
      as (w3 & ds3 & stats & Hrun & Hds3 & Hstats3 & Hnum & Hcat & ->).
    unfold mbind, M_bind. rewrite Hrun. unfold mret, M_ret. intros [= <- <-].
    eexists ds3, _. split; [done|]. split; [done|]. split; [done|].
    rewrite Hcat. cbn [numerical_data categorical_data].
    rewrite numeric_block_nil, (right_id_L ∅ (∪)). split.
    + apply dom_categorical_block.
    + by intros ->.
Qed.

Lemma calculate_statistics_categorical_only_witness :
  ∃ w' ds' stats,
    calculate_statistics 1%positive (PyInt 75) categorical_only
      = (Return (), w') ∧
    datasets w' !! 1%positive = Some ds' ∧
    dicts w' !! statistics ds' = Some stats ∧
    dom stats = {["unique_categories"]} ∧
    stats !! "unique_categories" = Some (VNum (PyInt 2)).
Proof.
  destruct (proj1 (calculate_statistics_categorical_only (py := py_builtins))
              1%positive (PyInt 75) categorical_only
              (mk_DataSet None (Some "categories.txt") [] ["Math"; "Physics"; "Math"]
                 1%positive ∅))
    as (w' & ds' & stats & Hrun & Hds' & Hstats & _ & _ & Hcat & _).
  - vm_compute; exact eq_refl.
  - vm_compute; exact eq_refl.
  - exists w', ds', stats. split; [done|]. split; [done|]. split; [done|].
    destruct Hcat as (Hdom & Hunique & _); [done|done|].
    split; [done|]. rewrite Hunique. vm_compute; exact eq_refl.
Defined.

(** C10: with numeric data the data set gets a new statistics dict made of
    the numeric block (and the categorical update), whatever the old one
    held, and the old dict object is left as it was; with no numeric data and
    some categorical data the old dict is updated in place at the one key
    [unique_categories]. *)
Theorem calculate_statistics_asymmetric
    (self : loc) (threshold : pynum) (w : World) (ds : DataSet) (old : gmap string pyval) :
  datasets w !! self = Some ds →
  dicts w !! statistics ds = Some old →
  ∃ w' ds' new,
    calculate_statistics self threshold w = (Return (), w') ∧
    datasets w' !! self = Some ds' ∧
    dicts w' !! statistics ds' = Some new ∧
    (numerical_data ds ≠ [] →
       new = categorical_block (categorical_data ds)
               ∪ numeric_block (numerical_data ds) threshold ∧
       dom new = numeric_keys ∪ dom (categorical_block (categorical_data ds)) ∧
       (∀ key, key ∉ numeric_keys → key ≠ "unique_categories" → new !! key = None) ∧
       statistics ds' ≠ statistics ds ∧
       dicts w' !! statistics ds = Some old) ∧
    (numerical_data ds = [] → categorical_data ds ≠ [] →
       statistics ds' = statistics ds ∧
       new = <["unique_categories" :=
                 VNum (PyInt (Z.of_nat (get_unique_categories (categorical_data ds)).2))]> old ∧
       (∀ key, key ≠ "unique_categories" → new !! key = old !! key)).
Proof.
  intros Hds Hold.
  destruct (calculate_statistics_run self threshold w ds old Hds Hold)
    as (w' & l & Hrun & Hloc & Hds' & Hl & Hframe & _).
  eexists w', _, _. split; [done|]. split; [done|]. split; [done|].
  cbn [statistics]. split.
  - intros Hdata.
    destruct (numerical_data ds) as [|x data] eqn:Edata; [done|].
    assert (l ≠ statistics ds) as Hfresh.
    { intros Heq. rewrite Hloc in Heq.
      assert (statistics ds ∈ dom (dicts w)) as Hin by (apply elem_of_dom; eauto).
      rewrite <- Heq in Hin. by apply is_fresh in Hin. }
    split; [done|]. split; [|split; [|split]].
    + rewrite dom_union_L, dom_numeric_block by done.
      apply set_eq. intros key. set_solver.
    + intros key Hkey Hunique. apply lookup_union_None. split.
      * by apply categorical_block_numeric.
      * apply not_elem_of_dom. by rewrite dom_numeric_block.
    + done.
    + rewrite Hframe by done. done.
  - intros Hdata Hcat. rewrite Hdata in Hloc. subst l.
    split; [done|]. rewrite Hdata.
    destruct (categorical_data ds) as [|c categories] eqn:Ecat; [done|].
    unfold categorical_block. rewrite <- insert_union_singleton_l.
    split; [done|]. intros key Hkey. by rewrite lookup_insert_ne.
Qed.

Lemma calculate_statistics_asymmetric_witness :
  (∃ w' ds' new,
     calculate_statistics 1%positive (PyInt 75)
       (analysed_before [] ["Math"; "Physics"; "Math"]) = (Return (), w') ∧
     datasets w' !! 1%positive = Some ds' ∧
     dicts w' !! statistics ds' = Some new ∧
     new = <["unique_categories" := VNum (PyInt 2)]> stale_statistics) ∧
  (∃ w' ds' new,
     calculate_statistics 1%positive (PyInt 75)
       (analysed_before [85; 92]%float []) = (Return (), w') ∧
     datasets w' !! 1%positive = Some ds' ∧
     dicts w' !! statistics ds' = Some new ∧
     dom new = numeric_keys ∧
     dicts w' !! 1%positive = Some stale_statistics).
Proof.
  split.
  - destruct (calculate_statistics_asymmetric 1%positive (PyInt 75)
                (analysed_before [] ["Math"; "Physics"; "Math"])
                (mk_DataSet None None [] ["Math"; "Physics"; "Math"] 1%positive ∅)
                stale_statistics)
      as (w' & ds' & new & Hrun & Hds' & Hnew & _ & Hcat).
    + vm_compute; exact eq_refl.
    + vm_compute; exact eq_refl.
    + exists w', ds', new. split; [done|]. split; [done|]. split; [done|].
      destruct Hcat as (_ & -> & _); [done|done|]. vm_compute; exact eq_refl.
  - destruct (calculate_statistics_asymmetric 1%positive (PyInt 75)
                (analysed_before [85; 92]%float [])
                (mk_DataSet None None [85; 92]%float [] 1%positive ∅)
                stale_statistics)
      as (w' & ds' & new & Hrun & Hds' & Hnew & Hnum & _).
    + vm_compute; exact eq_refl.
    + vm_compute; exact eq_refl.
    + exists w', ds', new. split; [done|]. split; [done|]. split; [done|].
      destruct Hnum as (_ & Hdom & _ & _ & Hold); [done|].
      split; [|done]. rewrite Hdom. cbn [categorical_data categorical_block].
      rewrite dom_empty_L. by rewrite (right_id_L ∅ (∪)).
Defined.

(** ** The report *)

Section report.
Context {py : Builtins}.

Lemma save_report_failure (stats : loc) (unique : gset string) (filename : string)
    (w w1 : World) (e : exn) :
  save_report_body stats unique filename w = (Raise e, w1) →
  save_report stats unique filename w
    = (Return false, set_stdout (λ out, out ++ [" Error saving report: " +:+ exn_msg e]) w1).
Proof. intros Hbody. unfold save_report, try_except. by rewrite Hbody. Qed.

Lemma save_report_success (stats : loc) (unique : gset string) (filename : string)
    (w w1 : World) (ok : bool) :
  save_report_body stats unique filename w = (Return ok, w1) →
  ok = true ∧ save_report stats unique filename w = (Return true, w1).
Proof.
  intros Hbody. assert (ok = true) as ->.
  { revert Hbody. unfold save_report_body, mbind at 1, M_bind at 1.
    destruct (with_open_w _ _ w) as [[[] | e] w2]; [|done].
    unfold mbind, M_bind, print, modify, mret, M_ret. by intros [= <- _]. }
  split; [done|]. unfold save_report, try_except. by rewrite Hbody.
Qed.

Lemma save_report_open_failure (stats : loc) (unique : gset string) (filename : string)
    (w w1 : World) (e : exn) :
  open_w filename w = (Raise e, w1) →
  save_report_body stats unique filename w = (Raise e, w1).
Proof.
  intros Hopen. unfold save_report_body, with_open_w, mbind, M_bind in *.
  by rewrite Hopen.
Qed.

Lemma open_w_unwritable (filename : string) (w : World) :
  filename ∈ unwritable w → ∃ e w1, open_w filename w = (Raise e, w1).
Proof.
  intros Hin. unfold open_w, mbind, M_bind, io_step.
  destruct (faults w) as [|[e|] rest]; simpl.
  - rewrite bool_decide_eq_true_2 by done. by eexists _, _.
  - by eexists _, _.
  - rewrite bool_decide_eq_true_2 by done. by eexists _, _.
Qed.

Lemma read_numerical_data_propagates (filename : string) (w w1 : World) (e : exn) :
  read_text filename w = (Raise e, w1) →
  read_numerical_data filename w
    = (Raise (if isinstance e FileNotFoundError
              then mk_exn FileNotFoundError ("Error: File '" +:+ filename +:+ "' not found")
              else mk_exn Exception ("Error reading file: " +:+ exn_msg e)), w1).
Proof.
  intros Hread. unfold read_numerical_data, try_except, mbind, M_bind.
  rewrite Hread. by destruct (isinstance e FileNotFoundError).
Qed.

Lemma read_categorical_data_propagates (filename : string) (w w1 : World) (e : exn) :
  read_text filename w = (Raise e, w1) →
  read_categorical_data filename w
    = (Raise (if isinstance e FileNotFoundError
              then mk_exn FileNotFoundError ("Error: File '" +:+ filename +:+ "' not found")
              else e), w1).
Proof.
  intros Hread. unfold read_categorical_data, try_except, mbind, M_bind.
  rewrite Hread. by destruct (isinstance e FileNotFoundError).
Qed.

Lemma load_data_propagates_read (self : loc) (ds : DataSet) (file : string)
    (w w1 : World) (e : exn) :
  datasets w !! self = Some ds →
  truthy_name (numerical_file ds) = Some file →
  read_numerical_data file w = (Raise e, w1) →
  load_data self w
    = (Raise e, set_stdout (λ out, out ++ [" Error loading data: " +:+ exn_msg e]) w1).
Proof.
  intros Hds Hfile Hread. unfold load_data, try_except, mbind at 1, M_bind at 1.
  rewrite (get_self_run _ _ _ Hds), Hfile.
  unfold mbind, M_bind. by rewrite Hread.
Qed.

Lemma load_data_propagates_validation (self : loc) (ds : DataSet) (file : string)
    (w w1 : World) (raw_data : list string) (e : exn) :
  datasets w !! self = Some ds →
  truthy_name (numerical_file ds) = Some file →
  read_numerical_data file w = (Return raw_data, w1) →
  validate_numerical_data raw_data = Raise e →
  load_data self w
    = (Raise e, set_stdout (λ out, out ++ [" Error loading data: " +:+ exn_msg e]) w1).
Proof.
  intros Hds Hfile Hread Hbad. unfold load_data, try_except, mbind at 1, M_bind at 1.
  rewrite (get_self_run _ _ _ Hds), Hfile.
  unfold mbind, M_bind, lift. by rewrite Hread, Hbad.
Qed.

Lemma read_numerical_data_csv_failure (filename content : string) (w w1 : World)
    (e : exn) :
  endswith filename ".csv" = true →
  read_text filename w = (Return content, w1) →
  csv_reader (file_lines content) = Raise e →
  read_numerical_data filename w
    = (Raise (if isinstance e FileNotFoundError
              then mk_exn FileNotFoundError ("Error: File '" +:+ filename +:+ "' not found")
              else mk_exn Exception ("Error reading file: " +:+ exn_msg e)), w1).
Proof.
  intros Hext Hread Hrows. unfold read_numerical_data, try_except, mbind, M_bind.
  rewrite Hread, Hext. unfold lift. rewrite Hrows.
  by destruct (isinstance e FileNotFoundError).
Qed.

Lemma load_data_propagates_categories (self : loc) (ds : DataSet) (file : string)
    (w w1 : World) (e : exn) :
  datasets w !! self = Some ds →
  truthy_name (numerical_file ds) = None →
  truthy_name (categorical_file ds) = Some file →
  read_categorical_data file w = (Raise e, w1) →
  load_data self w
    = (Raise e, set_stdout (λ out, out ++ [" Error loading data: " +:+ exn_msg e]) w1).
Proof.
  intros Hds Hnfile Hcfile Hread. unfold load_data, try_except.
  unfold mbind at 1, M_bind at 1. rewrite (get_self_run _ _ _ Hds), Hnfile.
  unfold mbind at 1, M_bind at 1, mret at 1, M_ret at 1.
  unfold mbind at 1, M_bind at 1. rewrite (get_self_run _ _ _ Hds), Hcfile.
  unfold mbind, M_bind. by rewrite Hread.
Qed.

Lemma heap_read_numerical_data (filename : string) :
  heap_preserved (read_numerical_data filename).
Proof.
  unfold read_numerical_data. apply heap_try_except.
  - apply heap_bind; [apply heap_read_text|]. intros content.
    destruct (endswith filename ".csv"); [|apply heap_ret].
    apply heap_bind; [apply heap_lift|]. intros rows. apply heap_ret.
  - intros e. destruct (isinstance e FileNotFoundError); apply heap_raise.
Qed.

Lemma load_data_propagates_categories_loaded (self : loc) (ds : DataSet)
    (nfile cfile : string) (w w1 w2 : World) (raw_data : list string) (data : list float)
    (e : exn) :
  datasets w !! self = Some ds →
  truthy_name (numerical_file ds) = Some nfile →
  truthy_name (categorical_file ds) = Some cfile →
  read_numerical_data nfile w = (Return raw_data, w1) →
  validate_numerical_data raw_data = Return data →
  read_categorical_data cfile (numbers_loaded self ds data w1) = (Raise e, w2) →
  load_data self w
    = (Raise e, set_stdout (λ out, out ++ [" Error loading data: " +:+ exn_msg e]) w2).
Proof.
  intros Hds Hnfile Hcfile Hread Hvalid Hcat.
  destruct (heap_read_numerical_data nfile w) as [_ Hdatasets].
  rewrite Hread in Hdatasets. simpl in Hdatasets.
  assert (Hds1 : datasets w1 !! self = Some ds) by by rewrite Hdatasets.
  unfold load_data, try_except.
  unfold mbind at 1, M_bind at 1. rewrite (get_self_run _ _ _ Hds), Hnfile.
  unfold mbind at 1, M_bind at 1. unfold mbind at 1, M_bind at 1. rewrite Hread.
  unfold mbind at 1, M_bind at 1, lift at 1. rewrite Hvalid.
  unfold mbind at 1, M_bind at 1. rewrite (set_self_run _ _ _ _ Hds1).
  unfold print at 1, modify at 1.
  fold (with_numerical_data data ds). fold (numbers_loaded self ds data w1).
  assert (Hds2 : datasets (numbers_loaded self ds data w1) !! self
                 = Some (with_numerical_data data ds)) by apply lookup_insert_eq.
  unfold mbind at 1, M_bind at 1. rewrite (get_self_run _ _ _ Hds2).
  cbn [with_numerical_data categorical_file]. rewrite Hcfile.
  unfold mbind, M_bind. by rewrite Hcat.
Qed.

Lemma validate_numerical_data_invalid (before : list string) (bad : string)
    (after : list string) :
  Forall (λ token, is_Some (float_of_str token)) before →
  float_of_str bad = None →
  ∃ e, validate_numerical_data (before ++ bad :: after) = Raise e.
Proof.
  intros Hbefore Hbad. unfold validate_numerical_data.
  destruct (before ++ bad :: after) as [|token data] eqn:Hdata; [by eexists|].
  rewrite <- Hdata. eexists. by apply validate_loop_invalid.
Qed.

End report.

(** *** The operations of [save_report] on the file *)

Section uses.
Context {py : Builtins} (stats : loc) (d : gmap string pyval).

Lemma uses_ret {A} (a : A) : uses stats d 0 (mret a) (λ a', a' = a).
Proof.
  intros w a' w' Hd. unfold mret, M_ret. intros [= <- <-].
  rewrite drop_0, take_0. by repeat split.
Qed.

Lemma uses_print (s : string) : uses stats d 0 (print s) (λ _, True).
Proof.
  intros w [] w' Hd. unfold print, modify. intros [= <-].
  rewrite drop_0, take_0. by repeat split.
Qed.

Lemma uses_io_step : uses stats d 1 io_step (λ _, True).
Proof.
  intros w [] w' Hd. unfold io_step.
  destruct (faults w) as [|[e|] rest] eqn:Hfaults; [|done|]; intros [= <-].
  - by rewrite Hfaults.
  - simpl. rewrite drop_0, take_0. repeat split; [done|]. by constructor.
Qed.

Lemma uses_bind {A B} (n n' : nat) (m : M A) (k : A → M B) (Q : A → Prop)
    (Q' : B → Prop) :
  uses stats d n m Q → (∀ a, Q a → uses stats d n' (k a) Q') →
  uses stats d (n + n') (m ≫= k) Q'.
Proof.
  intros Hm Hk w b w' Hd. unfold mbind, M_bind.
  destruct (m w) as [[a|e] w1] eqn:Hrun; [|done]. intros Hrun'.
  destruct (Hm w a w1 Hd Hrun) as (Hd1 & Ha & Hfaults & Hnone).
  destruct (Hk a Ha w1 b w' Hd1 Hrun') as (Hd' & Hb & Hfaults' & Hnone').
  split; [done|]. split; [done|]. rewrite Hfaults in Hfaults', Hnone'. split.
  - by rewrite Hfaults', drop_drop.
  - rewrite <- take_take_drop. by apply Forall_app.
Qed.

Lemma uses_conseq {A} (n n' : nat) (m : M A) (Q Q' : A → Prop) :
  n = n' → (∀ a, Q a → Q' a) → uses stats d n m Q → uses stats d n' m Q'.
Proof.
  intros <- HQ Hm w a w' Hd Hrun.
  destruct (Hm w a w' Hd Hrun) as (? & ? & ? & ?). auto.
Qed.

Lemma uses_if {A} (b : bool) (n1 n2 : nat) (m1 m2 : M A) (Q : A → Prop) :
  uses stats d n1 m1 Q → uses stats d n2 m2 Q →
  uses stats d (if b then n1 else n2) (if b then m1 else m2) Q.
Proof. by destruct b. Qed.

Lemma uses_open_w (filename : string) : uses stats d 1 (open_w filename) (λ _, True).
Proof.
  unfold open_w. apply uses_conseq with (1 + 0)%nat (λ _ : unit, True); [done..|].
  eapply uses_bind; [apply uses_io_step|]. intros _ _ w [] w' Hd.
  unfold mbind, M_bind, get_world. case_bool_decide; [done|].
  intros [= <-]. rewrite drop_0, take_0. by repeat split.
Qed.

Lemma uses_write (filename s : string) : uses stats d 1 (write filename s) (λ _, True).
Proof.
  unfold write. apply uses_conseq with (1 + 0)%nat (λ _ : unit, True); [done..|].
  eapply uses_bind; [apply uses_io_step|]. intros _ _ w [] w' Hd [= <-].
  rewrite drop_0, take_0. by repeat split.
Qed.

Lemma uses_dict_contains (key : string) :
  uses stats d 0 (dict_contains stats key) (λ b, b = bool_decide (is_Some (d !! key))).
Proof.
  intros w b w' Hd. unfold dict_contains, dict_read, mbind, M_bind, mret, M_ret.
  rewrite Hd. intros [= <- <-]. rewrite drop_0, take_0. by repeat split.
Qed.

Lemma uses_field_of (key : string) (dflt : pyval) (spec : format_spec) :
  uses stats d 0 (field_of stats key dflt spec) (λ _, True).
Proof.
  intros w s w' Hd. unfold field_of, dict_get, dict_read, mbind, M_bind, mret, M_ret, lift.
  destruct (format _ spec) as [s'|e]; [|done].
  intros [= <- <-]. rewrite drop_0, take_0. by repeat split.
Qed.

Lemma uses_mapM {A B} (f : A → M B) (l : list A) :
  (∀ x, uses stats d 1 (f x) (λ _, True)) →
  uses stats d (length l) (mapM f l) (λ _, True).
Proof.
  intros Hf. induction l as [|x l IH]; simpl.
  - eapply uses_conseq; [done| |apply uses_ret]. done.
  - apply uses_conseq with (1 + (length l + 0))%nat (λ _, True); [lia|done|].
    eapply uses_bind; [apply Hf|]. intros y _.
    eapply uses_bind; [apply IH|]. intros k _.
    eapply uses_conseq; [done| |apply uses_ret]. done.
Qed.

Lemma uses_with_open_w {A} (filename : string) (n : nat) (body : M A) (Q : A → Prop) :
  uses stats d n body Q → uses stats d (S (n + 1)) (with_open_w filename body) Q.
Proof.
  intros Hbody. unfold with_open_w.
  change (S (n + 1)) with (1 + (n + 1))%nat.
  eapply uses_bind; [apply uses_open_w|]. intros _ _ w a w' Hd.
  destruct (body w) as [[a'|e] w1] eqn:Hrun.
  - intros Hclose.
    assert (Hrun' : (body ≫= λ a', close filename;; mret a') w = (Return a, w')).
    { unfold mbind at 1, M_bind at 1. by rewrite Hrun. }
    clear Hrun Hclose. revert w a w' Hd Hrun'.
    refine (_ : uses stats d (n + 1) _ Q).
    eapply uses_bind; [apply Hbody|]. intros a Ha.
    change 1%nat with (1 + 0)%nat.
    eapply uses_bind; [apply uses_io_step|]. intros _ _.
    eapply uses_conseq; [done| |apply uses_ret]. by intros a'' ->.
  - unfold mbind, M_bind, close. by destruct (io_step w1) as [[[]|e'] w2].
Qed.

Lemma length_sorted (s : gset string) : length (sorted s) = size s.
Proof. unfold sorted. by rewrite merge_sort_Permutation. Qed.

Lemma uses_save_report_body (unique : gset string) (filename : string) :
  uses stats d (report_operations d unique) (save_report_body stats unique filename)
    (λ ok, ok = true).
Proof.
  unfold save_report_body.
  apply uses_conseq with (S (report_writes d unique + 1) + (0 + 0))%nat (λ ok, ok = true);
    [unfold report_operations; lia|done|].
  eapply uses_bind; [apply uses_with_open_w|].
  - unfold report_writes.
    eapply uses_conseq; [| |].
    2: { intros a Ha. exact Ha. }
    2: { eapply uses_bind; [apply uses_write|]. intros _ _.
         eapply uses_bind; [apply uses_write|]. intros _ _.
         eapply uses_bind; [apply uses_dict_contains|]. intros has_count ->.
         eapply uses_bind.
         { apply uses_if.
           - repeat first
               [ apply uses_write
               | eapply uses_bind; [first [apply uses_write|apply uses_field_of]|intros ? _] ].
           - eapply uses_conseq; [done| |apply uses_ret]. done. }
         intros _ _.
         eapply uses_bind; [apply uses_dict_contains|]. intros has_unique ->.
         eapply uses_bind.
         { apply uses_if.
           - eapply uses_bind; [apply uses_write|]. intros _ _.
             eapply uses_bind; [apply uses_write|]. intros _ _.
             eapply uses_bind; [apply uses_field_of|]. intros s _.
             eapply uses_bind; [apply uses_write|]. intros _ _.
             apply uses_if.
             + eapply uses_bind; [apply uses_write|]. intros _ _.
               eapply uses_bind; [apply uses_mapM; intros category; apply uses_write|].
               intros _ _. eapply uses_conseq; [done| |apply uses_ret]. done.
             + eapply uses_conseq; [done| |apply uses_ret]. done.
           - eapply uses_conseq; [done| |apply uses_ret]. done. }
         intros _ _.
         eapply uses_bind; [apply uses_write|]. intros _ _.
         apply uses_write. }
    rewrite length_sorted.
    repeat case_bool_decide; lia.
  - intros _ _. eapply uses_bind; [apply uses_print|]. intros _ _.
    eapply uses_conseq; [done| |apply uses_ret]. done.
Qed.

(** A call of [save_report] that returns [True] has made every operation on
    the file, and none has met a fault. *)
Lemma save_report_true_inv (unique : gset string) (filename : string) (w w' : World) :
  default ∅ (dicts w !! stats) = d →
  save_report stats unique filename w = (Return true, w') →
  faults w' = drop (report_operations d unique) (faults w) ∧
  Forall (λ fault, fault = None) (take (report_operations d unique) (faults w)).
Proof.
  intros Hd. unfold save_report, try_except.
  destruct (save_report_body stats unique filename w) as [[ok|e] w1] eqn:Hbody.
  - intros [= -> <-].
    by destruct (uses_save_report_body unique filename w true w1 Hd Hbody) as (_ & _ & ?).
  - unfold mbind, M_bind, print, modify, mret, M_ret. done.
Qed.

(** A fault met by [open], by a write or by [close] makes [save_report]
    return [False]. *)
Lemma save_report_fault (unique : gset string) (filename : string) (w : World)
    (k : nat) (e : exn) :
  default ∅ (dicts w !! stats) = d →
  faults w !! k = Some (Some e) →
  (k < report_operations d unique)%nat →
  ∃ w', save_report stats unique filename w = (Return false, w').
Proof.
  intros Hd Hk Hlt.
  destruct (save_report stats unique filename w) as [[[]|e'] w'] eqn:Hrun.
  - destruct (save_report_true_inv unique filename w w' Hd Hrun) as [_ Hnone].
    rewrite Forall_lookup in Hnone. specialize (Hnone k (Some e)).
    rewrite lookup_take_lt in Hnone by done. by specialize (Hnone Hk).
  - by exists w'.
  - revert Hrun. unfold save_report, try_except.
    destruct (save_report_body stats unique filename w) as [[ok|e''] w1]; [done|].
    unfold mbind, M_bind, print, modify, mret, M_ret. done.
Qed.

End uses.

(** C7: [save_report] always returns a boolean and changes no dict object.
    It returns [False] exactly when its [try] block raises, and the block
    raises whenever an operation on the file fails: when the file cannot be
    opened for writing, and when [open], one of the writes or [close] meets
    a fault. A call that returns [True] has made all these operations, none
    of which has failed. The other handlers of the program raise again: a
    failed read or a failure of the CSV reader makes the readers raise, a
    token that is not a float makes the validator raise, and a failed read
    of either file or a failed validation makes [load_data] raise. *)
Theorem save_report_swallows_failures {py : Builtins}
    (stats : loc) (unique : gset string) (filename : string) (w : World) :
  (∃ ok w',
     save_report stats unique filename w = (Return ok, w') ∧
     dicts w' = dicts w ∧ datasets w' = datasets w ∧
     (ok = false ↔ ∃ e w1, save_report_body stats unique filename w = (Raise e, w1))) ∧
  (∀ e w1,
     open_w filename w = (Raise e, w1) →
     (save_report stats unique filename w).1 = Return false) ∧
  (filename ∈ unwritable w → (save_report stats unique filename w).1 = Return false) ∧
  (∀ k e,
     faults w !! k = Some (Some e) →
     (k < report_operations (default ∅ (dicts w !! stats)) unique)%nat →
     (save_report stats unique filename w).1 = Return false) ∧
  (∀ w',
     save_report stats unique filename w = (Return true, w') →
     faults w' = drop (report_operations (default ∅ (dicts w !! stats)) unique) (faults w) ∧
     Forall (λ fault, fault = None)
       (take (report_operations (default ∅ (dicts w !! stats)) unique) (faults w))) ∧
  (∀ path e w1,
     read_text path w = (Raise e, w1) →
     ∃ e', read_numerical_data path w = (Raise e', w1)) ∧
  (∀ path content e w1,
     endswith path ".csv" = true →
     read_text path w = (Return content, w1) →
     csv_reader (file_lines content) = Raise e →
     ∃ e', read_numerical_data path w = (Raise e', w1)) ∧
  (∀ path e w1,
     read_text path w = (Raise e, w1) →
     ∃ e', read_categorical_data path w = (Raise e', w1)) ∧
  (∀ self ds file e w1,
     datasets w !! self = Some ds →
     truthy_name (numerical_file ds) = Some file →
     read_numerical_data file w = (Raise e, w1) →
     ∃ w2, load_data self w = (Raise e, w2)) ∧
  (∀ self ds file raw_data e w1,
     datasets w !! self = Some ds →
     truthy_name (numerical_file ds) = Some file →
     read_numerical_data file w = (Return raw_data, w1) →
     validate_numerical_data raw_data = Raise e →
     ∃ w2, load_data self w = (Raise e, w2)) ∧
  (∀ self ds file e w1,
     datasets w !! self = Some ds →
     truthy_name (numerical_file ds) = None →
     truthy_name (categorical_file ds) = Some file →
     read_categorical_data file w = (Raise e, w1) →
     ∃ w2, load_data self w = (Raise e, w2)) ∧
  (∀ self ds nfile cfile raw_data data e w1 w2,
     datasets w !! self = Some ds →
     truthy_name (numerical_file ds) = Some nfile →
     truthy_name (categorical_file ds) = Some cfile →
     read_numerical_data nfile w = (Return raw_data, w1) →
     validate_numerical_data raw_data = Return data →
     read_categorical_data cfile (numbers_loaded self ds data w1) = (Raise e, w2) →
     ∃ w3, load_data self w = (Raise e, w3)) ∧
  (∀ before bad after,
     Forall (λ token, is_Some (float_of_str token)) before →
     float_of_str bad = None →
     ∃ e, validate_numerical_data (before ++ bad :: after) = Raise e).
Proof.
  split; [|split; [|split; [|split; [|split; [|split; [|split; [|split; [|split; [|split;
    [|split; [|split]]]]]]]]]]].
  - destruct (heap_save_report stats unique filename w) as [Hdicts Hdatasets].
    destruct (save_report_body stats unique filename w) as [[ok|e] w1] eqn:Hbody.
    + apply save_report_success in Hbody as [-> Hrun].
      rewrite Hrun in Hdicts, Hdatasets. exists true, w1.
      split; [done|]. split; [done|]. split; [done|].
      split; [done|]. by intros (e & w2 & ?).
    + pose proof (save_report_failure _ _ _ _ _ _ Hbody) as Hrun.
      rewrite Hrun in Hdicts, Hdatasets. eexists false, _.
      split; [done|]. split; [done|]. split; [done|].
      split; [|done]. intros _. by exists e, w1.
  - intros e w1 Hopen.
    by rewrite (save_report_failure _ _ _ _ _ _ (save_report_open_failure _ _ _ _ _ _ Hopen)).
  - intros (e & w1 & Hopen)%open_w_unwritable.
    by rewrite (save_report_failure _ _ _ _ _ _ (save_report_open_failure _ _ _ _ _ _ Hopen)).
  - intros k e Hk Hlt.
    destruct (save_report_fault stats _ unique filename w k e eq_refl Hk Hlt) as [w' Hrun].
    by rewrite Hrun.
  - intros w' Hrun. by apply (save_report_true_inv stats _ unique filename w w').
  - intros path e w1 Hread. eexists. by apply read_numerical_data_propagates.
  - intros path content e w1 Hext Hread Hrows. eexists.
    by apply read_numerical_data_csv_failure with content.
  - intros path e w1 Hread. eexists. by apply read_categorical_data_propagates.
  - intros self ds file e w1 Hds Hfile Hread. eexists.
    by apply load_data_propagates_read with ds file.
  - intros self ds file raw_data e w1 Hds Hfile Hread Hbad. eexists.
    by apply load_data_propagates_validation with ds file raw_data.
  - intros self ds file e w1 Hds Hnfile Hcfile Hread. eexists.
    by apply load_data_propagates_categories with ds file.
  - intros self ds nfile cfile raw_data data e w1 w2 Hds Hnfile Hcfile Hread Hvalid Hcat.
    eexists. by apply load_data_propagates_categories_loaded with ds nfile cfile w1 raw_data data.
  - apply validate_numerical_data_invalid.
Qed.

Lemma save_report_swallows_failures_witness :
  (save_report (py := py_builtins) 1%positive ∅ default_report read_only_target).1
    = Return false ∧
  (∃ w',
     save_report (py := py_builtins) 1%positive ∅ default_report disk_full
       = (Return false, w') ∧
     dicts w' !! 1%positive = Some stale_statistics) ∧
  (save_report (py := py_builtins) 1%positive ∅ default_report closing_fails).1
    = Return false.
Proof.
  split; [|split].
  - apply (save_report_swallows_failures (py := py_builtins) 1%positive ∅ default_report
             read_only_target).
    vm_compute; exact eq_refl.
  - destruct (save_report_swallows_failures (py := py_builtins) 1%positive ∅ default_report
                disk_full) as ((ok & w' & Hrun & Hdicts & _ & Hok) & _).
    exists w'. assert (ok = false) as ->.
    { apply Hok. eexists _, _. vm_compute; exact eq_refl. }
    split; [done|]. rewrite Hdicts. vm_compute; exact eq_refl.
  - apply (save_report_swallows_failures (py := py_builtins) 1%positive ∅ default_report
             closing_fails)
      with 16%nat (mk_exn OSError "[Errno 28] No space left on device").
    + vm_compute; exact eq_refl.
    + vm_compute. lia.
Defined.
(** ** The whole program *)

(** X30: once the two input files exist, whatever fails afterwards is caught
    at the top level and reported on the console: [main] returns [None]. *)
Lemma main_catches_failures {py : Builtins} (w : World) :
  is_Some (files w !! NUMERICAL_FILE) →
  is_Some (files w !! CATEGORICAL_FILE) →
  ∃ w', main w = (Return (), w').
Proof.
  intros Hnum Hcat. unfold main.
  unfold mbind at 1, M_bind at 1, print at 1, modify at 1.
  unfold mbind at 1, M_bind at 1, print at 1, modify at 1.
  unfold mbind at 1, M_bind at 1, path_exists at 1.
  unfold mbind at 1, M_bind at 1, get_world at 1, mret at 1, M_ret at 1.
  cbn [files set_stdout]. rewrite bool_decide_eq_true_2 by done.
  unfold mbind at 1, M_bind at 1, mret at 1, M_ret at 1.
  unfold mbind at 1, M_bind at 1, path_exists at 1.
  unfold mbind at 1, M_bind at 1, get_world at 1, mret at 1, M_ret at 1.
  cbn [files set_stdout]. rewrite bool_decide_eq_true_2 by done.
  unfold mbind at 1, M_bind at 1, mret at 1, M_ret at 1.
  unfold mbind at 1, M_bind at 1. rewrite DataSet_init_run.
  unfold try_except.
  match goal with |- context [match ?body ?w1 with _ => _ end] =>
    destruct (body w1) as [[[]|e] w2]
  end; by eexists.
Qed.

Lemma main_catches_failures_witness :
  ∃ w',
    main (py := py_builtins)
      (mk_World ∅ ∅ {[NUMERICAL_FILE := "85,x"; CATEGORICAL_FILE := "Art"]} ∅
         [None; Some (permission_denied CATEGORICAL_FILE)] [])
    = (Return (), w').
Proof.
  apply (main_catches_failures (py := py_builtins)).
  - vm_compute. by eexists.
  - vm_compute. by eexists.
Defined.

(** The program run where no file exists yet: it makes its sample files and
    writes this report. *)
Lemma main_sample_run :
  ∃ w,
    main (py := py_builtins) empty_world = (Return (), w) ∧
    files w !! "dataset_analysis_report.txt"
      = Some ("DATASET ANALYSIS REPORT" +:+ nl
              +:+ "==================================================" +:+ nl +:+ nl
              +:+ "NUMERICAL DATA STATISTICS:" +:+ nl
              +:+ "------------------------------" +:+ nl
              +:+ "Total Data Points: 20" +:+ nl
              +:+ "Sum: 1633.00" +:+ nl
              +:+ "Average: 81.65" +:+ nl
              +:+ "Minimum: 65.00" +:+ nl
              +:+ "Maximum: 95.00" +:+ nl
              +:+ "Performance: High Performance" +:+ nl +:+ nl
              +:+ "CATEGORICAL DATA ANALYSIS:" +:+ nl
              +:+ "------------------------------" +:+ nl
              +:+ "Unique Categories: 5" +:+ nl
              +:+ "List of Unique Categories:" +:+ nl
              +:+ "  - Biology" +:+ nl
              +:+ "  - Chemistry" +:+ nl
              +:+ "  - Computer Science" +:+ nl
              +:+ "  - Mathematics" +:+ nl
              +:+ "  - Physics" +:+ nl +:+ nl
              +:+ "==================================================" +:+ nl
              +:+ "Report generated by Dataset Management System" +:+ nl) ∧
    last (stdout w) = Some "ANALYSIS COMPLETED SUCCESSFULLY!".
Proof.
  eexists. split; [vm_compute; exact eq_refl|].
  split; vm_compute; exact eq_refl.
Qed.

(** * Further properties *)

(** ** Tokens *)

Lemma line_tokens_from (lines : list string) (data : list string) :
  fold_left
    (λ data line,
       let value := strip line in
       if bool_decide (value ≠ "") then data ++ [value] else data)
    lines data
  = data ++ filter (λ value, value ≠ "") (strip <$> lines).
Proof.
  revert data. induction lines as [|line lines IH]; intros data; simpl.
  - by rewrite app_nil_r.
  - rewrite IH, filter_cons. case_bool_decide; case_decide; try done.
    by rewrite <- app_assoc.
Qed.

Lemma line_tokens_filter (lines : list string) :
  line_tokens lines = filter (λ value, value ≠ "") (strip <$> lines).
Proof. unfold line_tokens. by rewrite line_tokens_from. Qed.

Lemma line_tokens_trimmed (lines : list string) :
  Forall (λ token, token ≠ "" ∧ strip token = token) (line_tokens lines).
Proof.
  rewrite line_tokens_filter. apply Forall_forall. intros token.
  rewrite list_elem_of_filter, list_elem_of_fmap. intros [Hne (line & -> & _)].
  split; [done|]. apply strip_idemp.
Qed.

Lemma csv_tokens_trimmed (rows : list (list string)) :
  Forall (λ token, token ≠ "" ∧ strip token = token) (csv_tokens rows).
Proof.
  rewrite csv_tokens_flat. apply Forall_forall. intros token.
  rewrite list_elem_of_fmap. intros (value & -> & [Hne _]%list_elem_of_filter).
  split; [done|]. apply strip_idemp.
Qed.

(** ** Readers, continued *)

Section reader_runs.
Context {py : Builtins}.

Lemma read_text_inv (filename : string) (w w1 : World) (content : string) :
  read_text filename w = (Return content, w1) →
  files w !! filename = Some content ∧ io_step w = (Return (), w1).
Proof.
  unfold read_text, mbind, M_bind.
  destruct (io_step w) as [[[]|e] w2] eqn:Hio; [|done].
  unfold get_world. assert (files w2 = files w) as ->.
  { revert Hio. unfold io_step. destruct (faults w) as [|[e|] rest]; by intros [= <-]. }
  destruct (files w !! filename) as [content'|]; [|done].
  unfold mret, M_ret. by intros [= -> ->].
Qed.

Lemma read_text_missing (filename : string) (w : World) :
  files w !! filename = None → faults w = [] →
  read_text filename w
    = (Raise (mk_exn FileNotFoundError
                ("[Errno 2] No such file or directory: '" +:+ filename +:+ "'")), w).
Proof.
  intros Hfile Hfaults. unfold read_text, mbind, M_bind, io_step. rewrite Hfaults.
  unfold get_world. by rewrite Hfile.
Qed.

Lemma read_numerical_data_text_run (filename content : string) (w w1 : World) :
  endswith filename ".csv" = false →
  read_text filename w = (Return content, w1) →
  read_numerical_data filename w = (Return (line_tokens (file_lines content)), w1).
Proof.
  intros Hext Hread. unfold read_numerical_data, try_except, mbind, M_bind.
  by rewrite Hread, Hext.
Qed.

Lemma read_categorical_data_run (filename content : string) (w w1 : World) :
  read_text filename w = (Return content, w1) →
  read_categorical_data filename w = (Return (line_tokens (file_lines content)), w1).
Proof.
  intros Hread. unfold read_categorical_data, try_except, mbind, M_bind.
  by rewrite Hread.
Qed.

(** What a returning call of [read_numerical_data] has done. *)
Lemma read_numerical_data_returns (filename : string) (w w1 : World) (tokens : list string) :
  read_numerical_data filename w = (Return tokens, w1) →
  ∃ content,
    read_text filename w = (Return content, w1) ∧
    if endswith filename ".csv"
    then ∃ rows, csv_reader (file_lines content) = Return rows ∧ tokens = csv_tokens rows
    else tokens = line_tokens (file_lines content).
Proof.
  unfold read_numerical_data, try_except, mbind at 1, M_bind at 1.
  destruct (read_text filename w) as [[content|e] w2] eqn:Hread.
  - destruct (endswith filename ".csv").
    + unfold mbind, M_bind, lift.
      destruct (csv_reader (file_lines content)) as [rows|e] eqn:Hrows.
      * intros [= <- <-]. exists content. split; [done|]. by exists rows.
      * by destruct (isinstance e FileNotFoundError).
    + intros [= <- <-]. by exists content.
  - by destruct (isinstance e FileNotFoundError).
Qed.

Lemma read_categorical_data_returns (filename : string) (w w1 : World)
    (categories : list string) :
  read_categorical_data filename w = (Return categories, w1) →
  ∃ content,
    read_text filename w = (Return content, w1) ∧
    categories = line_tokens (file_lines content).
Proof.
  unfold read_categorical_data, try_except, mbind at 1, M_bind at 1.
  destruct (read_text filename w) as [[content|e] w2] eqn:Hread.
  - intros [= <- <-]. by exists content.
  - by destruct (isinstance e FileNotFoundError).
Qed.

End reader_runs.

(** X1: a file of ASCII text read as plain text gives its lines, stripped,
    without the blank ones, in order, and these are ASCII text again. The
    categorical reader reads every file so, whatever its name, and the
    numeric reader every file whose name does not end in [.csv]: no comma
    splits a line there. *)
Theorem readers_plain_text {py : Builtins} (filename content : string) (w w1 : World) :
  read_text filename w = (Return content, w1) →
  ascii_text content →
  read_categorical_data filename w = (Return (nonblank_lines content), w1) ∧
  (endswith filename ".csv" = false →
   read_numerical_data filename w = (Return (nonblank_lines content), w1)) ∧
  Forall ascii_text (nonblank_lines content).
Proof.
  intros Hread Hcontent. split; [|split].
  - unfold nonblank_lines. rewrite <- line_tokens_filter.
    by apply read_categorical_data_run.
  - intros Hext. unfold nonblank_lines. rewrite <- line_tokens_filter.
    by apply read_numerical_data_text_run.
  - by apply ascii_text_nonblank_lines.
Qed.

Lemma readers_plain_text_witness :
  read_categorical_data "subjects.csv"
    (mk_World ∅ ∅ {["subjects.csv" := " Math,Physics " +:+ nl +:+ "  " +:+ nl +:+ "Biology"]}
       ∅ [] [])
  = (Return ["Math,Physics"; "Biology"],
     mk_World ∅ ∅ {["subjects.csv" := " Math,Physics " +:+ nl +:+ "  " +:+ nl +:+ "Biology"]}
       ∅ [] []).
Proof.
  refine (eq_trans
            (proj1 (readers_plain_text (py := py_builtins) "subjects.csv"
                      (" Math,Physics " +:+ nl +:+ "  " +:+ nl +:+ "Biology") _ _ _ _)) _).
  - vm_compute; exact eq_refl.
  - vm_compute; exact eq_refl.
  - vm_compute; exact eq_refl.
Defined.

Lemma strip_ends_clean (s : string) :
  starts_clean (strip s) ∧ starts_clean (String.rev (strip s)).
Proof.
  split.
  - apply rstrip_starts_clean, lstrip_starts_clean.
  - unfold strip, rstrip. rewrite string_rev_involutive. apply lstrip_starts_clean.
Qed.

(** X2: from a file of ASCII text, whatever the two readers return is a list
    of tokens of ASCII text that are not empty and carry no white space at
    either end: neither the first nor the last character of a token is
    white space, and [strip] leaves the token as it is. *)
Theorem readers_return_trimmed_tokens
    (filename content : string) (w w1 : World) (tokens : list string) :
  files w !! filename = Some content →
  ascii_text content →
  read_numerical_data (py := py_builtins) filename w = (Return tokens, w1) ∨
  read_categorical_data filename w = (Return tokens, w1) →
  Forall
    (λ token,
       token ≠ "" ∧ ascii_text token ∧
       starts_clean token ∧ starts_clean (String.rev token) ∧ strip token = token)
    tokens.
Proof.
  intros Hfile Hcontent Hread.
  assert (Hlines : Forall ascii_text (line_tokens (file_lines content))).
  { rewrite line_tokens_filter. by apply ascii_text_nonblank_lines. }
  assert (Htrimmed : ∀ tokens',
    Forall ascii_text tokens' →
    Forall (λ token, token ≠ "" ∧ strip token = token) tokens' →
    Forall
      (λ token,
         token ≠ "" ∧ ascii_text token ∧
         starts_clean token ∧ starts_clean (String.rev token) ∧ strip token = token)
      tokens').
  { intros tokens' Hascii Hstrip. apply Forall_and in Hstrip as [Hne Hstrip].
    rewrite !Forall_forall in *. intros token Hin.
    pose proof (strip_ends_clean token) as Hclean. rewrite (Hstrip token Hin) in Hclean.
    destruct Hclean. auto 6. }
  destruct Hread as [Hread|Hread].
  - apply read_numerical_data_returns in Hread as (content' & Htext & Htokens).
    apply read_text_inv in Htext as [Hfile' _]. simplify_eq.
    destruct (endswith filename ".csv").
    + destruct Htokens as (rows & Hrows & ->).
      apply Htrimmed; [|apply csv_tokens_trimmed].
      apply ascii_csv_tokens, (ascii_py_csv_reader (file_lines content)); [|done].
      by apply ascii_text_file_lines.
    + subst tokens. apply Htrimmed; [done|apply line_tokens_trimmed].
  - apply read_categorical_data_returns in Hread as (content' & Htext & ->).
    apply read_text_inv in Htext as [Hfile' _]. simplify_eq.
    apply Htrimmed; [done|apply line_tokens_trimmed].
Qed.

Lemma readers_return_trimmed_tokens_witness :
  Forall
    (λ token,
       token ≠ "" ∧ ascii_text token ∧
       starts_clean token ∧ starts_clean (String.rev token) ∧ strip token = token)
    ["7"; "8"].
Proof.
  apply (readers_return_trimmed_tokens "scores.csv" (" 7 ,," +:+ nl +:+ nl +:+ "8")
           (mk_World ∅ ∅ {["scores.csv" := " 7 ,," +:+ nl +:+ nl +:+ "8"]} ∅ [] [])
           (mk_World ∅ ∅ {["scores.csv" := " 7 ,," +:+ nl +:+ nl +:+ "8"]} ∅ [] [])).
  - vm_compute; exact eq_refl.
  - vm_compute; exact eq_refl.
  - left. vm_compute; exact eq_refl.
Defined.

(** X3: on a path where no file is, both readers raise [FileNotFoundError]
    with a message of their own that names the path, and change nothing. *)
Theorem readers_missing_file {py : Builtins} (filename : string) (w : World) :
  files w !! filename = None →
  faults w = [] →
  read_numerical_data filename w
    = (Raise (mk_exn FileNotFoundError ("Error: File '" +:+ filename +:+ "' not found")), w) ∧
  read_categorical_data filename w
    = (Raise (mk_exn FileNotFoundError ("Error: File '" +:+ filename +:+ "' not found")), w).
Proof.
  intros Hfile Hfaults.
  pose proof (read_text_missing filename w Hfile Hfaults) as Hread.
  split.
  - by rewrite (read_numerical_data_propagates _ _ _ _ Hread).
  - by rewrite (read_categorical_data_propagates _ _ _ _ Hread).
Qed.

Lemma readers_missing_file_witness :
  read_numerical_data (py := py_builtins) "scores.csv" empty_world
    = (Raise (mk_exn FileNotFoundError "Error: File 'scores.csv' not found"), empty_world).
Proof.
  apply (readers_missing_file (py := py_builtins) "scores.csv" empty_world).
  - vm_compute; exact eq_refl.
  - vm_compute; exact eq_refl.
Defined.

(** X4: the numeric reader turns every failure that is not a missing file
    into a plain [Exception] whose message is the original one after
    "Error reading file: ": a failed read (no permission, a decoding error)
    and an error of the CSV reader both come out so, their class lost. It
    raises nothing else but its own [FileNotFoundError]. *)
Theorem read_numerical_data_wraps_errors {py : Builtins} (filename : string) (w : World) :
  (∀ cause w',
     read_text filename w = (Raise cause, w') →
     exn_cls cause ≠ FileNotFoundError →
     read_numerical_data filename w
       = (Raise (mk_exn Exception ("Error reading file: " +:+ exn_msg cause)), w')) ∧
  (∀ content cause w',
     read_text filename w = (Return content, w') →
     endswith filename ".csv" = true →
     csv_reader (file_lines content) = Raise cause →
     exn_cls cause ≠ FileNotFoundError →
     read_numerical_data filename w
       = (Raise (mk_exn Exception ("Error reading file: " +:+ exn_msg cause)), w')) ∧
  (∀ e w',
     read_numerical_data filename w = (Raise e, w') →
     e = mk_exn FileNotFoundError ("Error: File '" +:+ filename +:+ "' not found") ∨
     ∃ cause,
       exn_cls cause ≠ FileNotFoundError ∧
       e = mk_exn Exception ("Error reading file: " +:+ exn_msg cause) ∧
       (read_text filename w = (Raise cause, w') ∨
        ∃ content,
          read_text filename w = (Return content, w') ∧
          endswith filename ".csv" = true ∧
          csv_reader (file_lines content) = Raise cause)).
Proof.
  assert (Hclass : ∀ cause,
    exn_cls cause ≠ FileNotFoundError → isinstance cause FileNotFoundError = false).
  { intros cause Hcls. unfold isinstance, subclass. by apply bool_decide_eq_false_2. }
  split; [|split].
  - intros cause w' Hread Hcls.
    by rewrite (read_numerical_data_propagates _ _ _ _ Hread), (Hclass _ Hcls).
  - intros content cause w' Hread Hext Hrows Hcls.
    unfold read_numerical_data, try_except, mbind, M_bind.
    rewrite Hread, Hext. unfold lift. rewrite Hrows. by rewrite (Hclass _ Hcls).
  - intros e w'.
    assert (Hhandler : ∀ cause w1,
      (if isinstance cause FileNotFoundError
       then raise (A := list string)
              (mk_exn FileNotFoundError ("Error: File '" +:+ filename +:+ "' not found"))
       else raise (mk_exn Exception ("Error reading file: " +:+ exn_msg cause))) w1
        = (Raise e, w') →
      w1 = w' ∧
      (e = mk_exn FileNotFoundError ("Error: File '" +:+ filename +:+ "' not found") ∨
       exn_cls cause ≠ FileNotFoundError ∧
       e = mk_exn Exception ("Error reading file: " +:+ exn_msg cause))).
    { intros cause w1. unfold isinstance, subclass.
      case_bool_decide; unfold raise; intros [= <- <-]; auto. }
    unfold read_numerical_data, try_except, mbind at 1, M_bind at 1.
    destruct (read_text filename w) as [[content|cause] w1] eqn:Hread.
    + destruct (endswith filename ".csv") eqn:Hext; [|done].
      unfold mbind, M_bind, lift.
      destruct (csv_reader (file_lines content)) as [rows|cause] eqn:Hrows; [done|].
      intros (-> & [->|[Hcls ->]])%Hhandler; [by left|].
      right. exists cause. split; [done|]. split; [done|]. right. by exists content.
    + intros (-> & [->|[Hcls ->]])%Hhandler; [by left|].
      right. exists cause. split; [done|]. split; [done|]. by left.
Qed.

Lemma read_numerical_data_wraps_errors_witness :
  (read_numerical_data (py := py_builtins) "scores.csv"
     (mk_World ∅ ∅ {["scores.csv" := "1,2"]} ∅ [Some (permission_denied "scores.csv")] [])).1
  = Raise (mk_exn Exception
             "Error reading file: [Errno 13] Permission denied: 'scores.csv'") ∧
  (read_numerical_data (py := py_builtins) "long.csv"
     (mk_World ∅ ∅ {["long.csv" := long_field]} ∅ [] [])).1
  = Raise (mk_exn Exception "Error reading file: field larger than field limit (131072)").
Proof.
  split.
  - rewrite (proj1 (read_numerical_data_wraps_errors (py := py_builtins) "scores.csv"
                      (mk_World ∅ ∅ {["scores.csv" := "1,2"]} ∅
                         [Some (permission_denied "scores.csv")] []))
               (permission_denied "scores.csv")
               (mk_World ∅ ∅ {["scores.csv" := "1,2"]} ∅ [] [])); [done| |done].
    vm_compute; exact eq_refl.
  - rewrite (proj1 (proj2 (read_numerical_data_wraps_errors (py := py_builtins) "long.csv"
                             (mk_World ∅ ∅ {["long.csv" := long_field]} ∅ [] [])))
               long_field
               (mk_exn csv_Error "field larger than field limit (131072)")
               (mk_World ∅ ∅ {["long.csv" := long_field]} ∅ [] [])); [done| | | |done].
    + unfold read_text, mbind, M_bind, io_step, get_world. cbn [faults files].
      by rewrite lookup_singleton_eq.
    + vm_compute; exact eq_refl.
    + vm_compute; exact eq_refl.
Defined.



(** ** Validator, continued *)

Section validator_returns.
Context {py : Builtins}.

Lemma validate_loop_returns (data : list string) (i : Z) (validated values : list float) :
  validate_loop i data validated = Return values →
  ∃ nums, values = validated ++ nums ∧
    Forall2 (λ token num, float_of_str token = Some num) data nums.
Proof.
  revert i validated. induction data as [|token data IH]; intros i validated; simpl.
  - intros [= <-]. exists []. by rewrite app_nil_r.
  - destruct (float_of_str token) as [num|] eqn:Hnum; [|done].
    intros (nums & -> & Hnums)%IH. exists (num :: nums).
    rewrite <- app_assoc. split; [done|]. by constructor.
Qed.

Lemma validate_loop_raises (data : list string) (i : Z) (validated : list float) (e : exn) :
  validate_loop i data validated = Raise e →
  exn_cls e = ValueError ∧ Exists (λ token, float_of_str token = None) data.
Proof.
  revert i validated. induction data as [|token data IH]; intros i validated; simpl; [done|].
  destruct (float_of_str token) as [num|] eqn:Hnum.
  - intros [Hcls Hex]%IH. split; [done|]. by right.
  - intros [= <-]. split; [done|]. by left.
Qed.

Lemma validate_returns_iff (data : list string) (values : list float) :
  validate_numerical_data data = Return values ↔
  data ≠ [] ∧ Forall2 (λ token num, float_of_str token = Some num) data values.
Proof.
  split.
  - unfold validate_numerical_data. destruct data as [|token data]; [done|].
    intros (nums & -> & Hnums)%validate_loop_returns. done.
  - intros [Hne Hall]. unfold validate_numerical_data.
    destruct data as [|token data]; [done|].
    by rewrite (validate_loop_valid _ values 1 [] Hall).
Qed.

End validator_returns.

(** X6: the validator returns exactly when there is a token and every token
    is a float; it then returns one float per token, in order, so never the
    empty list. Whatever it raises is a [ValueError], and it raises one only
    on the empty list or on a list with a token that is not a float. *)
Theorem validate_numerical_data_returns {py : Builtins} (data : list string) :
  (∀ values,
     validate_numerical_data data = Return values ↔
     data ≠ [] ∧ Forall2 (λ token num, float_of_str token = Some num) data values) ∧
  (∀ values,
     validate_numerical_data data = Return values →
     length values = length data ∧ values ≠ []) ∧
  (∀ e,
     validate_numerical_data data = Raise e →
     exn_cls e = ValueError ∧
     (data = [] ∨ Exists (λ token, float_of_str token = None) data)).
Proof.
  split; [|split].
  - intros values. apply validate_returns_iff.
  - intros values [Hne Hall]%validate_returns_iff.
    apply Forall2_length in Hall as Hlen. split; [done|].
    intros ->. by destruct data.
  - intros e. unfold validate_numerical_data.
    destruct data as [|token data]; [intros [= <-]; auto|].
    intros [Hcls Hex]%validate_loop_raises. auto.
Qed.

(** ** Aggregator, continued *)

Section nan.

Lemma is_nan_true (x : float) : is_nan x = true ↔ Prim2SF x = S754_nan.
Proof.
  pose proof (is_nan_false x) as H.
  destruct (is_nan x); split; try done.
  - intros _. destruct (Prim2SF x) eqn:E; try done;
      assert (true = false) by (by apply H); done.
  - intros Hn. exfalso. by apply (proj1 H eq_refl).
Qed.

Lemma add_nan (x y : float) :
  is_nan x = true ∨ is_nan y = true → is_nan (x + y) = true.
Proof.
  rewrite !is_nan_true, FloatAxioms.add_spec. unfold SF64add.
  intros [-> | ->]; [done|]. by destruct (Prim2SF x) as [[]|[]| |].
Qed.

Lemma div_nan (x y : float) : is_nan x = true → is_nan (x / y) = true.
Proof.
  rewrite !is_nan_true, FloatAxioms.div_spec. unfold SF64div. by intros ->.
Qed.

Lemma ltb_nan (x y : float) :
  is_nan x = true ∨ is_nan y = true → (x <? y)%float = false.
Proof.
  rewrite !is_nan_true, FloatAxioms.ltb_spec. unfold SFltb.
  intros [-> | ->]; [done|]. by destruct (Prim2SF x) as [[]|[]| |].
Qed.

Lemma py_ge_nan (x : float) (threshold : pynum) :
  is_nan x = true → py_ge (PyFloat x) threshold = false.
Proof.
  rewrite is_nan_true. intros Hx. unfold py_ge, py_compare.
  destruct threshold as [n|y].
  - unfold float_compare_Z. by rewrite Hx.
  - unfold float_compare. rewrite FloatAxioms.compare_spec, Hx. done.
Qed.

Lemma calculate_total_nan (data : list float) :
  Exists (λ x, is_nan x = true) data →
  ∃ total, calculate_total data = PyFloat total ∧ is_nan total = true.
Proof.
  induction data as [|x data IH] using rev_ind; [by intros ?%Exists_nil|].
  rewrite calculate_total_snoc. intros [Hex|Hx]%Exists_app.
  - destruct (IH Hex) as (total & -> & Hnan). eexists. split; [done|].
    apply add_nan. by left.
  - apply Exists_cons in Hx as [Hx|?%Exists_nil]; [|done].
    destruct (calculate_total data) as [n|total]; simpl; eexists; (split; [done|]);
      apply add_nan; by right.
Qed.

End nan.

(** X7: a NaN among the data makes the total a NaN and the average a NaN, and
    the label of that average is "Needs Improvement" for every threshold. *)
Theorem nan_spoils_the_statistics (data : list float) (threshold : pynum) :
  Exists (λ x, is_nan x = true) data →
  ∃ total average,
    calculate_total data = PyFloat total ∧ is_nan total = true ∧
    calculate_average data = Return (PyFloat average) ∧ is_nan average = true ∧
    evaluate_performance (PyFloat average) threshold = "Needs Improvement".
Proof.
  intros Hex. destruct (calculate_total_nan data Hex) as (total & Htotal & Hnan).
  assert (Hne : data ≠ []) by (intros ->; by apply Exists_nil in Hex).
  destruct (calculate_average_float data Hne) as (total' & Htotal' & Havg).
  rewrite Htotal in Htotal'. injection Htotal' as <-.
  eexists total, _. split; [done|]. split; [done|]. split; [done|].
  assert (Havgnan : is_nan (total / float_of_Z (Z.of_nat (length data))) = true)
    by by apply div_nan.
  split; [done|]. unfold evaluate_performance. by rewrite py_ge_nan.
Qed.

Lemma nan_spoils_the_statistics_witness :
  ∃ total average,
    calculate_total [85; nan; 92]%float = PyFloat total ∧ is_nan total = true ∧
    calculate_average [85; nan; 92]%float = Return (PyFloat average) ∧
    is_nan average = true ∧
    evaluate_performance (PyFloat average) (PyInt (-1000)) = "Needs Improvement".
Proof.
  apply (nan_spoils_the_statistics [85; nan; 92]%float (PyInt (-1000))).
  right. left. vm_compute; exact eq_refl.
Defined.

Section scans.

Lemma min_step_nan (minimum value : float) :
  is_nan minimum = true ∨ is_nan value = true → min_step minimum value = minimum.
Proof. intros H. unfold min_step. rewrite ltb_nan; [done|]. tauto. Qed.

Lemma max_step_nan (maximum value : float) :
  is_nan maximum = true ∨ is_nan value = true → max_step maximum value = maximum.
Proof. intros H. unfold max_step. by rewrite ltb_nan. Qed.

Lemma scan_skips_nan (step : float → float → float) (first : float) (rest : list float) :
  (∀ acc value, is_nan value = true → step acc value = acc) →
  fold_left step rest first = fold_left step (filter (λ x, is_nan x = false) rest) first.
Proof.
  intros Hstep. revert first. induction rest as [|x rest IH]; intros first; [done|].
  rewrite filter_cons. simpl. case_decide as Hx; simpl; [done|].
  apply not_false_is_true in Hx. by rewrite (Hstep _ _ Hx).
Qed.

Lemma scan_from_nan (step : float → float → float) (first : float) (rest : list float) :
  (∀ value, step first value = first) → fold_left step rest first = first.
Proof. intros Hstep. induction rest as [|x rest IH]; simpl; [done|]. by rewrite Hstep. Qed.

End scans.

(** X8: the two scans pass over a NaN that is not the first element, as if it
    were not there; a NaN that is the first element is the minimum and the
    maximum, whatever follows. *)
Theorem scans_and_nan (first : float) (rest : list float) :
  calculate_minimum (first :: rest)
    = calculate_minimum (first :: filter (λ x, is_nan x = false) rest) ∧
  calculate_maximum (first :: rest)
    = calculate_maximum (first :: filter (λ x, is_nan x = false) rest) ∧
  (is_nan first = true →
   calculate_minimum (first :: rest) = Some first ∧
   calculate_maximum (first :: rest) = Some first).
Proof.
  unfold calculate_minimum, calculate_maximum.
  change (fun minimum value : float => if (value <? minimum)%float then value else minimum)
    with min_step.
  change (fun maximum value : float => if (maximum <? value)%float then value else maximum)
    with max_step.
  split; [|split].
  - f_equal. apply scan_skips_nan. intros acc value Hv. apply min_step_nan. by right.
  - f_equal. apply scan_skips_nan. intros acc value Hv. apply max_step_nan. by right.
  - intros Hfirst. split; f_equal; apply scan_from_nan; intros value.
    + apply min_step_nan. by left.
    + apply max_step_nan. by left.
Qed.

Section order.

Lemma SFleb_antisym (a b : spec_float) :
  SFleb a b = true → SFleb b a = true → SFeqb a b = true.
Proof.
  unfold SFleb, SFeqb.
  destruct a as [[]|[]| |[] m1 e1], b as [[]|[]| |[] m2 e2]; simpl; try done.
  all: repeat match goal with
  | |- context [Z.compare ?a ?b] =>
      destruct (Z.compare_spec a b); destruct (Z.compare_spec b a); try lia
  | |- context [Pos.compare_cont Eq ?a ?b] =>
      change (Pos.compare_cont Eq a b) with (Pos.compare a b);
      change (Pos.compare_cont Eq b a) with (Pos.compare b a);
      destruct (Pos.compare_spec a b); destruct (Pos.compare_spec b a); try lia
  end; simpl; try done.
Qed.

Lemma float_leb_antisym (x y : float) :
  (x <=? y)%float = true → (y <=? x)%float = true → (x =? y)%float = true.
Proof. rewrite !FloatAxioms.leb_spec, FloatAxioms.eqb_spec. apply SFleb_antisym. Qed.

End order.

(** X9: on data without a NaN the minimum is at most the maximum, and
    neither depends on the order of the data: over a permutation of the data
    the scans return numbers equal to them. *)
Theorem minimum_maximum_of_permutation (data data' : list float) (m M : float) :
  Forall (λ x, is_nan x = false) data →
  data ≡ₚ data' →
  calculate_minimum data = Some m →
  calculate_maximum data = Some M →
  (m <=? M)%float = true ∧
  ∃ m' M',
    calculate_minimum data' = Some m' ∧ calculate_maximum data' = Some M' ∧
    (m =? m')%float = true ∧ (M =? M')%float = true.
Proof.
  intros Hnan Hperm Hm HM.
  destruct data as [|first rest]; [done|].
  destruct data' as [|first' rest']; [by apply Permutation_nil_r in Hperm|].
  assert (Hnan' : Forall (λ x, is_nan x = false) (first' :: rest')) by by rewrite <- Hperm.
  destruct (min_scan first rest) as [Hin Hle].
  destruct (max_scan first rest) as [HIn HLe].
  destruct (min_scan first' rest') as [Hin' Hle'].
  destruct (max_scan first' rest') as [HIn' HLe'].
  injection Hm as <-. injection HM as <-.
  specialize (Hle Hnan). specialize (HLe Hnan).
  specialize (Hle' Hnan'). specialize (HLe' Hnan').
  split; [by apply Hle|].
  eexists _, _. split; [done|]. split; [done|]. split.
  - apply float_leb_antisym.
    + apply Hle. by rewrite Hperm.
    + apply Hle'. by rewrite <- Hperm.
  - apply float_leb_antisym.
    + apply HLe'. by rewrite <- Hperm.
    + apply HLe. by rewrite Hperm.
Qed.

Lemma minimum_maximum_of_permutation_witness :
  (65 <=? 95)%float = true ∧
  ∃ m' M',
    calculate_minimum [95; 65; 78]%float = Some m' ∧
    calculate_maximum [95; 65; 78]%float = Some M' ∧
    (65 =? m')%float = true ∧ (95 =? M')%float = true.
Proof.
  apply (minimum_maximum_of_permutation [78; 65; 95]%float [95; 65; 78]%float).
  - repeat constructor.
  - apply Permutation_rev.
  - vm_compute; exact eq_refl.
  - vm_compute; exact eq_refl.
Defined.

(** ** Sets, continued *)

Lemma remove_dups_length {A} `{EqDecision A} (l : list A) :
  (length (remove_dups l) ≤ length l)%nat ∧
  (length (remove_dups l) = length l → NoDup l).
Proof.
  induction l as [|x l [IHle IHeq]]; simpl; [split; [done|constructor]|].
  case_decide as Hx; simpl.
  - split; lia.
  - split; [lia|]. intros Hlen. constructor; [done|]. apply IHeq. lia.
Qed.

(** X10: the number of unique categories is at most the number of
    categories, equal to it exactly when no category occurs twice, and zero
    only for no category at all; and the result depends on which categories
    occur, not on their order or their repetitions. *)
Theorem get_unique_categories_count (categories categories' : list string) :
  ((get_unique_categories categories).2 ≤ length categories)%nat ∧
  ((get_unique_categories categories).2 = length categories ↔ NoDup categories) ∧
  ((get_unique_categories categories).2 = 0%nat ↔ categories = []) ∧
  ((∀ c, c ∈ categories ↔ c ∈ categories') →
   get_unique_categories categories = get_unique_categories categories') ∧
  get_unique_categories (categories ++ categories) = get_unique_categories categories.
Proof.
  assert (Hsize : (get_unique_categories categories).2 = length (remove_dups categories)).
  { unfold get_unique_categories. simpl.
    rewrite <- (size_list_to_set (C:=gset string) (remove_dups categories))
      by apply NoDup_remove_dups.
    f_equal. apply set_eq. intros c.
    by rewrite !elem_of_list_to_set, elem_of_remove_dups. }
  assert (Hsame : ∀ l l' : list string,
    (∀ c, c ∈ l ↔ c ∈ l') → get_unique_categories l = get_unique_categories l').
  { intros l l' Hel. unfold get_unique_categories.
    assert ((list_to_set l : gset string) = list_to_set l') as ->; [|done].
    apply set_eq. intros c. by rewrite !elem_of_list_to_set. }
  destruct (remove_dups_length categories) as [Hle Heq].
  split; [by rewrite Hsize|]. split; [|split; [|split]].
  - rewrite Hsize. split; [done|]. intros Hnodup.
    unfold get_unique_categories in Hsize. simpl in Hsize. rewrite <- Hsize.
    by apply size_list_to_set.
  - unfold get_unique_categories. simpl. rewrite size_empty_iff.
    split.
    + intros Hempty. destruct categories as [|c categories]; [done|].
      assert (c ∈ (∅ : gset string)) as Hc; [|by apply not_elem_of_empty in Hc].
      rewrite <- Hempty. apply elem_of_list_to_set. left.
    + by intros ->.
  - apply Hsame.
  - apply Hsame. intros c. rewrite elem_of_app. tauto.
Qed.

(** X11: the listing of the unique categories, as the report and the
    console give it, is in ascending order, names no category twice, names
    exactly the categories of the data, and has as many entries as the count
    of unique categories. *)
Theorem unique_categories_listing (categories : list string) :
  Sorted String.le (sorted (get_unique_categories categories).1) ∧
  NoDup (sorted (get_unique_categories categories).1) ∧
  (∀ c, c ∈ sorted (get_unique_categories categories).1 ↔ c ∈ categories) ∧
  length (sorted (get_unique_categories categories).1)
    = (get_unique_categories categories).2.
Proof.
  unfold sorted, get_unique_categories. simpl.
  pose proof (merge_sort_Permutation String.le
                (elements (list_to_set categories : gset string))) as Hperm.
  split; [|split; [|split]].
  - apply Sorted_merge_sort. apply _.
  - rewrite Hperm. apply NoDup_elements.
  - intros c. rewrite Hperm, elem_of_elements. apply elem_of_list_to_set.
  - by rewrite Hperm.
Qed.

(** ** The classifier, continued *)

Lemma float_compare_Z_lower (x : float) (m n : Z) :
  m ≤ n →
  match float_compare_Z x n with Some (Gt | Eq) => true | _ => false end = true →
  match float_compare_Z x m with Some (Gt | Eq) => true | _ => false end = true.
Proof.
  intros Hmn. unfold float_compare_Z.
  destruct (Prim2SF x) as [s|s| |s mx e]; try done.
  - destruct (Z.compare_spec 0 n), (Z.compare_spec 0 m); try done; lia.
  - set (v := if s then Z.neg mx else Z.pos mx).
    destruct (0 <=? e) eqn:He.
    + destruct (Z.compare_spec (v * 2 ^ e) n), (Z.compare_spec (v * 2 ^ e) m);
        try done; lia.
    + assert (0 < 2 ^ (- e)) by (apply Z.pow_pos_nonneg; lia).
      destruct (Z.compare_spec v (n * 2 ^ (- e))), (Z.compare_spec v (m * 2 ^ (- e)));
        try done; nia.
Qed.

(** X12: lowering an integer threshold never takes the label "High
    Performance" away, whatever the average, an int or a float. *)
Theorem evaluate_performance_lower_threshold (average : pynum) (m n : Z) :
  m ≤ n →
  evaluate_performance average (PyInt n) = "High Performance" →
  evaluate_performance average (PyInt m) = "High Performance".
Proof.
  intros Hmn. unfold evaluate_performance.
  destruct (py_ge average (PyInt n)) eqn:Hn; [|done]. intros _.
  assert (py_ge average (PyInt m) = true) as ->; [|done].
  revert Hn. unfold py_ge, py_compare. destruct average as [a|x].
  - destruct (Z.compare_spec a n), (Z.compare_spec a m); try done; lia.
  - by apply float_compare_Z_lower.
Qed.

Lemma evaluate_performance_lower_threshold_witness :
  evaluate_performance (PyFloat 81.65) (PyInt 60) = "High Performance".
Proof.
  apply (evaluate_performance_lower_threshold (PyFloat 81.65) 60 75).
  - lia.
  - vm_compute; exact eq_refl.
Defined.

(** ** What a call leaves as it is *)

Global Instance same_files_outside_preorder (paths : gset string) :
  PreOrder (same_files_outside paths).
Proof.
  split; [done|]. intros w1 w2 w3 H12 H23 path Hpath.
  by rewrite (H23 path Hpath), (H12 path Hpath).
Qed.

Global Instance console_only_preorder : PreOrder console_only.
Proof.
  split; [done|].
  intros w1 w2 w3 (? & ? & ? & ? & ? & ?) (? & ? & ? & ? & ? & ?).
  repeat split; try congruence. by etrans.
Qed.

Global Instance loaded_preorder (self : loc) : PreOrder (loaded self).
Proof.
  split.
  - intros w. repeat split; try done.
    destruct (datasets w !! self) as [[]|]; [|done]. by eexists _, _.
  - intros w1 w2 w3 (? & ? & ? & H12 & Hs12) (? & ? & ? & H23 & Hs23).
    repeat split; try congruence.
    + intros l Hl. by rewrite (H23 l Hl), (H12 l Hl).
    + destruct (datasets w1 !! self) as [ds|].
      * destruct Hs12 as (data & categories & Hds2). rewrite Hds2 in Hs23. done.
      * by rewrite Hs12 in Hs23.
Qed.

Section keeps.
Context {py : Builtins} (R : relation World) `{!PreOrder R}.

Lemma keeps_ret {A} (a : A) : keeps R (mret a).
Proof. by intros w. Qed.

Lemma keeps_raise {A} (e : exn) : keeps R (raise (A := A) e).
Proof. by intros w. Qed.

Lemma keeps_lift {A} (o : outcome A) : keeps R (lift o).
Proof. by intros w. Qed.

Lemma keeps_get_world : keeps R get_world.
Proof. by intros w. Qed.

Lemma keeps_bind {A B} (m : M A) (k : A → M B) :
  keeps R m → (∀ a, keeps R (k a)) → keeps R (m ≫= k).
Proof.
  intros Hm Hk w. unfold mbind, M_bind.
  specialize (Hm w). destruct (m w) as [[a|e] w1]; simpl in *; [|done].
  trans w1; [done|apply Hk].
Qed.

Lemma keeps_try_except {A} (body : M A) (handler : exn → M A) :
  keeps R body → (∀ e, keeps R (handler e)) → keeps R (try_except body handler).
Proof.
  intros Hm Hk w. unfold try_except.
  specialize (Hm w). destruct (body w) as [[a|e] w1]; simpl in *; [done|].
  trans w1; [done|apply Hk].
Qed.

Lemma keeps_if {A} (b : bool) (m1 m2 : M A) :
  keeps R m1 → keeps R m2 → keeps R (if b then m1 else m2).
Proof. by destruct b. Qed.

Lemma keeps_mapM {A B} (f : A → M B) (l : list A) :
  (∀ a, keeps R (f a)) → keeps R (mapM f l).
Proof.
  intros Hf. induction l as [|a l IH]; simpl; [apply keeps_ret|].
  apply keeps_bind; [apply Hf|]. intros b.
  apply keeps_bind; [apply IH|]. intros bs. apply keeps_ret.
Qed.

Lemma keeps_get_self (self : loc) : keeps R (get_self self).
Proof. intros w. unfold get_self. by destruct (datasets w !! self). Qed.

Lemma keeps_dict_contains (l : loc) (key : string) : keeps R (dict_contains l key).
Proof. by intros w. Qed.

Lemma keeps_field_of (l : loc) (key : string) (dflt : pyval) (spec : format_spec) :
  keeps R (field_of l key dflt spec).
Proof.
  unfold field_of. apply keeps_bind; [by intros w|]. intros value. apply keeps_lift.
Qed.

(** Code that prints. *)
Section keeps_console.
Hypothesis Hprint : ∀ s, keeps R (print s).

Local Ltac display_steps :=
  repeat first
    [ apply Hprint | apply keeps_get_self | apply keeps_field_of | apply keeps_ret
    | apply keeps_if
    | apply keeps_bind; [|intros ?]
    | match goal with |- keeps _ (match ?l with [] => _ | _ => _ end) => destruct l end ].

Lemma keeps_display_results (self : loc) : keeps R (display_results self).
Proof. unfold display_results. display_steps. Qed.

(** [display_results] from its banner on. *)
Lemma keeps_display_results_banner (self : loc) (w : World) :
  R (set_stdout (λ out, out ++ [repeat_char "=" 50])
       (set_stdout (λ out, out ++ ["DATASET ANALYSIS REPORT"])
          (set_stdout (λ out, out ++ [nl +:+ repeat_char "=" 50]) w)))
    (display_results self w).2.
Proof.
  unfold display_results.
  unfold mbind at 1, M_bind at 1, print at 1, modify at 1.
  unfold mbind at 1, M_bind at 1, print at 1, modify at 1.
  unfold mbind at 1, M_bind at 1, print at 1, modify at 1.
  set (w3 := set_stdout _ (set_stdout _ (set_stdout _ w))).
  clearbody w3. revert w3. refine (_ : keeps R _). display_steps.
Qed.

(** Code that reads files. *)
Section keeps_input.
Hypothesis Hio : keeps R io_step.

Lemma keeps_read_text (filename : string) : keeps R (read_text filename).
Proof.
  unfold read_text. apply keeps_bind; [done|]. intros _.
  apply keeps_bind; [apply keeps_get_world|]. intros w.
  destruct (files w !! filename); [apply keeps_ret|apply keeps_raise].
Qed.

Lemma keeps_read_numerical_data (filename : string) : keeps R (read_numerical_data filename).
Proof.
  unfold read_numerical_data. apply keeps_try_except.
  - apply keeps_bind; [apply keeps_read_text|]. intros content.
    apply keeps_if; [|apply keeps_ret].
    apply keeps_bind; [apply keeps_lift|]. intros rows. apply keeps_ret.
  - intros e. apply keeps_if; apply keeps_raise.
Qed.

Lemma keeps_read_categorical_data (filename : string) :
  keeps R (read_categorical_data filename).
Proof.
  unfold read_categorical_data. apply keeps_try_except.
  - apply keeps_bind; [apply keeps_read_text|]. intros content. apply keeps_ret.
  - intros e. apply keeps_if; apply keeps_raise.
Qed.

(** [load_data], given that [R] admits its two assignments. *)
Lemma keeps_load_data (self : loc) :
  (∀ data,
     keeps R (set_self self
                (λ ds, mk_DataSet (numerical_file ds) (categorical_file ds) data
                         (categorical_data ds) (statistics ds) (unique_categories ds)))) →
  (∀ categories,
     keeps R (set_self self
                (λ ds, mk_DataSet (numerical_file ds) (categorical_file ds)
                         (numerical_data ds) categories (statistics ds)
                         (unique_categories ds)))) →
  keeps R (load_data self).
Proof.
  intros Hnum Hcat. unfold load_data. apply keeps_try_except.
  - apply keeps_bind; [apply keeps_get_self|]. intros ds.
    apply keeps_bind.
    + destruct (truthy_name (numerical_file ds)) as [file|]; [|apply keeps_ret].
      apply keeps_bind; [apply keeps_read_numerical_data|]. intros raw_data.
      apply keeps_bind; [apply keeps_lift|]. intros data.
      apply keeps_bind; [apply Hnum|]. intros _. apply Hprint.
    + intros _. apply keeps_bind; [apply keeps_get_self|]. intros ds'.
      destruct (truthy_name (categorical_file ds')) as [file|]; [|apply keeps_ret].
      apply keeps_bind; [apply keeps_read_categorical_data|]. intros categories.
      apply keeps_bind; [apply Hcat|]. intros _. apply Hprint.
  - intros e. apply keeps_bind; [apply Hprint|]. intros _. apply keeps_raise.
Qed.

(** Code that changes objects of the heap. *)
Section keeps_objects.
Hypothesis Hdicts : ∀ f w, R w (set_dicts f w).
Hypothesis Hdatasets : ∀ f w, R w (set_datasets f w).

Lemma keeps_set_self (self : loc) (f : DataSet → DataSet) : keeps R (set_self self f).
Proof. intros w. apply Hdatasets. Qed.

Lemma keeps_dict_new (d : gmap string pyval) : keeps R (dict_new d).
Proof. intros w. apply Hdicts. Qed.

Lemma keeps_DataSet_init (nfile cfile : option string) : keeps R (DataSet_init nfile cfile).
Proof.
  unfold DataSet_init. apply keeps_bind; [apply keeps_dict_new|]. intros stats.
  apply keeps_bind; [apply keeps_get_world|]. intros w.
  apply keeps_bind; [|intros _; apply keeps_ret]. intros w'. apply Hdatasets.
Qed.

Lemma keeps_calculate_statistics (self : loc) (threshold : pynum) :
  keeps R (calculate_statistics self threshold).
Proof.
  unfold calculate_statistics.
  apply keeps_bind; [apply keeps_get_self|]. intros ds.
  apply keeps_bind.
  - destruct (numerical_data ds); [apply keeps_ret|].
    apply keeps_bind; [apply keeps_lift|]. intros average.
    apply keeps_bind; [apply keeps_lift|]. intros average'.
    apply keeps_bind; [apply keeps_dict_new|]. intros stats. apply keeps_set_self.
  - intros _. apply keeps_bind; [apply keeps_get_self|]. intros ds'.
    destruct (categorical_data ds'); [apply keeps_ret|].
    destruct (get_unique_categories _) as [unique unique_count].
    apply keeps_bind; [apply keeps_set_self|]. intros _. intros w. apply Hdicts.
Qed.

(** Code that writes the files of [paths]. *)
Section keeps_output.
Context (paths : gset string).
Hypothesis Hfiles : ∀ path f w,
  path ∈ paths → (∀ fs path', path' ≠ path → f fs !! path' = fs !! path') →
  R w (set_files f w).

Lemma keeps_open_w (filename : string) : filename ∈ paths → keeps R (open_w filename).
Proof.
  intros Hin. unfold open_w. apply keeps_bind; [done|]. intros _.
  apply keeps_bind; [apply keeps_get_world|]. intros w.
  case_bool_decide; [apply keeps_raise|].
  intros w'. apply (Hfiles filename); [done|]. intros fs path' Hne.
  by apply lookup_insert_ne.
Qed.

Lemma keeps_write (filename s : string) : filename ∈ paths → keeps R (write filename s).
Proof.
  intros Hin. unfold write. apply keeps_bind; [done|]. intros _.
  intros w'. apply (Hfiles filename); [done|]. intros fs path' Hne.
  by apply lookup_insert_ne.
Qed.

Lemma keeps_with_open_w {A} (filename : string) (body : M A) :
  filename ∈ paths → keeps R body → keeps R (with_open_w filename body).
Proof.
  intros Hin Hbody. unfold with_open_w.
  apply keeps_bind; [by apply keeps_open_w|]. intros _ w.
  specialize (Hbody w). destruct (body w) as [[a|e] w1]; simpl in *.
  - trans w1; [done|]. apply (keeps_bind (close filename) (λ _, mret a)); [done|].
    intros _. apply keeps_ret.
  - trans w1; [done|].
    apply (keeps_bind (B := A) (close filename) (λ _, raise e)); [done|].
    intros _. apply keeps_raise.
Qed.

Lemma keeps_save_report (stats : loc) (unique : gset string) (filename : string) :
  filename ∈ paths → keeps R (save_report stats unique filename).
Proof.
  intros Hin. unfold save_report. apply keeps_try_except.
  - unfold save_report_body. apply keeps_bind.
    + apply keeps_with_open_w; [done|].
      repeat first
        [ apply Hprint | by apply keeps_write | apply keeps_field_of | apply keeps_ret
        | apply keeps_dict_contains
        | apply keeps_if
        | apply keeps_mapM; intros ?
        | apply keeps_bind; [|intros ?] ].
    + intros _. apply keeps_bind; [apply Hprint|]. intros _. apply keeps_ret.
  - intros e. apply keeps_bind; [apply Hprint|]. intros _. apply keeps_ret.
Qed.

End keeps_output.
End keeps_objects.
End keeps_input.
End keeps_console.
End keeps.

Section frames.
Context {py : Builtins}.

Lemma same_files_outside_print (paths : gset string) (s : string) :
  keeps (same_files_outside paths) (print s).
Proof. by intros w path Hpath. Qed.

Lemma same_files_outside_io_step (paths : gset string) :
  keeps (same_files_outside paths) io_step.
Proof. intros w path Hpath. unfold io_step. by destruct (faults w) as [|[e|] rest]. Qed.

Lemma same_files_outside_set_files (paths : gset string) (path : string)
    (f : gmap string string → gmap string string) (w : World) :
  path ∈ paths → (∀ fs path', path' ≠ path → f fs !! path' = fs !! path') →
  same_files_outside paths w (set_files f w).
Proof.
  intros Hin Hf path' Hpath'. simpl. apply Hf. intros ->. done.
Qed.

Lemma same_files_outside_save_report (paths : gset string) (stats : loc)
    (unique : gset string) (filename : string) :
  filename ∈ paths → keeps (same_files_outside paths) (save_report stats unique filename).
Proof.
  intros Hin. apply (keeps_save_report _ (same_files_outside_print paths)
                       (same_files_outside_io_step paths) paths); [|done].
  intros path f w. apply same_files_outside_set_files.
Qed.

Lemma same_files_outside_load_data (paths : gset string) (self : loc) :
  keeps (same_files_outside paths) (load_data self).
Proof.
  apply (keeps_load_data (same_files_outside paths)).
  - apply same_files_outside_print.
  - apply same_files_outside_io_step.
  - by intros data w path Hpath.
  - by intros categories w path Hpath.
Qed.

Lemma console_only_print (s : string) : keeps console_only (print s).
Proof. intros w. repeat split. simpl. by apply prefix_app_r. Qed.

Lemma loaded_same_objects (self : loc) (w w' : World) :
  dicts w' = dicts w → datasets w' = datasets w → files w' = files w →
  unwritable w' = unwritable w → loaded self w w'.
Proof.
  intros Hdicts Hdatasets Hfiles Hunwritable. unfold loaded. rewrite Hdatasets.
  split; [done|]. split; [done|]. split; [done|]. split; [done|].
  destruct (datasets w !! self) as [[]|]; [|done]. by eexists _, _.
Qed.

Lemma loaded_print (self : loc) (s : string) : keeps (loaded self) (print s).
Proof. intros w. by apply loaded_same_objects. Qed.

Lemma loaded_io_step (self : loc) : keeps (loaded self) io_step.
Proof.
  intros w. unfold io_step.
  destruct (faults w) as [|[e|] rest]; by apply loaded_same_objects.
Qed.

Lemma loaded_set_self (self : loc) (f : DataSet → DataSet) :
  (∀ ds, ∃ data categories,
     f ds = mk_DataSet (numerical_file ds) (categorical_file ds) data categories
              (statistics ds) (unique_categories ds)) →
  keeps (loaded self) (set_self self f).
Proof.
  intros Hf w. unfold set_self, modify, set_datasets. simpl.
  destruct (datasets w !! self) as [ds|] eqn:Hds.
  - repeat split; try done.
    + intros l Hl. by apply lookup_insert_ne.
    + simpl. rewrite Hds, lookup_insert_eq.
      destruct (Hf ds) as (data & categories & ->). by eexists _, _.
  - repeat split; try done. simpl. by rewrite Hds.
Qed.

(** The last line printed by code that ends in a [print]. *)
Lemma bind_returns {A B} (m : M A) (k : A → M B) (P : World → Prop) (w w' : World) (b : B) :
  (∀ a w1, k a w1 = (Return b, w') → P w') →
  (m ≫= k) w = (Return b, w') → P w'.
Proof.
  intros Hk. unfold mbind, M_bind. destruct (m w) as [[a|e] w1]; [|done]. apply Hk.
Qed.

Lemma print_last (s : string) (w w' : World) :
  print s w = (Return (), w') → last (stdout w') = Some s.
Proof. unfold print, modify. intros [= <-]. simpl. apply last_snoc. Qed.

End frames.

(** X13: [display_results] changes nothing but the console, where it adds
    lines after those already there: first the three lines of its banner,
    and, when it returns, the closing rule as the last line. *)
Theorem display_results_prints_only {py : Builtins} (self : loc) (w : World) :
  console_only w (display_results self w).2 ∧
  (stdout w ++ [nl +:+ repeat_char "=" 50; "DATASET ANALYSIS REPORT"; repeat_char "=" 50])
    `prefix_of` stdout (display_results self w).2 ∧
  ((display_results self w).1 = Return () →
   last (stdout (display_results self w).2) = Some (nl +:+ repeat_char "=" 50)).
Proof.
  split; [|split].
  - apply (keeps_display_results console_only console_only_print).
  - destruct (keeps_display_results_banner console_only console_only_print self w)
      as (_ & _ & _ & _ & _ & Hprefix).
    simpl in Hprefix. by rewrite <- !app_assoc in Hprefix.
  - destruct (display_results self w) as [[[]|e] w'] eqn:Hrun; [|done]. intros _.
    revert Hrun. unfold display_results. simpl.
    repeat (apply (bind_returns _ _
                     (λ w', last (stdout w') = Some (nl +:+ repeat_char "=" 50)));
            intros ? ?).
    apply print_last.
Qed.

(** X14: whatever its outcome, [load_data] changes no dict and no file, and of
    the objects only [self], of which it changes the two data fields alone:
    the file names, the statistics and the unique categories of an earlier
    analysis stay as they are. *)
Theorem load_data_changes_data_only {py : Builtins} (self : loc) (w : World) :
  loaded self w (load_data self w).2.
Proof.
  apply (keeps_load_data (loaded self)).
  - apply loaded_print.
  - apply loaded_io_step.
  - intros data. apply loaded_set_self. intros ds. by eexists _, _.
  - intros categories. apply loaded_set_self. intros ds. by eexists _, _.
Qed.

Lemma open_w_unwritable_files (filename : string) (w : World) :
  filename ∈ unwritable w →
  ∃ e w1,
    open_w filename w = (Raise e, w1) ∧ files w1 = files w ∧
    (faults w = [] → e = permission_denied filename).
Proof.
  intros Hin. unfold open_w, mbind, M_bind, io_step.
  destruct (faults w) as [|[e|] rest]; simpl.
  - rewrite bool_decide_eq_true_2 by done. by eexists _, _.
  - by eexists _, _.
  - rewrite bool_decide_eq_true_2 by done. by eexists _, _.
Qed.

(** X15: whatever its outcome, [save_report] changes no file other than the
    one it is asked to write, and changes none at all when that file cannot
    be opened for writing. *)
Theorem save_report_writes_one_file {py : Builtins}
    (stats : loc) (unique : gset string) (filename : string) (w : World) :
  same_files_outside {[filename]} w (save_report stats unique filename w).2 ∧
  (filename ∈ unwritable w → files (save_report stats unique filename w).2 = files w).
Proof.
  split.
  - apply same_files_outside_save_report. set_solver.
  - intros Hin.
    destruct (open_w_unwritable_files filename w Hin) as (e & w1 & Hopen & Hfiles & _).
    by rewrite (save_report_failure _ _ _ _ _ _
                  (save_report_open_failure _ _ _ _ _ _ Hopen)).
Qed.

(** ** Loading a data set *)

Global Instance same_objects_preorder : PreOrder same_objects.
Proof.
  split; [done|].
  intros w1 w2 w3 (? & ? & ? & ?) (? & ? & ? & ?). repeat split; congruence.
Qed.

Section loading.
Context {py : Builtins}.

Lemma same_objects_io_step : keeps same_objects io_step.
Proof. intros w. unfold io_step. by destruct (faults w) as [|[e|] rest]. Qed.

Lemma same_objects_read_numerical_data (filename : string) :
  keeps same_objects (read_numerical_data filename).
Proof.
  apply (keeps_read_numerical_data same_objects), same_objects_io_step.
Qed.

Lemma same_objects_read_categorical_data (filename : string) :
  keeps same_objects (read_categorical_data filename).
Proof.
  apply (keeps_read_categorical_data same_objects), same_objects_io_step.
Qed.

(** Reading a file that is not there raises, whatever fault comes first. *)
Lemma read_categorical_data_missing (filename : string) (w : World) :
  files w !! filename = None →
  ∃ e w',
    read_categorical_data filename w = (Raise e, w') ∧
    (faults w = [] → e = not_found filename).
Proof.
  intros Hfile.
  destruct (read_text filename w) as [[content|cause] w1] eqn:Hread.
  - apply read_text_inv in Hread as [Hsome _]. congruence.
  - rewrite (read_categorical_data_propagates _ _ _ _ Hread).
    eexists _, _. split; [done|]. intros Hfaults.
    rewrite (read_text_missing _ _ Hfile Hfaults) in Hread. by injection Hread as <- <-.
Qed.

(** The first half of [load_data] when the numeric file loads. *)
Lemma load_numerical_run (self : loc) (ds : DataSet) (file : string) (w w1 : World)
    (raw_data : list string) (data : list float) :
  datasets w !! self = Some ds →
  read_numerical_data file w = (Return raw_data, w1) →
  validate_numerical_data raw_data = Return data →
  (raw_data ← read_numerical_data file;
   data ← lift (validate_numerical_data raw_data);
   set_self self (λ ds, mk_DataSet (numerical_file ds) (categorical_file ds) data
                          (categorical_data ds) (statistics ds) (unique_categories ds));;
   print (" Loaded " +:+ str_of_int (Z.of_nat (length data)) +:+ " numerical records")) w
  = (Return (),
     set_stdout
       (λ out, out ++ [" Loaded " +:+ str_of_int (Z.of_nat (length data))
                       +:+ " numerical records"])
       (set_datasets (insert self (with_numerical_data data ds)) w1)).
Proof.
  intros Hds Hread Hvalid.
  destruct (same_objects_read_numerical_data file w) as (_ & Hdatasets & _).
  rewrite Hread in Hdatasets. simpl in Hdatasets.
  assert (Hds1 : datasets w1 !! self = Some ds) by by rewrite Hdatasets.
  unfold mbind, M_bind, lift. rewrite Hread, Hvalid.
  by rewrite (set_self_run _ _ _ _ Hds1).
Qed.

End loading.

(** X16: when the numeric file loads and the categorical file is missing,
    [load_data] raises, and the data set is left half loaded: it holds the
    new numeric data and the categorical data it had. The failure is the
    last line on the console, and in a world without faults it is the
    reader's [FileNotFoundError]. *)
Theorem load_data_half_loaded {py : Builtins} (self : loc) (ds : DataSet)
    (nfile cfile : string) (w w1 : World) (raw_data : list string) (data : list float) :
  datasets w !! self = Some ds →
  truthy_name (numerical_file ds) = Some nfile →
  truthy_name (categorical_file ds) = Some cfile →
  read_numerical_data nfile w = (Return raw_data, w1) →
  validate_numerical_data raw_data = Return data →
  files w !! cfile = None →
  ∃ e w',
    load_data self w = (Raise e, w') ∧
    datasets w' !! self = Some (with_numerical_data data ds) ∧
    last (stdout w') = Some (" Error loading data: " +:+ exn_msg e) ∧
    (faults w1 = [] → e = not_found cfile).
Proof.
  intros Hds Hnfile Hcfile Hread Hvalid Hmissing.
  destruct (same_objects_read_numerical_data nfile w) as (_ & _ & Hfiles & _).
  rewrite Hread in Hfiles. simpl in Hfiles.
  unfold load_data, try_except.
  unfold mbind at 1, M_bind at 1. rewrite (get_self_run _ _ _ Hds), Hnfile.
  unfold mbind at 1, M_bind at 1.
  rewrite (load_numerical_run self ds nfile w w1 raw_data data Hds Hread Hvalid).
  set (w2 := set_stdout _ _).
  assert (Hds2 : datasets w2 !! self = Some (with_numerical_data data ds))
    by apply lookup_insert_eq.
  unfold mbind at 1, M_bind at 1. rewrite (get_self_run _ _ _ Hds2).
  cbn [with_numerical_data categorical_file]. rewrite Hcfile.
  destruct (read_categorical_data_missing cfile w2) as (e & w3 & Hcat & He).
  { subst w2. simpl. by rewrite Hfiles. }
  destruct (same_objects_read_categorical_data cfile w2) as (_ & Hdatasets & _).
  rewrite Hcat in Hdatasets. simpl in Hdatasets.
  unfold mbind at 1, M_bind at 1. rewrite Hcat.
  unfold mbind, M_bind, print, modify, raise.
  eexists _, _. split; [done|]. simpl. split; [by rewrite Hdatasets|].
  split; [apply last_snoc|]. done.
Qed.

Lemma load_data_half_loaded_witness :
  ∃ e w',
    load_data (py := py_builtins) 1%positive
      (one_data_set (mk_DataSet (Some "scores.txt") (Some "subjects.txt") [] ["Art"]
                       1%positive ∅)
         {["scores.txt" := "85" +:+ nl +:+ "92"]})
      = (Raise e, w') ∧
    datasets w' !! 1%positive
      = Some (mk_DataSet (Some "scores.txt") (Some "subjects.txt") [85; 92]%float
                ["Art"] 1%positive ∅) ∧
    e = not_found "subjects.txt".
Proof.
  set (ds := mk_DataSet (Some "scores.txt") (Some "subjects.txt") [] ["Art"] 1%positive ∅).
  set (w := one_data_set ds {["scores.txt" := "85" +:+ nl +:+ "92"]}).
  destruct (load_data_half_loaded (py := py_builtins) 1%positive ds
              "scores.txt" "subjects.txt" w w ["85"; "92"] [85; 92]%float)
    as (e & w' & Hrun & Hds & _ & He).
  - vm_compute; exact eq_refl.
  - vm_compute; exact eq_refl.
  - vm_compute; exact eq_refl.
  - vm_compute; exact eq_refl.
  - vm_compute; exact eq_refl.
  - vm_compute; exact eq_refl.
  - exists e, w'. split; [done|]. split; [done|]. by apply He.
Defined.

(** X17: when the numeric file cannot be read or fails validation,
    [load_data] raises that exception after printing it, no object has
    changed (the data of an earlier load are still there), and the
    categorical file is not read: no file operation follows the failure. *)
Theorem load_data_numeric_failure {py : Builtins} (self : loc) (ds : DataSet)
    (nfile : string) (w w1 : World) (e : exn) :
  datasets w !! self = Some ds →
  truthy_name (numerical_file ds) = Some nfile →
  read_numerical_data nfile w = (Raise e, w1) ∨
  (∃ raw_data,
     read_numerical_data nfile w = (Return raw_data, w1) ∧
     validate_numerical_data raw_data = Raise e) →
  load_data self w
    = (Raise e, set_stdout (λ out, out ++ [" Error loading data: " +:+ exn_msg e]) w1) ∧
  datasets w1 = datasets w ∧ dicts w1 = dicts w ∧ files w1 = files w.
Proof.
  intros Hds Hnfile Hfail.
  destruct (same_objects_read_numerical_data nfile w) as (Hdicts & Hdatasets & Hfiles & _).
  destruct Hfail as [Hread|(raw_data & Hread & Hvalid)].
  - rewrite Hread in Hdicts, Hdatasets, Hfiles.
    split; [|done]. by apply load_data_propagates_read with ds nfile.
  - rewrite Hread in Hdicts, Hdatasets, Hfiles.
    split; [|done]. by apply load_data_propagates_validation with ds nfile raw_data.
Qed.

Lemma load_data_numeric_failure_witness :
  load_data (py := py_builtins) 1%positive
    (one_data_set (mk_DataSet (Some "scores.txt") (Some "subjects.txt") [70]%float []
                     1%positive ∅)
       {["scores.txt" := "85" +:+ nl +:+ "n/a"; "subjects.txt" := "Art"]})
  = (Raise (InvalidValue "n/a" 2),
     set_stdout (λ out, out ++ [" Error loading data: " +:+ exn_msg (InvalidValue "n/a" 2)])
       (one_data_set (mk_DataSet (Some "scores.txt") (Some "subjects.txt") [70]%float []
                        1%positive ∅)
          {["scores.txt" := "85" +:+ nl +:+ "n/a"; "subjects.txt" := "Art"]})).
Proof.
  apply (load_data_numeric_failure (py := py_builtins) 1%positive
           (mk_DataSet (Some "scores.txt") (Some "subjects.txt") [70]%float [] 1%positive ∅)
           "scores.txt").
  - vm_compute; exact eq_refl.
  - vm_compute; exact eq_refl.
  - right. exists ["85"; "n/a"]. split; vm_compute; exact eq_refl.
Defined.

(** X18: a data set with no file name, or with the empty string for a file
    name, loads nothing: [load_data] returns and the world is as it was. *)
Theorem load_data_without_files {py : Builtins} (self : loc) (ds : DataSet) (w : World) :
  datasets w !! self = Some ds →
  numerical_file ds = None ∨ numerical_file ds = Some "" →
  categorical_file ds = None ∨ categorical_file ds = Some "" →
  load_data self w = (Return (), w).
Proof.
  intros Hds Hnfile Hcfile.
  assert (truthy_name (numerical_file ds) = None) as Hn by (by destruct Hnfile as [-> | ->]).
  assert (truthy_name (categorical_file ds) = None) as Hc by (by destruct Hcfile as [-> | ->]).
  unfold load_data, try_except.
  unfold mbind at 1, M_bind at 1. rewrite (get_self_run _ _ _ Hds), Hn.
  unfold mbind at 1, M_bind at 1, mret at 1, M_ret at 1.
  unfold mbind at 1, M_bind at 1. by rewrite (get_self_run _ _ _ Hds), Hc.
Qed.

Lemma load_data_without_files_witness :
  load_data (py := py_builtins) 1%positive
    (one_data_set (mk_DataSet (Some "") None [] [] 1%positive ∅) {["" := "85"]})
  = (Return (), one_data_set (mk_DataSet (Some "") None [] [] 1%positive ∅) {["" := "85"]}).
Proof.
  apply (load_data_without_files (py := py_builtins) 1%positive
           (mk_DataSet (Some "") None [] [] 1%positive ∅)).
  - vm_compute; exact eq_refl.
  - by right.
  - by left.
Defined.

(** X19: when [load_data] returns for a data set with a numeric file, the
    data set holds numeric data: one float per token of the file, hence at
    least one, so that the analysis that follows finds data. *)
Theorem load_data_loads_numbers {py : Builtins} (self : loc) (ds : DataSet)
    (nfile : string) (w w' : World) :
  datasets w !! self = Some ds →
  truthy_name (numerical_file ds) = Some nfile →
  load_data self w = (Return (), w') →
  ∃ ds' raw_data w1,
    datasets w' !! self = Some ds' ∧
    read_numerical_data nfile w = (Return raw_data, w1) ∧
    Forall2 (λ token num, float_of_str token = Some num) raw_data (numerical_data ds') ∧
    numerical_data ds' ≠ [].
Proof.
  intros Hds Hnfile. unfold load_data, try_except.
  match goal with |- context [?body w] => destruct (body w) as [[[]|e] w2] eqn:Hbody end;
    [|done].
  intros [= <-]. revert Hbody.
  unfold mbind at 1, M_bind at 1. rewrite (get_self_run _ _ _ Hds), Hnfile.
  destruct (read_numerical_data nfile w) as [[raw_data|e] w1] eqn:Hread;
    [|by unfold mbind, M_bind; rewrite Hread].
  destruct (validate_numerical_data raw_data) as [data|e] eqn:Hvalid;
    [|by unfold mbind, M_bind, lift; rewrite Hread, Hvalid].
  unfold mbind at 1, M_bind at 1.
  rewrite (load_numerical_run self ds nfile w w1 raw_data data Hds Hread Hvalid).
  set (w3 := set_stdout _ _).
  assert (Hds3 : datasets w3 !! self = Some (with_numerical_data data ds))
    by apply lookup_insert_eq.
  unfold mbind at 1, M_bind at 1. rewrite (get_self_run _ _ _ Hds3).
  assert (Hvalues : Forall2 (λ token num, float_of_str token = Some num) raw_data data ∧
                    data ≠ []).
  { destruct (validate_returns_iff raw_data data) as [Hdata _].
    destruct (Hdata Hvalid) as [Hne Hall]. split; [done|].
    intros ->. apply Forall2_nil_inv_r in Hall. done. }
  destruct Hvalues as [Hall Hne].
  destruct (truthy_name (categorical_file (with_numerical_data data ds))) as [cfile|].
  - unfold mbind at 1, M_bind at 1.
    destruct (same_objects_read_categorical_data cfile w3) as (_ & Hdatasets & _).
    destruct (read_categorical_data cfile w3) as [[categories|e] w4]; [|done].
    simpl in Hdatasets.
    assert (Hds4 : datasets w4 !! self = Some (with_numerical_data data ds))
      by by rewrite Hdatasets.
    unfold mbind, M_bind. rewrite (set_self_run _ _ _ _ Hds4).
    unfold print, modify. intros [= <-].
    eexists _, raw_data, w1. split; [apply lookup_insert_eq|]. done.
  - unfold mret, M_ret. intros [= <-].
    eexists _, raw_data, w1. split; [done|]. done.
Qed.

Lemma load_data_loads_numbers_witness :
  ∃ ds' raw_data w1,
    datasets
      (load_data (py := py_builtins) 1%positive
         (one_data_set (mk_DataSet (Some "scores.csv") None [] [] 1%positive ∅)
            {["scores.csv" := "85, 92"]})).2 !! 1%positive = Some ds' ∧
    read_numerical_data (py := py_builtins) "scores.csv"
      (one_data_set (mk_DataSet (Some "scores.csv") None [] [] 1%positive ∅)
         {["scores.csv" := "85, 92"]}) = (Return raw_data, w1) ∧
    Forall2 (λ token num, py_float token = Some num) raw_data (numerical_data ds') ∧
    numerical_data ds' ≠ [].
Proof.
  apply (load_data_loads_numbers (py := py_builtins) 1%positive
           (mk_DataSet (Some "scores.csv") None [] [] 1%positive ∅) "scores.csv").
  - vm_compute; exact eq_refl.
  - vm_compute; exact eq_refl.
  - vm_compute; exact eq_refl.
Defined.

(** ** The data set, continued *)

(** X20: the constructor makes a new object with the given file names, no
    data, no unique categories, and a new, empty statistics dict; the
    objects that were there are as they were, no file and no line of the
    console has changed, and no data set whose statistics dict exists shares
    its dict with the new one. *)
Theorem DataSet_init_makes_new_objects (nfile cfile : option string) (w : World) :
  ∃ self stats w1,
    DataSet_init nfile cfile w = (Return self, w1) ∧
    datasets w !! self = None ∧
    dicts w !! stats = None ∧
    datasets w1 !! self = Some (mk_DataSet nfile cfile [] [] stats ∅) ∧
    dicts w1 !! stats = Some ∅ ∧
    (∀ l, l ≠ self → datasets w1 !! l = datasets w !! l) ∧
    (∀ l, l ≠ stats → dicts w1 !! l = dicts w !! l) ∧
    (∀ l ds, datasets w !! l = Some ds → is_Some (dicts w !! statistics ds) →
             statistics ds ≠ stats) ∧
    files w1 = files w ∧ stdout w1 = stdout w ∧ faults w1 = faults w.
Proof.
  rewrite DataSet_init_run.
  set (self := fresh (dom (datasets w))). set (stats := fresh (dom (dicts w))).
  assert (Hself : datasets w !! self = None) by apply not_elem_of_dom, is_fresh.
  assert (Hstats : dicts w !! stats = None) by apply not_elem_of_dom, is_fresh.
  eexists self, stats, _. split; [done|]. split; [done|]. split; [done|]. simpl.
  split; [apply lookup_insert_eq|]. split; [apply lookup_insert_eq|].
  split; [intros l Hl; by apply lookup_insert_ne|].
  split; [intros l Hl; by apply lookup_insert_ne|].
  split; [|done]. intros l ds _ [d Hd] Heq. congruence.
Qed.

(** X21: analysing twice is analysing once, as far as the content goes: a
    second [calculate_statistics] leaves statistics equal to those of the
    first, and the same unique categories; with numeric data they are in
    another new dict. A data set without data is analysed without any change
    of the world. *)
Theorem calculate_statistics_twice (self : loc) (threshold : pynum) (w : World)
    (ds : DataSet) (old : gmap string pyval) :
  datasets w !! self = Some ds →
  dicts w !! statistics ds = Some old →
  ∃ w1 ds1 d1 w2 ds2,
    calculate_statistics self threshold w = (Return (), w1) ∧
    datasets w1 !! self = Some ds1 ∧
    dicts w1 !! statistics ds1 = Some d1 ∧
    calculate_statistics self threshold w1 = (Return (), w2) ∧
    datasets w2 !! self = Some ds2 ∧
    dicts w2 !! statistics ds2 = Some d1 ∧
    unique_categories ds2 = unique_categories ds1 ∧
    (numerical_data ds ≠ [] → statistics ds2 ≠ statistics ds1) ∧
    (numerical_data ds = [] → categorical_data ds = [] → w1 = w).
Proof.
  intros Hds Hold.
  destruct (calculate_statistics_run self threshold w ds old Hds Hold)
    as (w1 & l1 & Hrun1 & Hl1 & Hds1 & Hd1 & _).
  destruct (calculate_statistics_run self threshold w1 _ _ Hds1 Hd1)
    as (w2 & l2 & Hrun2 & Hl2 & Hds2 & Hd2 & _).
  cbn [numerical_data categorical_data statistics unique_categories] in *.
  eexists w1, _, _, w2, _. split; [done|]. split; [done|]. split; [done|].
  split; [done|]. split; [done|]. cbn [statistics unique_categories].
  split; [|split; [|split]].
  - rewrite Hd2. f_equal. destruct (numerical_data ds); [|done].
    by rewrite (assoc_L (∪)), (idemp_L (∪)).
  - by destruct (categorical_data ds).
  - intros Hdata. destruct (numerical_data ds); [done|].
    intros Heq. rewrite Hl2 in Heq.
    assert (l1 ∈ dom (dicts w1)) as Hin by (apply elem_of_dom; eauto).
    rewrite <- Heq in Hin. by apply is_fresh in Hin.
  - intros Hdata Hcat. revert Hrun1. unfold calculate_statistics, mbind, M_bind.
    rewrite (get_self_run _ _ _ Hds), Hdata. unfold mret, M_ret.
    rewrite (get_self_run _ _ _ Hds), Hcat. by intros [= <-].
Qed.

Lemma calculate_statistics_twice_witness :
  ∃ w1 ds1 d1 w2 ds2,
    calculate_statistics 1%positive (PyInt 75) (analysed_before [85; 92]%float ["Math"])
      = (Return (), w1) ∧
    datasets w1 !! 1%positive = Some ds1 ∧
    dicts w1 !! statistics ds1 = Some d1 ∧
    calculate_statistics 1%positive (PyInt 75) w1 = (Return (), w2) ∧
    datasets w2 !! 1%positive = Some ds2 ∧
    dicts w2 !! statistics ds2 = Some d1 ∧
    statistics ds2 ≠ statistics ds1.
Proof.
  destruct (calculate_statistics_twice 1%positive (PyInt 75)
              (analysed_before [85; 92]%float ["Math"])
              (mk_DataSet None None [85; 92]%float ["Math"] 1%positive ∅) stale_statistics)
    as (w1 & ds1 & d1 & w2 & ds2 & Hrun1 & Hds1 & Hd1 & Hrun2 & Hds2 & Hd2 & _ & Hnew & _).
  - vm_compute; exact eq_refl.
  - vm_compute; exact eq_refl.
  - exists w1, ds1, d1, w2, ds2. repeat (split; [done|]). by apply Hnew.
Defined.

(** ** Code that returns *)

Section returns.
Context {py : Builtins}.

Lemma returns_ret {A} (P : World → Prop) (a : A) (Q : A → World → Prop) :
  (∀ w, P w → Q a w) → returns P (mret a) Q.
Proof. intros HQ w Hw. exists a, w. split; [done|]. by apply HQ. Qed.

Lemma returns_bind {A B} (P : World → Prop) (m : M A) (Q : A → World → Prop)
    (k : A → M B) (Q' : B → World → Prop) :
  returns P m Q → (∀ a, returns (Q a) (k a) Q') → returns P (m ≫= k) Q'.
Proof.
  intros Hm Hk w Hw. destruct (Hm w Hw) as (a & w1 & Hrun & Hw1).
  destruct (Hk a w1 Hw1) as (b & w2 & Hrun2 & Hw2).
  exists b, w2. split; [|done]. unfold mbind, M_bind. by rewrite Hrun.
Qed.

Lemma returns_conseq {A} (P P' : World → Prop) (m : M A) (Q Q' : A → World → Prop) :
  (∀ w, P' w → P w) → (∀ a w, Q a w → Q' a w) → returns P m Q → returns P' m Q'.
Proof.
  intros HP HQ Hm w Hw. destruct (Hm w (HP w Hw)) as (a & w1 & Hrun & Hw1).
  exists a, w1. split; [done|]. by apply HQ.
Qed.

(** Code that keeps an invariant [I] of the world. *)
Context (I : World → Prop).

Lemma returns_assume {A} (φ : Prop) (m : M A) (Q : A → World → Prop) :
  (φ → returns I m Q) → returns (λ w, φ ∧ I w) m Q.
Proof. intros Hm w [Hφ Hw]. by apply Hm. Qed.

Lemma returns_unit : returns I (mret ()) (λ _, I).
Proof. by apply returns_ret. Qed.

Lemma returns_seq {A B} (m : M A) (k : A → M B) (Q : B → World → Prop) :
  returns I m (λ _, I) → (∀ a, returns I (k a) Q) → returns I (m ≫= k) Q.
Proof. intros Hm Hk. by apply returns_bind with (λ _, I). Qed.

Lemma returns_if {A} (b : bool) (m1 m2 : M A) (Q : A → World → Prop) :
  returns I m1 Q → returns I m2 Q → returns I (if b then m1 else m2) Q.
Proof. by destruct b. Qed.

Lemma returns_mapM {A B} (f : A → M B) (l : list A) :
  (∀ a, returns I (f a) (λ _, I)) → returns I (mapM f l) (λ _, I).
Proof.
  intros Hf. induction l as [|a l IH]; simpl; [by apply returns_ret|].
  apply returns_seq; [apply Hf|]. intros b.
  apply returns_seq; [apply IH|]. intros bs. by apply returns_ret.
Qed.

Section returns_console.
Hypothesis Hstdout : ∀ f w, I w → I (set_stdout f w).

Lemma returns_print (s : string) : returns I (print s) (λ _, I).
Proof. intros w Hw. eexists _, _. split; [done|]. by apply Hstdout. Qed.

(** The statistics [d] are in the dict [stats]. *)
Section returns_fields.
Context (stats : loc) (d : gmap string pyval).
Hypothesis Hdict : ∀ w, I w → dicts w !! stats = Some d.
Hypothesis Hrenders : renders d.

Lemma returns_dict_contains (key : string) :
  returns I (dict_contains stats key) (λ _, I).
Proof. intros w Hw. by eexists _, _. Qed.

Lemma returns_field_of (key : string) (dflt : pyval) (spec : format_spec) :
  (key, dflt, spec) ∈ report_fields → returns I (field_of stats key dflt spec) (λ _, I).
Proof.
  intros Hin w Hw. destruct (Hrenders key dflt spec Hin) as [s Hs].
  exists s, w. split; [|done].
  unfold field_of, dict_get, dict_read, mbind, M_bind, mret, M_ret, lift.
  rewrite (Hdict w Hw). simpl. by rewrite Hs.
Qed.

Local Ltac field_steps :=
  repeat first
    [ apply returns_print | apply returns_unit
    | apply returns_field_of; unfold report_fields; set_solver
    | apply returns_if
    | apply returns_seq; [|intros ?]
    | match goal with
      | |- returns _ (match ?l with [] => _ | _ => _ end) _ => destruct l
      end ].

(** [display_results] on the data set [ds], whose statistics are [d]. *)
Lemma returns_display_results (self : loc) (ds : DataSet) :
  statistics ds = stats →
  (∀ w, I w → datasets w !! self = Some ds) →
  returns I (display_results self) (λ _, I).
Proof.
  intros Hstats Hself. unfold display_results.
  do 3 (apply returns_seq; [apply returns_print|intros _]).
  apply returns_bind with (λ a w, a = ds ∧ I w).
  { intros w Hw. exists ds, w. by rewrite (get_self_run _ _ _ (Hself w Hw)). }
  intros ds'. apply returns_assume. intros ->. rewrite Hstats. field_steps.
Qed.

(** Code that writes the file [filename], in a world without faults. *)
Section returns_output.
Context (filename : string).
Hypothesis Hquiet : ∀ w, I w → faults w = [].
Hypothesis Hwrite : ∀ s w,
  I w → I (set_files (λ fs, <[filename := default "" (fs !! filename) +:+ s]> fs) w).

Lemma io_step_quiet (w : World) : faults w = [] → io_step w = (Return (), w).
Proof. intros Hfaults. unfold io_step. by rewrite Hfaults. Qed.

Lemma returns_write (s : string) : returns I (write filename s) (λ _, I).
Proof.
  intros w Hw. eexists _, _. split; [|by apply (Hwrite s)].
  unfold write, mbind, M_bind. by rewrite (io_step_quiet _ (Hquiet w Hw)).
Qed.

Lemma returns_close : returns I (close filename) (λ _, I).
Proof. intros w Hw. exists (), w. split; [|done]. by apply io_step_quiet, Hquiet. Qed.

Local Ltac report_steps :=
  repeat first
    [ apply returns_print | apply returns_unit | apply returns_write
    | apply returns_dict_contains
    | apply returns_field_of; unfold report_fields; set_solver
    | apply returns_if
    | apply returns_mapM; intros ?
    | apply returns_seq; [|intros ?] ].

(** [save_report_body] from a world of [I0], where the file can be opened. *)
Lemma returns_save_report_body (I0 : World → Prop) (unique : gset string) :
  (∀ w, I0 w → faults w = [] ∧ (filename ∉ unwritable w)
               ∧ I (set_files (insert filename "") w)) →
  returns I0 (save_report_body stats unique filename) (λ ok w, ok = true ∧ I w).
Proof.
  intros Hopen. unfold save_report_body.
  apply returns_bind with (λ _, I).
  - unfold with_open_w. apply returns_bind with (λ _, I).
    + intros w Hw. destruct (Hopen w Hw) as (Hfaults & Hwritable & Hw1).
      eexists _, _. split; [|done].
      unfold open_w, mbind, M_bind. rewrite (io_step_quiet _ Hfaults).
      unfold get_world. by rewrite bool_decide_eq_false_2.
    + intros _.
      match goal with |- returns I (λ w, match ?body w with _ => _ end) _ =>
        assert (Hbody : returns I body (λ _, I)) by report_steps
      end.
      intros w Hw. destruct (Hbody w Hw) as ([] & w1 & -> & Hw1).
      exists (), w1. split; [|done].
      unfold mbind, M_bind, close. by rewrite (io_step_quiet _ (Hquiet w1 Hw1)).
  - intros _. apply returns_seq; [apply returns_print|]. intros _. by apply returns_ret.
Qed.

End returns_output.
End returns_fields.
End returns_console.
End returns.

(** [display_results] returns on a data set whose statistics render. *)
Lemma display_results_returns {py : Builtins} (self : loc) (ds : DataSet)
    (d : gmap string pyval) (w : World) :
  datasets w !! self = Some ds →
  dicts w !! statistics ds = Some d →
  renders d →
  ∃ w', display_results self w = (Return (), w').
Proof.
  intros Hds Hd Hrenders.
  set (I := λ w : World, datasets w !! self = Some ds ∧ dicts w !! statistics ds = Some d).
  assert (Hrun : returns I (display_results self) (λ _, I)).
  { apply (returns_display_results I) with (statistics ds) d ds.
    - by intros f w' [? ?].
    - by intros w' [? ?].
    - done.
    - done.
    - by intros w' [? ?]. }
  destruct (Hrun w) as ([] & w' & Hdisplay & _); [done|]. by exists w'.
Qed.

Lemma save_report_true_run {py : Builtins}
    (stats : loc) (d : gmap string pyval) (unique : gset string) (filename : string)
    (w : World) :
  renders d →
  can_report stats d filename w →
  ∃ w',
    save_report stats unique filename w = (Return true, w') ∧
    can_report stats d filename w' ∧
    is_Some (files w' !! filename) ∧
    last (stdout w') = Some ("Report saved to '" +:+ filename +:+ "'").
Proof.
  intros Hrenders Hw.
  set (I := λ w : World, can_report stats d filename w ∧ is_Some (files w !! filename)).
  assert (Hbody : returns (can_report stats d filename)
                    (save_report_body stats unique filename) (λ ok w, ok = true ∧ I w)).
  { apply (returns_save_report_body I) with d.
    - by intros f w' [(? & ? & ?) ?].
    - by intros w' [(? & ? & ?) ?].
    - done.
    - by intros w' [(? & ? & ?) ?].
    - intros s w' [(? & ? & ?) ?]. split; [done|]. simpl. by rewrite lookup_insert_eq.
    - intros w' (? & ? & ?). split; [done|]. split; [done|]. split; [done|].
      simpl. by rewrite lookup_insert_eq. }
  destruct (Hbody w Hw) as (ok & w' & Hrun & -> & Hw' & Hfile).
  exists w'. split; [|split; [done|split; [done|]]].
  - unfold save_report, try_except. by rewrite Hrun.
  - revert Hrun. unfold save_report_body.
    apply (bind_returns _ _ (λ w', last (stdout w') = Some _)). intros _ w1.
    unfold mbind, M_bind, print, modify, mret, M_ret. intros [= <-]. apply last_snoc.
Qed.

(** X22: in a world without faults where the target can be written,
    [save_report] returns [True] for every statistics dict whose fields
    format: the file exists afterwards and the last line on the console
    names it. No dict has changed and no fault has come up. *)
Theorem save_report_returns_true {py : Builtins}
    (stats : loc) (d : gmap string pyval) (unique : gset string) (filename : string)
    (w : World) :
  renders d →
  can_report stats d filename w →
  ∃ w',
    save_report stats unique filename w = (Return true, w') ∧
    can_report stats d filename w' ∧
    is_Some (files w' !! filename) ∧
    last (stdout w') = Some ("Report saved to '" +:+ filename +:+ "'").
Proof. apply save_report_true_run. Qed.

Global Instance same_faults_preorder : PreOrder same_faults.
Proof.
  split; [done|]. intros w1 w2 w3 [? ?] [? ?]. split; congruence.
Qed.

(** *** The statistics the program computes can be rendered *)

Section rendering.

Lemma py_format_plain (value : pyval) : ∃ s, py_format value fmt_plain = Return s.
Proof. destruct value as [|[n|x]|s]; by eexists. Qed.

Lemma renders_empty : renders (py := py_builtins) ∅.
Proof.
  intros key dflt spec Hin. rewrite lookup_empty. simpl.
  unfold report_fields in Hin.
  repeat (apply elem_of_cons in Hin as [[= -> -> ->]|Hin]; [by eexists|]).
  by apply elem_of_nil in Hin.
Qed.

Lemma renders_numeric_block (data : list float) (threshold : pynum) :
  renders (py := py_builtins) (numeric_block data threshold).
Proof.
  destruct data as [|x data]; [apply renders_empty|].
  assert (Hne : x :: data ≠ []) by done.
  destruct (calculate_average_float _ Hne) as (total & Htotal & Havg).
  unfold numeric_block. rewrite Havg, Htotal.
  intros key dflt spec Hin. unfold report_fields in Hin.
  repeat (apply elem_of_cons in Hin as [[= -> -> ->]|Hin]; [by eexists|]).
  by apply elem_of_nil in Hin.
Qed.

Lemma renders_categorical_block (categories : list string) (d : gmap string pyval) :
  renders (py := py_builtins) d →
  renders (py := py_builtins) (categorical_block categories ∪ d).
Proof.
  intros Hd key dflt spec Hin.
  destruct (decide (key = "unique_categories")) as [->|Hkey].
  - unfold report_fields in Hin. set_unfold in Hin.
    destruct_or!; simplify_eq. apply py_format_plain.
  - rewrite lookup_union_r by by apply categorical_block_numeric.
    by apply Hd.
Qed.

End rendering.

Lemma same_faults_calculate_statistics (self : loc) (threshold : pynum) :
  keeps same_faults (calculate_statistics self threshold).
Proof. by apply (keeps_calculate_statistics same_faults). Qed.

Lemma renders_calculated (categories : list string) (data : list float)
    (threshold : pynum) (old : gmap string pyval) :
  renders (py := py_builtins) old →
  renders (py := py_builtins)
    (categorical_block categories ∪
       match data with [] => old | _ => numeric_block data threshold end).
Proof.
  intros Hold. apply renders_categorical_block.
  destruct data; [done|apply renders_numeric_block].
Qed.

(** X23: the statistics [calculate_statistics] leaves can always be shown:
    from statistics that render (the empty dict of a new data set, or those
    of an earlier analysis), the analysis gives statistics that render,
    [display_results] returns, and [save_report] returns [True] wherever
    the target can be written and no fault comes up. *)
Theorem calculated_statistics_render
    (self : loc) (threshold : pynum) (filename : string) (w : World) (ds : DataSet)
    (old : gmap string pyval) :
  datasets w !! self = Some ds →
  dicts w !! statistics ds = Some old →
  renders (py := py_builtins) old →
  ∃ w1 ds1 new,
    calculate_statistics self threshold w = (Return (), w1) ∧
    datasets w1 !! self = Some ds1 ∧
    dicts w1 !! statistics ds1 = Some new ∧
    renders (py := py_builtins) new ∧
    (∃ w2, display_results (py := py_builtins) self w1 = (Return (), w2)) ∧
    (faults w = [] → filename ∉ unwritable w →
     ∃ w2, save_report (py := py_builtins) (statistics ds1) (unique_categories ds1)
             filename w1 = (Return true, w2)).
Proof.
  intros Hds Hold Hrenders.
  destruct (calculate_statistics_run self threshold w ds old Hds Hold)
    as (w1 & l & Hrun & _ & Hds1 & Hl & _).
  destruct (same_faults_calculate_statistics self threshold w) as [Hfaults Hunwritable].
  rewrite Hrun in Hfaults, Hunwritable. simpl in Hfaults, Hunwritable.
  pose proof (renders_calculated (categorical_data ds) (numerical_data ds) threshold old
                Hrenders) as Hnew.
  eexists w1, _, _. split; [done|]. split; [done|]. split; [done|]. split; [done|].
  cbn [statistics unique_categories]. split.
  - by apply display_results_returns with
       (mk_DataSet (numerical_file ds) (categorical_file ds) (numerical_data ds)
          (categorical_data ds) l
          match categorical_data ds with
          | [] => unique_categories ds
          | _ => (get_unique_categories (categorical_data ds)).1
          end)
       (categorical_block (categorical_data ds) ∪
          match numerical_data ds with
          | [] => old
          | _ => numeric_block (numerical_data ds) threshold
          end).
  - intros Hquiet Hwritable.
    destruct (save_report_true_run l _
                match categorical_data ds with
                | [] => unique_categories ds
                | _ => (get_unique_categories (categorical_data ds)).1
                end filename w1 Hnew)
      as (w2 & Hsave & _).
    { split; [congruence|]. split; [by rewrite Hunwritable|done]. }
    by exists w2.
Qed.

Lemma renders_stale_statistics : renders (py := py_builtins) stale_statistics.
Proof.
  intros key dflt spec Hin. unfold report_fields in Hin. set_unfold in Hin.
  destruct_or!; simplify_eq; by eexists.
Qed.

Lemma save_report_returns_true_witness :
  ∃ w',
    save_report (py := py_builtins) 1%positive ∅ "report.txt"
      (mk_World {[1%positive := stale_statistics]} ∅ ∅ ∅ [] []) = (Return true, w') ∧
    is_Some (files w' !! "report.txt").
Proof.
  destruct (save_report_returns_true (py := py_builtins) 1%positive stale_statistics ∅
              "report.txt" (mk_World {[1%positive := stale_statistics]} ∅ ∅ ∅ [] []))
    as (w' & Hrun & _ & Hfile & _).
  - apply renders_stale_statistics.
  - split; [done|]. split; [|done]. simpl. apply not_elem_of_empty.
  - by exists w'.
Defined.

Lemma calculated_statistics_render_witness :
  ∃ w1 ds1 w2,
    calculate_statistics 1%positive (PyInt 75) (analysed_before [85; 92]%float ["Math"])
      = (Return (), w1) ∧
    datasets w1 !! 1%positive = Some ds1 ∧
    save_report (py := py_builtins) (statistics ds1) (unique_categories ds1)
      "report.txt" w1 = (Return true, w2).
Proof.
  destruct (calculated_statistics_render 1%positive (PyInt 75) "report.txt"
              (analysed_before [85; 92]%float ["Math"])
              (mk_DataSet None None [85; 92]%float ["Math"] 1%positive ∅)
              stale_statistics)
    as (w1 & ds1 & new & Hrun & Hds1 & _ & _ & _ & Hsave).
  - vm_compute; exact eq_refl.
  - vm_compute; exact eq_refl.
  - apply renders_stale_statistics.
  - destruct Hsave as [w2 Hsave]; [done|simpl; apply not_elem_of_empty|].
    by exists w1, ds1, w2.
Defined.

(** *** The report of a data set without statistics *)

Section writing.
Context {py : Builtins} (stats : loc) (d : gmap string pyval) (filename : string).

Lemma writing_write (content s : string) :
  returns (writing stats d filename content) (write filename s)
    (λ _, writing stats d filename (content +:+ s)).
Proof.
  intros w (Hfaults & Hfile & Hdict). eexists _, _. split.
  - unfold write, mbind, M_bind. by rewrite (io_step_quiet _ Hfaults).
  - split; [done|]. split; [|done]. simpl. by rewrite lookup_insert_eq, Hfile.
Qed.

Lemma writing_absent (content key : string) :
  d !! key = None →
  returns (writing stats d filename content) (dict_contains stats key)
    (λ b w, b = false ∧ writing stats d filename content w).
Proof.
  intros Hkey w (Hfaults & Hfile & Hdict). exists false, w. split; [|done].
  unfold dict_contains, dict_read, mbind, M_bind, mret, M_ret.
  rewrite Hdict. simpl. rewrite Hkey. by rewrite bool_decide_eq_false_2 by by intros [].
Qed.

End writing.

(** X24: for statistics with neither the key [count] nor the key
    [unique_categories] (those of a data set not analysed yet, whatever its
    data), [save_report] writes the title and the closing lines only and
    returns [True]; what the file held before is gone. *)
Theorem save_report_without_statistics {py : Builtins}
    (stats : loc) (d : gmap string pyval) (unique : gset string) (filename : string)
    (w : World) :
  can_report stats d filename w →
  d !! "count" = None →
  d !! "unique_categories" = None →
  ∃ w',
    save_report stats unique filename w = (Return true, w') ∧
    files w' !! filename = Some empty_report.
Proof.
  intros (Hfaults & Hwritable & Hdict) Hcount Hunique.
  assert (Hopen : open_w filename w = (Return (), set_files (insert filename "") w)).
  { unfold open_w, mbind, M_bind. rewrite (io_step_quiet _ Hfaults).
    unfold get_world. by rewrite bool_decide_eq_false_2. }
  unfold save_report, try_except, save_report_body, with_open_w.
  unfold mbind at 1, M_bind at 1. unfold mbind at 1, M_bind at 1. rewrite Hopen.
  match goal with |- context [match ?body ?w1 with _ => _ end] =>
    assert (Hbody : returns (writing stats d filename "") body
                      (λ _, writing stats d filename empty_report))
  end.
  { eapply returns_bind; [apply writing_write|]. intros [].
    eapply returns_bind; [apply writing_write|]. intros [].
    eapply returns_bind; [by apply writing_absent|]. intros has_count.
    apply returns_assume. intros ->.
    cbv iota. eapply returns_bind; [apply returns_unit|]. intros [].
    eapply returns_bind; [by apply writing_absent|]. intros has_unique.
    apply returns_assume. intros ->.
    cbv iota. eapply returns_bind; [apply returns_unit|]. intros [].
    eapply returns_bind; [apply writing_write|]. intros [].
    eapply returns_conseq; [done| |apply writing_write].
    intros [] w' (Hquiet & Hfile & Hd). split; [done|]. split; [|done].
    rewrite Hfile. by f_equal. }
  destruct (Hbody (set_files (insert filename "") w)) as ([] & w1 & Hrun & Hfaults1 & Hfile & _).
  { split; [done|]. split; [|done]. simpl. apply lookup_insert_eq. }
  rewrite Hrun. unfold mbind at 1, M_bind at 1, close. rewrite (io_step_quiet _ Hfaults1).
  eexists. split; [reflexivity|]. done.
Qed.

Lemma save_report_without_statistics_witness :
  ∃ w',
    save_report (py := py_builtins) 1%positive {["Math"]} "report.txt"
      (mk_World {[1%positive := {["total" := VNum (PyFloat 7)]}]} ∅
         {["report.txt" := "an older report"]} ∅ [] [])
      = (Return true, w') ∧
    files w' !! "report.txt" = Some empty_report.
Proof.
  apply (save_report_without_statistics (py := py_builtins) 1%positive
           {["total" := VNum (PyFloat 7)]}).
  - split; [done|]. split; [|done]. simpl. apply not_elem_of_empty.
  - vm_compute; exact eq_refl.
  - vm_compute; exact eq_refl.
Defined.

(** ** Running a sequence step by step *)

Lemma bind_run {A B} (m : M A) (k : A → M B) (w w1 : World) (a : A) :
  m w = (Return a, w1) → (m ≫= k) w = k a w1.
Proof. intros Hrun. unfold mbind, M_bind. by rewrite Hrun. Qed.

Lemma bind_assoc {A B C} (m : M A) (k : A → M B) (k' : B → M C) (w : World) :
  ((m ≫= k) ≫= k') w = (m ≫= λ a, k a ≫= k') w.
Proof. unfold mbind, M_bind. by destruct (m w) as [[a|e] w1]. Qed.

Lemma print_run (s : string) (w : World) :
  print s w = (Return (), set_stdout (λ out, out ++ [s]) w).
Proof. done. Qed.

Lemma field_of_run {py : Builtins} (stats : loc) (key : string) (dflt : pyval)
    (spec : format_spec) (w : World) (d : gmap string pyval) (s : string) :
  dicts w !! stats = Some d →
  format (default dflt (d !! key)) spec = Return s →
  field_of stats key dflt spec w = (Return s, w).
Proof.
  intros Hd Hs. unfold field_of, dict_get, dict_read, mbind, M_bind, mret, M_ret, lift.
  rewrite Hd. simpl. by rewrite Hs.
Qed.

(** X25: shown before any analysis, a data set that holds numeric data and
    no categories gets the numeric block with the defaults of its fields: a
    count of 0, amounts of 0.00 and the label N/A, whatever its data. *)
Theorem display_results_before_analysis (self : loc) (ds : DataSet) (w : World) :
  datasets w !! self = Some ds →
  dicts w !! statistics ds = Some ∅ →
  numerical_data ds ≠ [] →
  categorical_data ds = [] →
  ∃ w',
    display_results (py := py_builtins) self w = (Return (), w') ∧
    stdout w'
      = stdout w ++
        [nl +:+ repeat_char "=" 50; "DATASET ANALYSIS REPORT"; repeat_char "=" 50;
         nl +:+ "NUMERICAL DATA ANALYSIS:";
         "  • Data Points: 0"; "  • Total: 0.00"; "  • Average: 0.00";
         "  • Minimum: 0.00"; "  • Maximum: 0.00"; "  • Performance: N/A";
         nl +:+ repeat_char "=" 50].
Proof.
  intros Hds Hd Hdata Hcat. unfold display_results.
  do 3 rewrite (bind_run _ _ _ _ _ (print_run _ _)).
  match goal with |- context [(get_self self ≫= _) ?w0] =>
    rewrite (bind_run _ _ w0 _ _ (get_self_run self ds w0 Hds))
  end.
  destruct (numerical_data ds) as [|x data]; [done|]. rewrite Hcat.
  repeat first
    [ rewrite bind_assoc
    | rewrite (bind_run _ _ _ _ _ (print_run _ _))
    | rewrite (bind_run (mret ()) _ _ _ _ eq_refl)
    | match goal with
      | |- context [(field_of ?st ?k ?dv ?sp ≫= _) ?w0] =>
          let s := eval vm_compute in (py_format dv sp) in
          match s with
          | Return ?s =>
              rewrite (bind_run _ _ w0 _ _
                         (field_of_run (py := py_builtins) st k dv sp w0 ∅ s Hd eq_refl))
          end
      end ].
  unfold mret, M_ret. rewrite print_run. eexists. split; [reflexivity|].
  simpl. by rewrite <- !app_assoc.
Qed.

Lemma display_results_before_analysis_witness :
  ∃ w',
    display_results (py := py_builtins) 1%positive
      (one_data_set (mk_DataSet None None [85; 92]%float [] 1%positive ∅) ∅)
      = (Return (), w') ∧
    stdout w'
      = [nl +:+ repeat_char "=" 50; "DATASET ANALYSIS REPORT"; repeat_char "=" 50;
         nl +:+ "NUMERICAL DATA ANALYSIS:";
         "  • Data Points: 0"; "  • Total: 0.00"; "  • Average: 0.00";
         "  • Minimum: 0.00"; "  • Maximum: 0.00"; "  • Performance: N/A";
         nl +:+ repeat_char "=" 50].
Proof.
  refine (display_results_before_analysis 1%positive
            (mk_DataSet None None [85; 92]%float [] 1%positive ∅)
            (one_data_set (mk_DataSet None None [85; 92]%float [] 1%positive ∅) ∅)
            _ _ _ _).
  - vm_compute; exact eq_refl.
  - vm_compute; exact eq_refl.
  - done.
  - done.
Defined.

(** ** The whole program, continued *)

(** X26: where its two input files exist, [main] changes no file but the
    report: it does not touch its input files, whatever happens. *)
Theorem main_keeps_input_files {py : Builtins} (w : World) :
  is_Some (files w !! NUMERICAL_FILE) →
  is_Some (files w !! CATEGORICAL_FILE) →
  same_files_outside {["dataset_analysis_report.txt"]} w (main w).2.
Proof.
  intros Hnum Hcat. unfold main.
  unfold mbind at 1, M_bind at 1, print at 1, modify at 1.
  unfold mbind at 1, M_bind at 1, print at 1, modify at 1.
  unfold mbind at 1, M_bind at 1, path_exists at 1.
  unfold mbind at 1, M_bind at 1, get_world at 1, mret at 1, M_ret at 1.
  cbn [files set_stdout]. rewrite bool_decide_eq_true_2 by done.
  unfold mbind at 1, M_bind at 1, mret at 1, M_ret at 1.
  unfold mbind at 1, M_bind at 1, path_exists at 1.
  unfold mbind at 1, M_bind at 1, get_world at 1, mret at 1, M_ret at 1.
  cbn [files set_stdout]. rewrite bool_decide_eq_true_2 by done.
  unfold mbind at 1, M_bind at 1, mret at 1, M_ret at 1.
  match goal with |- same_files_outside _ _ (?rest ?w2).2 =>
    trans w2; [done|]; generalize w2
  end.
  refine (_ : keeps (same_files_outside _) _).
  set (paths := {["dataset_analysis_report.txt"]} : gset string).
  assert (Hin : "dataset_analysis_report.txt" ∈ paths) by set_solver.
  pose proof (same_files_outside_print paths) as Hprint.
  apply (keeps_bind (same_files_outside paths));
    [by apply (keeps_DataSet_init (same_files_outside paths))|].
  intros dataset.
  apply (keeps_try_except (same_files_outside paths)); [|intros e; apply Hprint].
  repeat first
    [ apply Hprint | apply same_files_outside_load_data
    | by apply (keeps_calculate_statistics (same_files_outside paths))
    | apply (keeps_display_results (same_files_outside paths)), Hprint
    | apply (keeps_get_self (same_files_outside paths))
    | by apply same_files_outside_save_report
    | apply (keeps_bind (same_files_outside paths)); [|intros ?] ].
Qed.

Lemma main_keeps_input_files_witness :
  same_files_outside {["dataset_analysis_report.txt"]}
    (mk_World ∅ ∅ {[NUMERICAL_FILE := "85,x"; CATEGORICAL_FILE := "Art"]} ∅ [] [])
    (main (py := py_builtins)
       (mk_World ∅ ∅ {[NUMERICAL_FILE := "85,x"; CATEGORICAL_FILE := "Art"]} ∅ [] [])).2.
Proof.
  apply (main_keeps_input_files (py := py_builtins)).
  - vm_compute. by eexists.
  - vm_compute. by eexists.
Defined.

(** X27: the sample files are made before the [try] block: when the numeric
    file does not exist and cannot be created, the exception of [open]
    leaves [main]; nothing catches it. *)
Theorem main_sample_creation_unguarded {py : Builtins} (w : World) :
  files w !! NUMERICAL_FILE = None →
  NUMERICAL_FILE ∈ unwritable w →
  ∃ e w',
    main w = (Raise e, w') ∧
    (faults w = [] → e = permission_denied NUMERICAL_FILE).
Proof.
  intros Hnum Hunwritable. unfold main.
  unfold mbind at 1, M_bind at 1, print at 1, modify at 1.
  unfold mbind at 1, M_bind at 1, print at 1, modify at 1.
  unfold mbind at 1, M_bind at 1, path_exists at 1.
  unfold mbind at 1, M_bind at 1, get_world at 1, mret at 1, M_ret at 1.
  cbn [files set_stdout]. rewrite Hnum.
  rewrite bool_decide_eq_false_2 by by intros [].
  unfold mbind at 1, M_bind at 1. unfold mbind at 1, M_bind at 1, print at 1, modify at 1.
  unfold with_open_w, mbind at 1, M_bind at 1.
  set (w3 := set_stdout _ (set_stdout _ (set_stdout _ w))).
  destruct (open_w_unwritable_files NUMERICAL_FILE w3) as (e & w4 & Hopen & _ & He);
    [done|].
  rewrite Hopen. by exists e, w4.
Qed.

Lemma main_sample_creation_unguarded_witness :
  ∃ e w',
    main (py := py_builtins) (mk_World ∅ ∅ ∅ {[NUMERICAL_FILE]} [] []) = (Raise e, w') ∧
    e = permission_denied NUMERICAL_FILE.
Proof.
  destruct (main_sample_creation_unguarded (py := py_builtins)
              (mk_World ∅ ∅ ∅ {[NUMERICAL_FILE]} [] [])) as (e & w' & Hrun & He).
  - vm_compute; exact eq_refl.
  - simpl. set_solver.
  - exists e, w'. split; [done|]. by apply He.
Defined.

Section main_run.

Lemma read_text_quiet (filename content : string) (w : World) :
  faults w = [] → files w !! filename = Some content →
  read_text filename w = (Return content, w).
Proof.
  intros Hfaults Hfile. unfold read_text, mbind, M_bind.
  rewrite (io_step_quiet _ Hfaults). unfold get_world. by rewrite Hfile.
Qed.

(** [load_data] where both files are there and the numeric one is valid. *)
Lemma load_data_returns {py : Builtins} (self : loc) (ds : DataSet) (d : gmap string pyval)
    (fs : gmap string string) (U : gset string) (nfile cfile ccontent : string)
    (raw_data : list string) (data : list float) (w : World) :
  analysing self ds d fs U w →
  truthy_name (numerical_file ds) = Some nfile →
  truthy_name (categorical_file ds) = Some cfile →
  read_numerical_data nfile w = (Return raw_data, w) →
  validate_numerical_data raw_data = Return data →
  fs !! cfile = Some ccontent →
  ∃ w',
    load_data self w = (Return (), w') ∧
    analysing self
      (mk_DataSet (numerical_file ds) (categorical_file ds) data (nonblank_lines ccontent)
         (statistics ds) (unique_categories ds)) d fs U w'.
Proof.
  intros (Hfaults & HU & Hfs & Hds & Hd) Hnfile Hcfile Hread Hvalid Hcat.
  unfold load_data, try_except.
  unfold mbind at 1, M_bind at 1. rewrite (get_self_run _ _ _ Hds), Hnfile.
  unfold mbind at 1, M_bind at 1.
  rewrite (load_numerical_run self ds nfile w w raw_data data Hds Hread Hvalid).
  set (w2 := set_stdout _ _).
  assert (Hds2 : datasets w2 !! self = Some (with_numerical_data data ds))
    by apply lookup_insert_eq.
  unfold mbind at 1, M_bind at 1. rewrite (get_self_run _ _ _ Hds2).
  cbn [with_numerical_data categorical_file]. rewrite Hcfile.
  assert (Hcategories : read_categorical_data cfile w2 = (Return (nonblank_lines ccontent), w2)).
  { unfold nonblank_lines. rewrite <- line_tokens_filter.
    apply read_categorical_data_run, read_text_quiet; [done|].
    subst w2. simpl. by rewrite Hfs. }
  rewrite (bind_run _ _ _ _ _ Hcategories).
  rewrite (bind_run _ _ _ _ _ (set_self_run _ _ _ _ Hds2)).
  eexists. split; [reflexivity|].
  split; [done|]. split; [done|]. split; [done|]. simpl.
  rewrite lookup_insert_eq. split; [done|]. done.
Qed.

Lemma calculate_statistics_returns (self : loc) (threshold : pynum) (ds : DataSet)
    (d : gmap string pyval) (fs : gmap string string) (U : gset string) (w : World) :
  analysing self ds d fs U w →
  renders (py := py_builtins) d →
  ∃ w' ds' d',
    calculate_statistics self threshold w = (Return (), w') ∧
    analysing self ds' d' fs U w' ∧ renders (py := py_builtins) d'.
Proof.
  intros (Hfaults & HU & Hfs & Hds & Hd) Hrenders.
  destruct (calculate_statistics_run self threshold w ds d Hds Hd)
    as (w1 & l & Hrun & _ & Hds1 & Hl & _ & Hfiles & _).
  destruct (same_faults_calculate_statistics self threshold w) as [Hfaults1 HU1].
  rewrite Hrun in Hfaults1, HU1. simpl in Hfaults1, HU1.
  eexists w1, _, _. split; [done|]. split.
  - split; [congruence|]. split; [congruence|]. split; [congruence|]. split; [done|].
    exact Hl.
  - by apply renders_calculated.
Qed.

Lemma display_results_analysing {py : Builtins} (self : loc) (ds : DataSet)
    (d : gmap string pyval) (fs : gmap string string) (U : gset string) (w : World) :
  analysing self ds d fs U w →
  renders d →
  ∃ w', display_results self w = (Return (), w') ∧ analysing self ds d fs U w'.
Proof.
  intros (Hfaults & HU & Hfs & Hds & Hd) Hrenders.
  destruct (display_results_returns self ds d w Hds Hd Hrenders) as [w' Hrun].
  destruct (keeps_display_results console_only console_only_print self w)
    as (Hdicts & Hdatasets & Hfiles & HU' & Hfaults' & _).
  rewrite Hrun in Hdicts, Hdatasets, Hfiles, HU', Hfaults'. simpl in *.
  exists w'. split; [done|]. unfold analysing. by rewrite Hdicts, Hdatasets, Hfiles, HU', Hfaults'.
Qed.

Lemma save_report_returns {py : Builtins} (stats : loc) (unique : gset string)
    (filename : string) (w : World) :
  ∃ ok w', save_report stats unique filename w = (Return ok, w').
Proof.
  destruct (save_report_body stats unique filename w) as [[ok|e] w1] eqn:Hbody.
  - apply save_report_success in Hbody as [-> Hrun]. by eexists _, _.
  - eexists _, _. by apply save_report_failure.
Qed.

(** [main] on valid input files, up to the result of [save_report]. *)
Lemma main_reaches_save_report (w : World) (ncontent ccontent : string)
    (rows : list (list string)) (data : list float) :
  faults w = [] →
  files w !! NUMERICAL_FILE = Some ncontent →
  files w !! CATEGORICAL_FILE = Some ccontent →
  py_csv_reader (file_lines ncontent) = Return rows →
  validate_numerical_data (py := py_builtins) (csv_tokens rows) = Return data →
  ∃ w4 stats unique d,
    faults w4 = [] ∧ unwritable w4 = unwritable w ∧ files w4 = files w ∧
    dicts w4 !! stats = Some d ∧ renders (py := py_builtins) d ∧
    ∀ ok w5,
      save_report (py := py_builtins) stats unique REPORT_FILE w4 = (Return ok, w5) →
      main (py := py_builtins) w
        = (Return (),
           set_stdout (λ out, out ++ ["ANALYSIS COMPLETED SUCCESSFULLY!"])
             (set_stdout (λ out, out ++ [nl +:+ repeat_char "=" 50]) w5)).
Proof.
  intros Hfaults Hnum Hcat Hrows Hvalid.
  eassert (Hmain : main (py := py_builtins) w = _).
  { unfold main.
    unfold mbind at 1, M_bind at 1, print at 1, modify at 1.
    unfold mbind at 1, M_bind at 1, print at 1, modify at 1.
    unfold mbind at 1, M_bind at 1, path_exists at 1.
    unfold mbind at 1, M_bind at 1, get_world at 1, mret at 1, M_ret at 1.
    cbn [files set_stdout]. rewrite bool_decide_eq_true_2 by done.
    unfold mbind at 1, M_bind at 1, mret at 1, M_ret at 1.
    unfold mbind at 1, M_bind at 1, path_exists at 1.
    unfold mbind at 1, M_bind at 1, get_world at 1, mret at 1, M_ret at 1.
    cbn [files set_stdout]. rewrite bool_decide_eq_true_2 by done.
    unfold mbind at 1, M_bind at 1, mret at 1, M_ret at 1.
    unfold mbind at 1, M_bind at 1. rewrite DataSet_init_run.
    unfold try_except. rewrite (bind_run _ _ _ _ _ (print_run _ _)).
    reflexivity. }
  set (w2 := set_stdout _ (set_stdout _ w)) in Hmain.
  set (self := fresh (dom (datasets w2))) in Hmain.
  set (stats0 := fresh (dom (dicts w2))) in Hmain.
  set (ds0 := mk_DataSet (Some NUMERICAL_FILE) (Some CATEGORICAL_FILE) [] [] stats0 ∅)
    in Hmain.
  set (w3 := set_stdout _ (set_datasets _ (set_dicts _ w2))) in Hmain.
  assert (Hw3 : analysing self ds0 ∅ (files w) (unwritable w) w3).
  { split; [done|]. split; [done|]. split; [done|].
    split; apply lookup_insert_eq. }
  destruct (load_data_returns (py := py_builtins) self ds0 ∅ (files w) (unwritable w)
              NUMERICAL_FILE CATEGORICAL_FILE ccontent (csv_tokens rows) data w3)
    as (w3b & Hload & Hw3b); try done.
  { apply read_numerical_data_csv_run with ncontent; [done| |done].
    by apply read_text_quiet. }
  cbn [numerical_file categorical_file statistics unique_categories ds0] in Hw3b.
  set (ds1 := mk_DataSet _ _ _ _ _ _) in Hw3b.
  destruct (calculate_statistics_returns self (PyInt 75) ds1 ∅ (files w) (unwritable w)
              (set_stdout (λ out, out ++ [nl +:+ "2. CALCULATING STATISTICS..."]) w3b))
    as (w3c & ds2 & d & Hcalc & Hw3c & Hrenders); [done|apply renders_empty|].
  destruct (display_results_analysing (py := py_builtins) self ds2 d (files w) (unwritable w)
              (set_stdout (λ out, out ++ [nl +:+ "3. ANALYSIS RESULTS:"]) w3c))
    as (w3d & Hdisplay & Hw3d); [done|done|].
  set (w4 := set_stdout (λ out, out ++ [nl +:+ "4. SAVING REPORT..."]) w3d).
  assert (Hw4 : analysing self ds2 d (files w) (unwritable w) w4) by done.
  destruct Hw4 as (Hfaults4 & HU4 & Hfiles4 & Hds4 & Hd4).
  exists w4, (statistics ds2), (unique_categories ds2), d.
  split; [done|]. split; [done|]. split; [done|]. split; [done|]. split; [done|].
  intros ok w5 Hsave. rewrite Hmain.
  rewrite (bind_run _ _ _ _ _ Hload).
  rewrite (bind_run _ _ _ _ _ (print_run _ _)).
  rewrite (bind_run _ _ _ _ _ Hcalc).
  rewrite (bind_run _ _ _ _ _ (print_run _ _)).
  rewrite (bind_run _ _ _ _ _ Hdisplay).
  rewrite (bind_run _ _ _ _ _ (print_run _ _)).
  rewrite (bind_run _ _ _ _ _ (get_self_run _ _ _ Hds4)).
  rewrite (bind_run _ _ _ _ _ Hsave).
  reflexivity.
Qed.

End main_run.

(** X28: on input files that exist and are valid (a numeric CSV file with
    at least one token, every token a float), in a world without faults
    where the report can be written, [main] loads, analyses, displays and
    saves: it returns, the report file exists, and the console ends with the
    line of the saved report, the closing rule and the line of success. *)
Theorem main_completes_on_valid_input (w : World) (ncontent ccontent : string)
    (rows : list (list string)) (data : list float) :
  faults w = [] →
  files w !! NUMERICAL_FILE = Some ncontent →
  files w !! CATEGORICAL_FILE = Some ccontent →
  py_csv_reader (file_lines ncontent) = Return rows →
  validate_numerical_data (py := py_builtins) (csv_tokens rows) = Return data →
  REPORT_FILE ∉ unwritable w →
  ∃ w' out,
    main (py := py_builtins) w = (Return (), w') ∧
    is_Some (files w' !! REPORT_FILE) ∧
    stdout w'
      = out ++ ["Report saved to '" +:+ REPORT_FILE +:+ "'"; nl +:+ repeat_char "=" 50;
                "ANALYSIS COMPLETED SUCCESSFULLY!"].
Proof.
  intros Hfaults Hnum Hcat Hrows Hvalid Hwritable.
  destruct (main_reaches_save_report w ncontent ccontent rows data)
    as (w4 & stats & unique & d & Hfaults4 & HU4 & _ & Hd4 & Hrenders & Hmain); try done.
  destruct (save_report_true_run (py := py_builtins) stats d unique REPORT_FILE w4)
    as (w5 & Hsave & _ & Hfile & Hlast); [done| |].
  { split; [done|]. split; [by rewrite HU4|done]. }
  apply last_Some in Hlast as [out Hout].
  exists (set_stdout (λ out, out ++ ["ANALYSIS COMPLETED SUCCESSFULLY!"])
            (set_stdout (λ out, out ++ [nl +:+ repeat_char "=" 50]) w5)), out.
  split; [by apply Hmain with true|]. split; [done|].
  simpl. rewrite Hout. by rewrite <- !app_assoc.
Qed.

Lemma main_completes_on_valid_input_witness :
  ∃ w' out,
    main (py := py_builtins)
      (mk_World ∅ ∅ {[NUMERICAL_FILE := "85, 92" +:+ nl +:+ "78";
                      CATEGORICAL_FILE := "Art" +:+ nl +:+ "Music"]} ∅ [] [])
      = (Return (), w') ∧
    is_Some (files w' !! REPORT_FILE) ∧
    stdout w'
      = out ++ ["Report saved to '" +:+ REPORT_FILE +:+ "'"; nl +:+ repeat_char "=" 50;
                "ANALYSIS COMPLETED SUCCESSFULLY!"].
Proof.
  apply (main_completes_on_valid_input _ ("85, 92" +:+ nl +:+ "78") ("Art" +:+ nl +:+ "Music")
           [["85"; " 92"]; ["78"]] [85; 92; 78]%float).
  - vm_compute; exact eq_refl.
  - vm_compute; exact eq_refl.
  - vm_compute; exact eq_refl.
  - vm_compute; exact eq_refl.
  - vm_compute; exact eq_refl.
  - simpl. apply not_elem_of_empty.
Defined.

(** X29: [main] does not look at the result of [save_report]: on valid
    input files, when the report cannot be written, it prints the error of
    [save_report] and, right after, the closing rule and the line of
    success; no file has changed. *)
Theorem main_ignores_a_failed_save (w : World) (ncontent ccontent : string)
    (rows : list (list string)) (data : list float) :
  faults w = [] →
  files w !! NUMERICAL_FILE = Some ncontent →
  files w !! CATEGORICAL_FILE = Some ccontent →
  py_csv_reader (file_lines ncontent) = Return rows →
  validate_numerical_data (py := py_builtins) (csv_tokens rows) = Return data →
  REPORT_FILE ∈ unwritable w →
  ∃ w' out,
    main (py := py_builtins) w = (Return (), w') ∧
    files w' = files w ∧
    stdout w'
      = out ++ [" Error saving report: " +:+ exn_msg (permission_denied REPORT_FILE);
                nl +:+ repeat_char "=" 50; "ANALYSIS COMPLETED SUCCESSFULLY!"].
Proof.
  intros Hfaults Hnum Hcat Hrows Hvalid Hunwritable.
  destruct (main_reaches_save_report w ncontent ccontent rows data)
    as (w4 & stats & unique & d & Hfaults4 & HU4 & Hfiles4 & _ & _ & Hmain); try done.
  destruct (open_w_unwritable_files REPORT_FILE w4) as (e & w5 & Hopen & Hfiles5 & He);
    [by rewrite HU4|].
  rewrite (He Hfaults4) in Hopen.
  pose proof (save_report_failure (py := py_builtins) stats unique _ _ _ _
                (save_report_open_failure stats unique _ _ _ _ Hopen)) as Hsave.
  eexists _, (stdout w5). split; [by apply Hmain with false|].
  split; [simpl; congruence|]. simpl. by rewrite <- !app_assoc.
Qed.

Lemma main_ignores_a_failed_save_witness :
  ∃ w' out,
    main (py := py_builtins)
      (mk_World ∅ ∅ {[NUMERICAL_FILE := "85, 92" +:+ nl +:+ "78";
                      CATEGORICAL_FILE := "Art" +:+ nl +:+ "Music"]}
         {[REPORT_FILE]} [] [])
      = (Return (), w') ∧
    files w' = {[NUMERICAL_FILE := "85, 92" +:+ nl +:+ "78";
                 CATEGORICAL_FILE := "Art" +:+ nl +:+ "Music"]} ∧
    stdout w'
      = out ++ [" Error saving report: " +:+ exn_msg (permission_denied REPORT_FILE);
                nl +:+ repeat_char "=" 50; "ANALYSIS COMPLETED SUCCESSFULLY!"].
Proof.
  refine (main_ignores_a_failed_save
            (mk_World ∅ ∅ {[NUMERICAL_FILE := "85, 92" +:+ nl +:+ "78";
                            CATEGORICAL_FILE := "Art" +:+ nl +:+ "Music"]}
               {[REPORT_FILE]} [] [])
            ("85, 92" +:+ nl +:+ "78") ("Art" +:+ nl +:+ "Music")
            [["85"; " 92"]; ["78"]] [85; 92; 78]%float _ _ _ _ _ _).
  - vm_compute; exact eq_refl.
  - vm_compute; exact eq_refl.
  - vm_compute; exact eq_refl.
  - vm_compute; exact eq_refl.
  - vm_compute; exact eq_refl.
  - simpl. set_solver.
Defined.
